(** * R-PI: USB device manager and volume file service

    A shallow embedding of [utils/usb_manager.py] (class [USBManager]),
    [utils/file_operations.py] (class [FileOperations]) and the request
    handlers of [app.py].

    Python strings are modelled as [string], the sequence of the bytes of
    their UTF-8 encoding, on which the bytewise order is the order of code
    points.  [str.lower] is a function of the [Runtime] interface;
    [str.isdigit] and [str.strip], which the source applies to kernel device
    names and to the text of [/sys] files, are modelled on their ASCII
    range.  Operating-system calls
    and third-party library functions are reached through the [Host]
    and [Runtime] interfaces, so a theorem over them holds for every
    behaviour of the host; an in-memory host ([Sim.host]) is used for
    evaluation.  Calls to the logger are left out. *)

From Stdlib Require Import ZArith Ascii String List Lia Sorting Permutation.
From Stdlib Require Import DecimalString DecimalNat.
From stdpp Require Import base option list gmap strings.

Local Open Scope Z_scope.
Local Open Scope list_scope.

(** ** Python string primitives *)

Module PyStr.

Definition eqb (a b : string) : bool := String.eqb a b.

(** [bool(s)] for a string: the empty string is falsy. *)
Definition truthy (s : string) : bool := negb (eqb s "").

Definition is_digit (c : ascii) : bool :=
  ((48 <=? Z.of_N (N_of_ascii c)) && (Z.of_N (N_of_ascii c) <=? 57))%bool.

Definition is_upper (c : ascii) : bool :=
  ((65 <=? Z.of_N (N_of_ascii c)) && (Z.of_N (N_of_ascii c) <=? 90))%bool.

Definition lower_char (c : ascii) : ascii :=
  if is_upper c then ascii_of_N (N_of_ascii c + 32) else c.

(** What [s.lower()] gives on a string of ASCII characters; the in-memory
    runtime uses it. *)
Fixpoint ascii_lower (s : string) : string :=
  match s with
  | EmptyString => EmptyString
  | String c r => String (lower_char c) (ascii_lower r)
  end.

(** [s[:n]] and [s[n:]] for [0 <= n]. *)
Fixpoint take (n : nat) (s : string) : string :=
  match n, s with
  | S n', String c r => String c (take n' r)
  | _, _ => EmptyString
  end.

Fixpoint drop (n : nat) (s : string) : string :=
  match n, s with
  | S n', String _ r => drop n' r
  | _, _ => s
  end.

(** [s[i:i+1]]: the empty string when [i] is out of range. *)
Definition slice1 (s : string) (i : Z) : string :=
  if i <? 0 then EmptyString else take 1 (drop (Z.to_nat i) s).

Fixpoint rfind_from (c : ascii) (s : string) (i acc : Z) : Z :=
  match s with
  | EmptyString => acc
  | String a r => rfind_from c r (i + 1) (if Ascii.eqb a c then i else acc)
  end.

(** [s.rfind(c)]: index of the last occurrence, [-1] when absent. *)
Definition rfind (c : ascii) (s : string) : Z := rfind_from c s 0 (-1).

(** [c in s] for a one-character needle. *)
Fixpoint contains (c : ascii) (s : string) : bool :=
  match s with
  | EmptyString => false
  | String a r => (Ascii.eqb a c || contains c r)%bool
  end.

(** [s.split(c)]: never empty, one more piece than separators. *)
Fixpoint split (c : ascii) (s : string) : list string :=
  match s with
  | EmptyString => [EmptyString]
  | String a r =>
      if Ascii.eqb a c then EmptyString :: split c r
      else match split c r with
           | [] => [String a EmptyString]
           | h :: t => String a h :: t
           end
  end.

(** [s.split(c)[-1]] *)
Fixpoint last_piece (c : ascii) (s : string) : string :=
  match s with
  | EmptyString => EmptyString
  | String a r =>
      if contains c s then last_piece c r else s
  end.

(** [s.startswith(c)] and [s.endswith(c)] *)
Definition startswith (c : ascii) (s : string) : bool :=
  match s with
  | String a _ => Ascii.eqb a c
  | EmptyString => false
  end.

Fixpoint endswith (c : ascii) (s : string) : bool :=
  match s with
  | EmptyString => false
  | String a EmptyString => Ascii.eqb a c
  | String _ r => endswith c r
  end.

(** [s.replace('/dev/', '')]: every non-overlapping occurrence, scanning
    from the left. *)
Fixpoint remove_dev (s : string) : string :=
  match s with
  | String "/" (String "d" (String "e" (String "v" (String "/" r)))) =>
      remove_dev r
  | String a r => String a (remove_dev r)
  | EmptyString => EmptyString
  end.

Fixpoint lstrip (s : string) : string :=
  match s with
  | String a r => if Ascii.is_space a then lstrip r else s
  | EmptyString => EmptyString
  end.

Fixpoint rstrip (s : string) : string :=
  match s with
  | EmptyString => EmptyString
  | String a r =>
      match rstrip r with
      | EmptyString => if Ascii.is_space a then EmptyString
                       else String a EmptyString
      | r' => String a r'
      end
  end.

(** [s.strip()] *)
Definition strip (s : string) : string := rstrip (lstrip s).

(** [str(n)] for a non-negative integer. *)
Definition of_nat (n : nat) : string :=
  NilEmpty.string_of_uint (Nat.to_uint n).

End PyStr.

(** ** [os.path] on POSIX *)

Module PosixPath.

(** One step of the loop of [posixpath.join]. *)
Definition join2 (path b : string) : string :=
  if PyStr.startswith "/" b then b
  else if (negb (PyStr.truthy path) || PyStr.endswith "/" path)%bool
       then path +:+ b
       else path +:+ "/" +:+ b.

(** [os.path.join(a, *p)] *)
Definition join (a : string) (p : list string) : string :=
  fold_left join2 p a.
#[global] Arguments join : simpl never.

Fixpoint splitext_scan (p : string) (filenameIndex : Z) (n : nat) : bool :=
  match n with
  | O => false
  | S n' =>
      if negb (PyStr.eqb (PyStr.slice1 p filenameIndex) ".") then true
      else splitext_scan p (filenameIndex + 1) n'
  end.

(** [os.path.splitext(p)]: the extension starts at the last dot of the
    last component, unless that component consists of leading dots up to
    there. *)
Definition splitext (p : string) : string * string :=
  let sepIndex := PyStr.rfind "/" p in
  let dotIndex := PyStr.rfind "." p in
  if (sepIndex <? dotIndex)
       && splitext_scan p (sepIndex + 1) (Z.to_nat (dotIndex - (sepIndex + 1)))
  then (PyStr.take (Z.to_nat dotIndex) p, PyStr.drop (Z.to_nat dotIndex) p)
  else (p, EmptyString).

(** Resolution of a component sequence as done by [os.path.normpath] on an
    absolute path: empty and [.] components vanish, [..] removes the
    component before it (and is dropped at the root). *)
Definition resolve_step (stack : list string) (comp : string) : list string :=
  if (PyStr.eqb comp "" || PyStr.eqb comp ".")%bool then stack
  else if PyStr.eqb comp ".." then removelast stack
  else stack ++ [comp].

Definition resolve (comps : list string) : list string :=
  fold_left resolve_step comps [].

Definition components (p : string) : list string :=
  resolve (PyStr.split "/" p).

Fixpoint is_prefix (xs ys : list string) : bool :=
  match xs, ys with
  | [], _ => true
  | x :: xs', y :: ys' => (PyStr.eqb x y && is_prefix xs' ys')%bool
  | _ :: _, [] => false
  end.

(** [p] designates [root] or something below it. *)
Definition inside (root p : string) : bool :=
  is_prefix (components root) (components p).

(** No [..] component. *)
Definition no_parent_segment (p : string) : bool :=
  forallb (fun c => negb (PyStr.eqb c "..")) (PyStr.split "/" p).

Definition is_relative (p : string) : bool := negb (PyStr.startswith "/" p).

End PosixPath.

(** ** Python values, exceptions and results *)

(** The exceptions the two modules can see.  [Exception] is what the source
    raises itself; [OSError] is what [os.*] and [open] raise; [OtherError]
    stands for any other subclass of [Exception] raised by a library
    ([subprocess.TimeoutExpired], [json.JSONDecodeError], ...). *)
Inductive exn :=
| Exception (msg : string)
| OSError (msg : string)
| OtherError (msg : string)
| ZeroDivisionError.

Definition is_OSError (e : exn) : bool :=
  match e with OSError _ => true | _ => false end.

Inductive result (A : Type) :=
| Ok (a : A)
| Raise (e : exn).
Arguments Ok {A} a.
Arguments Raise {A} e.

(** The outcome of an [os], [shutil] or [open] call: these raise [OSError]
    (or a subclass) and nothing else. *)
Inductive os_result (A : Type) :=
| Done (a : A)
| Failed (msg : string).
Arguments Done {A} a.
Arguments Failed {A} msg.

Definition of_os {A} (r : os_result A) : result A :=
  match r with
  | Done a => Ok a
  | Failed msg => Raise (OSError msg)
  end.

(** The outcome of [datetime.fromtimestamp(t).isoformat()]: the text, an
    [OSError] (a timestamp the platform's [localtime] refuses), or a
    [ValueError] or [OverflowError] (a year outside the calendar). *)
Inductive time_result :=
| Formatted (s : string)
| Unsupported (msg : string)
| OutOfRange (msg : string).

Definition of_time (r : time_result) : result string :=
  match r with
  | Formatted s => Ok s
  | Unsupported msg => Raise (OSError msg)
  | OutOfRange msg => Raise (OtherError msg)
  end.

(** Values of the JSON columns printed by [lsblk -J]: a string or [null]. *)
Inductive pyval :=
| PNone
| PStr (s : string).

Global Instance pyval_eq_dec : EqDecision pyval.
Proof. solve_decision. Defined.

(** A block-device dictionary, as in the source. *)
Abbreviation device := (gmap string pyval).

(** [subprocess.CompletedProcess] *)
Record completed := { returncode : Z; stdout : string; stderr : string }.

(** [shutil.disk_usage] *)
Record usage := { total : Z; used : Z; free : Z }.

(** [os.stat_result], the fields the source reads. *)
Record stat_result := { st_size : Z; st_mtime : Z; st_ctime : Z }.

(** The state-changing calls into the host, in the order they were issued. *)
Inductive event :=
| ERun (argv : list string)
| EMakedirs (path : string)
| ERmdir (path : string)
| ERename (src dst : string)
| ERemove (path : string)
| ERmtree (path : string)
| EWrite (path : string) (data : string).

(** ** The host and the libraries *)

(** The operating system as the two modules use it, over a world [W].
    Queries read the world; commands return the next world.  Anything may
    fail the way the Python call can: [os_result] for the calls that raise
    [OSError] only, [result] for [subprocess.run] (which can also time out)
    and for reading a text file (which can also fail to decode). *)
Class Host (W : Type) := {
  (* os.getpid() *)
  getpid : W → nat;
  (* os.path.exists, os.path.ismount, os.path.isdir, Path.is_block_device *)
  path_exists : string → W → bool;
  path_ismount : string → W → bool;
  path_isdir : string → W → bool;
  is_block_device : string → W → bool;
  (* Path('/dev').glob(pattern), as path strings *)
  glob_dev : string → W → os_result (list string);
  (* open(path, 'r').read() *)
  read_text : string → W → result string;
  (* os.listdir, os.stat, shutil.disk_usage *)
  listdir : string → W → os_result (list string);
  stat : string → W → os_result stat_result;
  disk_usage : string → W → os_result usage;
  (* os.makedirs(path, exist_ok=True), os.rmdir, os.rename, os.remove,
     shutil.rmtree *)
  makedirs : string → W → os_result unit * W;
  rmdir : string → W → os_result unit * W;
  rename : string → string → W → os_result unit * W;
  remove : string → W → os_result unit * W;
  rmtree : string → W → os_result unit * W;
  (* open(path, 'wb') followed by shutil.copyfileobj(stream, f) *)
  write_file : string → string → W → os_result unit * W;
  (* subprocess.run(argv, capture_output=True, text=True, timeout=t) *)
  run : list string → Z → W → result completed * W
}.

(** Library functions that are not part of the repository.  [float] is the
    type of Python floats; its arithmetic is kept symbolic. *)
Class Runtime := {
  float : Type;
  (* a / b on integers with b <> 0; a * k and round(x, n) on floats *)
  int_truediv : Z → Z → float;
  float_mul_int : float → Z → float;
  round_ndigits : float → Z → float;
  (* json.loads(stdout).get('blockdevices', []): the entries with their
     string-or-null columns; raises on a malformed document *)
  lsblk_blockdevices : string → result (list device);
  (* werkzeug.utils.secure_filename *)
  secure_filename : string → string;
  (* s.lower() *)
  lower : string → string;
  (* datetime.fromtimestamp(t).isoformat() *)
  isoformat : Z → time_result
}.

(** ** A state-and-exception monad for method bodies *)

Record state (W S : Type) := mkState {
  world : W;
  trace : list event;
  self : S
}.
Arguments mkState {W S} _ _ _.
Arguments world {W S} _.
Arguments trace {W S} _.
Arguments self {W S} _.

Definition M (W S A : Type) : Type := state W S → result A * state W S.

Section Monad.
Context {W S : Type}.

Definition ret {A} (a : A) : M W S A := fun st => (Ok a, st).

Definition raise {A} (e : exn) : M W S A := fun st => (Raise e, st).

Definition bind {A B} (m : M W S A) (k : A → M W S B) : M W S B :=
  fun st =>
    match m st with
    | (Ok a, st') => k a st'
    | (Raise e, st') => (Raise e, st')
    end.

(** [try: m except <filter>: h]; what [m] did before raising stays done. *)
Definition try_except {A} (m : M W S A) (catches : exn → bool)
    (h : exn → M W S A) : M W S A :=
  fun st =>
    match m st with
    | (Ok a, st') => (Ok a, st')
    | (Raise e, st') => if catches e then h e st' else (Raise e, st')
    end.

Definition get_world : M W S W := fun st => (Ok (world st), st).
Definition get_self : M W S S := fun st => (Ok (self st), st).
Definition put_self (s : S) : M W S unit :=
  fun st => (Ok tt, mkState (world st) (trace st) s).

(** Lift a query result ([raise] when the call raised). *)
Definition of_result {A} (r : result A) : M W S A :=
  fun st => (match r with Ok a => Ok a | Raise e => Raise e end, st).

(** Issue a command: log it, move to the next world. *)
Definition command {A} (ev : event) (f : W → result A * W) : M W S A :=
  fun st =>
    let '(r, w') := f (world st) in
    (r, mkState w' (trace st ++ [ev]) (self st)).

(** The same for an [os] call. *)
Definition os_command {A} (ev : event) (f : W → os_result A * W) : M W S A :=
  command ev (fun w => let '(r, w') := f w in (of_os r, w')).

End Monad.

Notation "'let*' x ':=' m 'in' k" := (bind m (fun x => k))
  (at level 10, x name, m at level 100, k at level 200).
Notation "'run*' m 'in' k" := (bind m (fun _ => k))
  (at level 10, m at level 100, k at level 200).

Definition any_exception (e : exn) : bool := true.

(** ** [utils/usb_manager.py] *)

Module USBManager.

(** The instance attributes. *)
Record t := mk {
  mount_point : option string;
  mounted_device : option string;
  mount_base : string
}.

(** [bool(x)] for an attribute that is [None] or a string. *)
Definition truthy (x : option string) : bool :=
  match x with
  | None => false
  | Some s => PyStr.truthy s
  end.

Definition set_session (mp dev : option string) (m : t) : t :=
  mk mp dev (mount_base m).

(** [device.get(key) == value] *)
Definition field_is (d : device) (key value : string) : bool :=
  bool_decide (d !! key = Some (PStr value)).

(** [device['name']] when it is a string. *)
Definition name_of (d : device) : option string :=
  match d !! "name" with
  | Some (PStr n) => Some n
  | _ => None
  end.

(** The loop of [_is_usb_partition]: keep what precedes the first digit. *)
Fixpoint cut_at_digit (s : string) : string :=
  match s with
  | EmptyString => EmptyString
  | String c r => if PyStr.is_digit c then EmptyString
                  else String c (cut_at_digit r)
  end.

(** The disk name [_is_usb_partition] derives from a partition name. *)
Definition disk_name_of (device_name : string) : string :=
  cut_at_digit
    (if PyStr.contains "/" device_name
     then PyStr.last_piece "/" device_name
     else device_name).

(** [_is_usb_partition]: a missing or non-string name raises inside the
    [try] and yields [False]. *)
Definition _is_usb_partition (d : device) (usb_disks : gset string) : bool :=
  match name_of d with
  | Some device_name =>
      bool_decide ("/dev/" +:+ disk_name_of device_name ∈ usb_disks)
  | None => false
  end.

(** The dictionary appended for a partition; [device['name']] is only
    evaluated after [_is_usb_partition] found the name. *)
Definition device_info (d : device) : device :=
  list_to_map
    [ ("name", default PNone (d !! "name"));
      ("size", default (PStr "Unknown") (d !! "size"));
      ("label", default (PStr "No Label") (d !! "label"));
      ("mountpoint", default (PStr "") (d !! "mountpoint"));
      ("type", default (PStr "") (d !! "type"));
      ("fstype", default (PStr "") (d !! "fstype")) ].

(** The second loop of [get_available_devices]. *)
Definition usb_partitions (blockdevices : list device)
    (usb_disks : gset string) : list device :=
  device_info <$>
    List.filter
      (fun d => field_is d "type" "part" && _is_usb_partition d usb_disks)
      blockdevices.

Section Methods.
Context {W : Type} {HW : Host W} {RT : Runtime}.

Abbreviation Op := (M W t).

(** [__init__] on a fresh object. *)
Definition init {S} : M W S t :=
  let m := mk None None "/media/usb" in
  run* os_command (EMakedirs (mount_base m)) (makedirs (mount_base m)) in
  ret m.

(** [_is_removable_disk]: any exception inside yields [False]. *)
Definition _is_removable_disk (d : device) (w : W) : bool :=
  match name_of d with
  | Some name =>
      let device_name := PyStr.remove_dev name in
      let device_path := "/sys/block/" +:+ device_name in
      if path_exists device_path w then
        let removable_path := PosixPath.join device_path ["removable"] in
        if path_exists removable_path w then
          match read_text removable_path w with
          | Ok contents => PyStr.eqb (PyStr.strip contents) "1"
          | Raise _ => false
          end
        else false
      else false
  | None => false
  end.

(** The first loop of [get_available_devices].  [usb_disks.add] is only
    reached after [_is_removable_disk] returned [True], which needs a
    string name; the other branch is dead. *)
Definition find_usb_disks (blockdevices : list device) (w : W)
    : gset string :=
  fold_left
    (fun usb_disks d =>
       if field_is d "type" "disk" && _is_removable_disk d w then
         match name_of d with
         | Some name => usb_disks ∪ {[ name ]}
         | None => usb_disks
         end
       else usb_disks)
    blockdevices ∅.

(** The size query of the fallback; a raising call gives ['Unknown']. *)
Definition fallback_size (device_path : string) : Op string :=
  try_except
    (let* r := command (ERun ["lsblk"; "-n"; "-o"; "SIZE"; device_path])
                 (run ["lsblk"; "-n"; "-o"; "SIZE"; device_path] 5) in
     ret (PyStr.strip (stdout r)))
    any_exception
    (fun _ => ret "Unknown").

Fixpoint fallback_paths (paths : list string) (devices : list device)
    : Op (list device) :=
  match paths with
  | [] => ret devices
  | device_path :: rest =>
      let* w := get_world in
      if is_block_device device_path w then
        let* size := fallback_size device_path in
        fallback_paths rest
          (devices ++
             [list_to_map
                [ ("name", PStr device_path);
                  ("size", PStr size);
                  ("label", PStr "USB Device");
                  ("mountpoint", PStr "");
                  ("type", PStr "disk") ]])
      else fallback_paths rest devices
  end.

Fixpoint fallback_patterns (patterns : list string) (devices : list device)
    : Op (list device) :=
  match patterns with
  | [] => ret devices
  | pattern :: rest =>
      let* w := get_world in
      match glob_dev (PyStr.remove_dev pattern) w with
      | Done paths =>
          let* devices' := fallback_paths paths devices in
          fallback_patterns rest devices'
      | Failed _ => ret devices
      end
  end.

(** [_get_devices_fallback]: never raises; on an exception it returns
    what it has collected. *)
Definition _get_devices_fallback : Op (list device) :=
  fallback_patterns ["/dev/sd*"; "/dev/usb*"] [].

(** The body of the [try] in [get_available_devices]. *)
Definition enumerate_primary : Op (list device) :=
  let* r := command
              (ERun ["lsblk"; "-J"; "-o"; "NAME,SIZE,TYPE,MOUNTPOINT,LABEL,FSTYPE"])
              (run ["lsblk"; "-J"; "-o"; "NAME,SIZE,TYPE,MOUNTPOINT,LABEL,FSTYPE"] 10) in
  if returncode r =? 0 then
    let* blockdevices := of_result (lsblk_blockdevices (stdout r)) in
    let* w := get_world in
    let usb_disks := find_usb_disks blockdevices w in
    ret (usb_partitions blockdevices usb_disks)
  else ret [].

Definition get_available_devices : Op (list device) :=
  try_except enumerate_primary any_exception
    (fun _ => _get_devices_fallback).

Definition unmount_device : Op bool :=
  let* m := get_self in
  if negb (truthy (mount_point m)) then ret true
  else
    let mp := default "" (mount_point m) in
    let* result := command (ERun ["sudo"; "umount"; mp])
                     (run ["sudo"; "umount"; mp] 30) in
    run* try_except (os_command (ERmdir mp) (rmdir mp)) is_OSError
           (fun _ => ret tt) in
    let* m := get_self in
    run* put_self (set_session None None m) in
    ret true.

(** [mount_device], lines 149-151: a session in place is torn down
    first. *)
Definition supersede : Op unit :=
  let* m := get_self in
  if truthy (mount_point m)
  then (run* unmount_device in ret tt)
  else ret tt.

(** [mount_device], lines 157-171: the plain attempt, then the one with
    [-t auto]. *)
Definition attempt_mount (device_name mount_point : string) : Op unit :=
  let* result := command (ERun ["sudo"; "mount"; device_name; mount_point])
                   (run ["sudo"; "mount"; device_name; mount_point] 30) in
  if negb (returncode result =? 0) then
    let* result :=
      command (ERun ["sudo"; "mount"; "-t"; "auto"; device_name; mount_point])
        (run ["sudo"; "mount"; "-t"; "auto"; device_name; mount_point] 30) in
    if negb (returncode result =? 0) then
      raise (Exception ("Failed to mount device: " +:+ stderr result))
    else ret tt
  else ret tt.

(** [mount_device], lines 153-181: the mount directory, the attempts,
    the verification and the new session. *)
Definition mount_at_own_point (device_name : string) : Op string :=
  let* m := get_self in
  let* w := get_world in
  let mount_point :=
    PosixPath.join (mount_base m) ["usb_" +:+ PyStr.of_nat (getpid w)] in
  run* os_command (EMakedirs mount_point) (makedirs mount_point) in
  run* attempt_mount device_name mount_point in
  let* w := get_world in
  if negb (path_ismount mount_point w) then
    raise (Exception "Mount verification failed")
  else
    let* m := get_self in
    run* put_self (set_session (Some mount_point) (Some device_name) m) in
    ret mount_point.

Definition mount_device (device_name : string) : Op string :=
  let* w := get_world in
  if negb (path_exists device_name w) then
    raise (Exception ("Device " +:+ device_name +:+ " does not exist"))
  else
    run* supersede in
    mount_at_own_point device_name.

(** A Python number: the literal [0] of the default status is an
    [int], a computed percentage is a [float]. *)
Inductive number :=
| Int (z : Z)
| Float (f : float).

(** The dictionary returned by [get_status]. *)
Record status := mkStatus {
  mounted : bool;
  device : option string;
  status_mount_point : option string;
  total_space : Z;
  used_space : Z;
  free_space : Z;
  usage_percent : number
}.

Definition unmounted_status : status :=
  mkStatus false None None 0 0 0 (Int 0).

(** [a / b] on integers. *)
Definition truediv {S} (a b : Z) : M W S float :=
  if b =? 0 then raise ZeroDivisionError else ret (int_truediv a b).

Definition get_status : Op status :=
  let status := unmounted_status in
  let* m := get_self in
  let* w := get_world in
  if (negb (truthy (mount_point m))
      || negb (path_ismount (default "" (mount_point m)) w))%bool
  then ret status
  else
    try_except
      (let* usage := of_result (of_os (disk_usage (default "" (mount_point m)) w)) in
       let* q := truediv (used usage) (total usage) in
       ret (mkStatus true (mounted_device m) (mount_point m)
              (total usage) (used usage) (free usage)
              (Float (round_ndigits (float_mul_int q 100) 1))))
      any_exception
      (fun _ => ret status).

Definition is_device_mounted (m : t) (w : W) : bool :=
  match mount_point m with
  | Some mp => path_ismount mp w
  | None => false
  end.

Definition get_mount_point (m : t) (w : W) : option string :=
  if is_device_mounted m w then mount_point m else None.

Definition get_mounted_device (m : t) (w : W) : option string :=
  if is_device_mounted m w then mounted_device m else None.

End Methods.

End USBManager.

(** ** [utils/file_operations.py]

    [_format_size] (floating-point formatting) is not part of the model;
    [magic.from_buffer] is a parameter of [is_valid_file]. *)

Module FileOperations.

(** The instance attributes the modelled methods read. *)
Record t := mk {
  usb_manager : option USBManager.t;
  max_file_size : Z
}.

(** An entry of a listing.  The [permissions] and [human_size] keys of the
    source (octal and floating-point formatting) are left out. *)
Record file_info := mkFileInfo {
  name : string;
  path : string;
  is_directory : bool;
  size : Z;
  modified : string;
  created : string;
  type : string;
  icon : string
}.

(** The dictionary returned by upload, rename and create-folder (again
    without [human_size]). *)
Record entry_info := mkEntryInfo {
  entry_name : string;
  entry_path : string;
  entry_size : Z;
  entry_modified : string;
  entry_type : string;
  entry_icon : string
}.

(** A werkzeug [FileStorage]: the client's file name and the stream. *)
Record upload := mkUpload {
  filename : string;
  content : string
}.

Definition icon_map : gmap string string :=
  list_to_map
    [ (".jpg", "image"); (".jpeg", "image"); (".png", "image");
      (".gif", "image"); (".bmp", "image"); (".tiff", "image");
      (".webp", "image");
      (".pdf", "pdf"); (".doc", "word"); (".docx", "word");
      (".txt", "text"); (".rtf", "text"); (".odt", "text");
      (".xls", "excel"); (".xlsx", "excel"); (".csv", "table");
      (".ods", "table");
      (".ppt", "powerpoint"); (".pptx", "powerpoint");
      (".odp", "presentation");
      (".zip", "archive"); (".rar", "archive"); (".7z", "archive");
      (".tar", "archive"); (".gz", "archive");
      (".mp4", "video"); (".avi", "video"); (".mkv", "video");
      (".mov", "video"); (".wmv", "video"); (".flv", "video");
      (".mp3", "audio"); (".wav", "audio"); (".flac", "audio");
      (".aac", "audio"); (".ogg", "audio");
      (".py", "code"); (".js", "code"); (".html", "code");
      (".css", "code"); (".json", "code"); (".xml", "code");
      (".sql", "code") ].

Definition _get_file_type (filename : string) (is_directory : bool) : string :=
  if is_directory then "folder" else "unknown".

Definition _get_file_icon {RT : Runtime} (filename : string)
    (is_directory : bool) : string :=
  if is_directory then "folder"
  else
    let ext := snd (PosixPath.splitext (lower filename)) in
    default "file" (icon_map !! ext).

#[global] Arguments _get_file_icon : simpl never.
#[global] Arguments _get_file_type : simpl never.

(** The sort key of [list_files]: [(not is_directory, name.lower())]. *)
Definition sort_key {RT : Runtime} (x : file_info) : bool * string :=
  (negb (is_directory x), lower (name x)).

(** [k1 < k2] on such tuples: [False < True], then strings by code point. *)
Definition key_lt (k1 k2 : bool * string) : bool :=
  match fst k1, fst k2 with
  | false, true => true
  | true, false => false
  | _, _ => String.ltb (snd k1) (snd k2)
  end.

(** [list.sort(key=...)] is a stable sort that only uses [<] on keys; a
    stable insertion sort gives the same list. *)
Fixpoint insert_sorted {RT : Runtime} (x : file_info) (l : list file_info)
    : list file_info :=
  match l with
  | [] => [x]
  | y :: l' =>
      if key_lt (sort_key y) (sort_key x) then y :: insert_sorted x l'
      else x :: y :: l'
  end.

Fixpoint sort {RT : Runtime} (l : list file_info) : list file_info :=
  match l with
  | [] => []
  | x :: l' => insert_sorted x (sort l')
  end.

(** [self.allowed_extensions], set once in [__init__]. *)
Definition allowed_extensions : gset string :=
  list_to_set
    [ ".txt"; ".pdf"; ".png"; ".jpg"; ".jpeg"; ".gif"; ".doc"; ".docx";
      ".xls"; ".xlsx"; ".ppt"; ".pptx"; ".zip"; ".rar"; ".mp3"; ".mp4";
      ".avi"; ".mov"; ".wmv"; ".flv"; ".webm"; ".mkv"; ".csv"; ".json";
      ".xml"; ".html"; ".css"; ".js"; ".py"; ".java"; ".cpp"; ".c";
      ".h"; ".hpp"; ".md"; ".log"; ".ini"; ".cfg"; ".conf"; ".yml";
      ".yaml"; ".toml"; ".sql"; ".db"; ".sqlite"; ".bak"; ".tmp" ].

(** [is_valid_file]; [from_buffer] is [magic.from_buffer(content,
    mime=True)], whose answer is not looked at and whose failure is caught
    by the bare [except]. *)
Definition is_valid_file {RT : Runtime} (from_buffer : string → result string)
    (file : upload) : bool :=
  let filename := lower (filename file) in
  if negb (PyStr.truthy filename) then false
  else
    let ext := snd (PosixPath.splitext filename) in
    if negb (bool_decide (ext ∈ allowed_extensions)) then false
    else
      let content := PyStr.take 1024 (content file) in
      match from_buffer content with
      | Ok file_type => true
      | Raise _ => bool_decide (ext ∈ allowed_extensions)
      end.

(** The candidate name of the collision loop for a given counter. *)
Definition numbered (original_filename : string) (counter : nat) : string :=
  let '(name, ext) := PosixPath.splitext original_filename in
  name +:+ "_" +:+ PyStr.of_nat counter +:+ ext.

Section Methods.
Context {W : Type} {HW : Host W} {RT : Runtime}.

Abbreviation Op := (M W t).

Definition _get_usb_manager : Op USBManager.t :=
  let* s := get_self in
  match usb_manager s with
  | Some m => ret m
  | None =>
      let* m := USBManager.init in
      run* put_self (mk (Some m) (max_file_size s)) in
      ret m
  end.

(** The mount point or ["No USB device mounted"], as every method
    starts. *)
Definition mounted_root : Op string :=
  let* usb_manager := _get_usb_manager in
  let* w := get_world in
  let mount_point := USBManager.get_mount_point usb_manager w in
  if negb (USBManager.truthy mount_point) then
    raise (Exception "No USB device mounted")
  else ret (default "" mount_point).

(** The body of the [try] inside the loop of [list_files], lines 65-80:
    the entry of one item. *)
Definition item_info (full_path path item : string) (w : W) : result file_info :=
  let item_path := PosixPath.join full_path [item] in
  let relative_path :=
    if PyStr.truthy path then PosixPath.join path [item] else item in
  match stat item_path w with
  | Failed msg => Raise (OSError msg)
  | Done st =>
      let is_dir := path_isdir item_path w in
      match of_time (isoformat (st_mtime st)) with
      | Raise e => Raise e
      | Ok modified =>
          match of_time (isoformat (st_ctime st)) with
          | Raise e => Raise e
          | Ok created =>
              Ok (mkFileInfo item relative_path is_dir
                    (if negb is_dir then st_size st else 0)
                    modified created
                    (_get_file_type item is_dir) (_get_file_icon item is_dir))
          end
      end
  end.

(** The [for] loop of [list_files]: an [OSError] raised for an item skips
    that item, any other exception ends the loop and leaves the method. *)
Fixpoint list_items (full_path path : string) (items : list string)
    (w : W) (files : list file_info) : result (list file_info) :=
  match items with
  | [] => Ok files
  | item :: rest =>
      match item_info full_path path item w with
      | Ok file_info => list_items full_path path rest w (files ++ [file_info])
      | Raise e =>
          if is_OSError e then list_items full_path path rest w files
          else Raise e
      end
  end.

Definition list_files (path : string) : Op (list file_info) :=
  let* mount_point := mounted_root in
  let* w := get_world in
  let full_path := PosixPath.join mount_point [path] in
  if negb (path_exists full_path w) then
    raise (Exception ("Path does not exist: " +:+ path))
  else
    let* items := of_result (of_os (listdir full_path w)) in
    let* files := of_result (list_items full_path path items w []) in
    ret (sort files).

(** The [while os.path.exists(file_path)] loop of [upload_file], run for
    at most [fuel] tests; [None] when the fuel is spent. *)
Fixpoint free_name (fuel : nat) (w : W) (mount_point original_filename : string)
    (counter : nat) (filename file_path : string) : option (string * string) :=
  match fuel with
  | O => None
  | S fuel' =>
      if path_exists file_path w then
        let filename := numbered original_filename counter in
        let file_path := PosixPath.join mount_point [filename] in
        free_name fuel' w mount_point original_filename (S counter)
          filename file_path
      else Some (filename, file_path)
  end.

(** [upload_file]; the result is [None] only when the collision loop
    did not finish within [fuel] tests. *)
Definition upload_file (fuel : nat) (file : upload) : Op (option entry_info) :=
  let* mount_point := mounted_root in
  let filename := secure_filename (filename file) in
  if negb (PyStr.truthy filename) then raise (Exception "Invalid filename")
  else
    let file_size := Z.of_nat (String.length (content file)) in
    let* s := get_self in
    if max_file_size s <? file_size then
      raise (Exception "File too large (max 100MB)")
    else
      let file_path := PosixPath.join mount_point [filename] in
      let* w := get_world in
      match free_name fuel w mount_point filename 1 filename file_path with
      | None => ret None
      | Some (filename, file_path) =>
          run* os_command (EWrite file_path (content file))
                 (write_file file_path (content file)) in
          let* w := get_world in
          let* st := of_result (of_os (stat file_path w)) in
          let* modified := of_result (of_time (isoformat (st_mtime st))) in
          ret (Some (mkEntryInfo filename filename (st_size st) modified
                       (_get_file_type filename false)
                       (_get_file_icon filename false)))
      end.

Definition delete_file (filename : string) : Op bool :=
  let* mount_point := mounted_root in
  let* w := get_world in
  let file_path := PosixPath.join mount_point [filename] in
  if negb (path_exists file_path w) then
    raise (Exception ("File not found: " +:+ filename))
  else
    run* (if path_isdir file_path w
          then os_command (ERmtree file_path) (rmtree file_path)
          else os_command (ERemove file_path) (remove file_path)) in
    ret true.

Definition rename_file (old_name new_name : string) : Op entry_info :=
  let* mount_point := mounted_root in
  let* w := get_world in
  let old_path := PosixPath.join mount_point [old_name] in
  let new_path := PosixPath.join mount_point [new_name] in
  if negb (path_exists old_path w) then
    raise (Exception ("File not found: " +:+ old_name))
  else if path_exists new_path w then
    raise (Exception ("File already exists: " +:+ new_name))
  else
    run* os_command (ERename old_path new_path) (rename old_path new_path) in
    let* w := get_world in
    let* st := of_result (of_os (stat new_path w)) in
    let* modified := of_result (of_time (isoformat (st_mtime st))) in
    ret (mkEntryInfo new_name new_name (st_size st) modified
           (_get_file_type new_name (path_isdir new_path w))
           (_get_file_icon new_name (path_isdir new_path w))).

Definition create_folder (folder_name parent_path : string) : Op entry_info :=
  let* mount_point := mounted_root in
  let folder_name := secure_filename folder_name in
  if negb (PyStr.truthy folder_name) then
    raise (Exception "Invalid folder name")
  else
    let full_path :=
      if PyStr.truthy parent_path
      then PosixPath.join mount_point [parent_path; folder_name]
      else PosixPath.join mount_point [folder_name] in
    let* w := get_world in
    if path_exists full_path w then
      raise (Exception ("Folder already exists: " +:+ folder_name))
    else
      run* os_command (EMakedirs full_path) (makedirs full_path) in
      let* w := get_world in
      let* st := of_result (of_os (stat full_path w)) in
      let path :=
        if PyStr.truthy parent_path
        then PosixPath.join parent_path [folder_name]
        else folder_name in
      let* modified := of_result (of_time (isoformat (st_mtime st))) in
      ret (mkEntryInfo folder_name path 0 modified "folder" "folder").

Definition get_file_path (filename : string) : Op string :=
  let* mount_point := mounted_root in
  ret (PosixPath.join mount_point [filename]).

End Methods.

End FileOperations.

(** ** [app.py]

    The request handlers over the module's two objects.  What Flask and
    werkzeug do around a handler (routing, [jsonify]) is not modelled: a
    handler takes what reading the request gives, the values or the
    exception raised, and returns the response it builds.  The page [index]
    is left out. *)

Module App.

(** The globals [usb_manager] and [file_ops]. *)
Record t := mk {
  usb_manager : USBManager.t;
  file_ops : FileOperations.t
}.

(** [request.files]: reading it raises [RequestEntityTooLarge] for a body
    over [MAX_CONTENT_LENGTH], or another exception for a body that cannot
    be read. *)
Inductive form :=
| TooLarge
| Unreadable (e : exn)
| Form (files : gmap string FileOperations.upload).

(** [data = request.get_json()] as the handlers use it: the object of the
    body, of which string values are read with [data.get]; or the exception
    raised by [get_json] (no JSON in the body) or by [data.get] (a body
    that is not an object). *)
Inductive json :=
| NoObject (e : exn)
| Object (data : gmap string string).

(** What reaches a handler: its route, with the URL variables, the query
    arguments, the form or the JSON body. *)
Inductive request :=
| GetUsbDevices
| MountUsbDevice (device : string)
| UnmountUsbDevice
| GetUsbFiles (args : gmap string string)
| UploadToUsb (body : form)
| DeleteUsbFile (filename : string)
| GetUsbStatus
| CreateFolder (body : json)
| RenameFile (filename : string) (body : json)
| DownloadFile (filename : string).

(** Library functions the handlers call: [urllib.parse.unquote],
    [magic.from_buffer] and [flask.send_file] (which reads the file and can
    fail). *)
Class Libraries (W : Type) := {
  unquote : string → string;
  from_buffer : string → result string;
  send_file : string → W → result unit
}.

(** [str(e)] *)
Definition str (e : exn) : string :=
  match e with
  | Exception msg => msg
  | OSError msg => msg
  | OtherError msg => msg
  | ZeroDivisionError => "division by zero"
  end.

(** [str] of the [NotFound] that [abort(404)] raises. *)
Definition not_found_description : string :=
  "404 Not Found: The requested URL was not found on the server. If you entered the URL manually please check your spelling and try again.".

Section Handlers.
Context {W : Type} {HW : Host W} {RT : Runtime} {LB : Libraries W}.

(** The keys of a successful answer beside ['success': True]. *)
Inductive payload :=
| Devices (devices : list device)
| Mounted (mount_point message : string)
| Message (message : string)
| Files (files : list FileOperations.file_info)
| FileInfo (message : string) (file_info : FileOperations.entry_info)
| FolderInfo (message : string) (folder_info : FileOperations.entry_info)
| Status (status : USBManager.status).

(** A response: [jsonify({'success': True, ...})] with status 200,
    [jsonify({'success': False, 'error': ...}), code], or the file sent as
    an attachment. *)
Inductive response :=
| Json (data : payload)
| Error (code : Z) (error : string)
| Attachment (file_path : string).

Abbreviation Op := (M W t).

(** A method call on one of the two globals. *)
Definition on_usb_manager {A} (m : M W USBManager.t A) : Op A :=
  fun st =>
    let '(r, st') := m (mkState (world st) (trace st) (usb_manager (self st))) in
    (r, mkState (world st') (trace st') (mk (self st') (file_ops (self st)))).

Definition on_file_ops {A} (m : M W FileOperations.t A) : Op A :=
  fun st =>
    let '(r, st') := m (mkState (world st) (trace st) (file_ops (self st))) in
    (r, mkState (world st') (trace st') (mk (usb_manager (self st)) (self st'))).

(** The module body: the two objects and the upload directory. *)
Definition load {S} : M W S t :=
  let* usb_manager := USBManager.init in
  let file_ops := FileOperations.mk None (100 * 1024 * 1024) in
  run* os_command (EMakedirs "/tmp/uploads") (makedirs "/tmp/uploads") in
  ret (mk usb_manager file_ops).

(** [try: ... except Exception as e: return jsonify({'success': False,
    'error': str(e)}), 500] *)
Definition or_500 (body : Op response) : Op response :=
  try_except body any_exception (fun e => ret (Error 500 (str e))).

Definition get_usb_devices : Op response :=
  or_500
    (let* devices := on_usb_manager USBManager.get_available_devices in
     ret (Json (Devices devices))).

Definition mount_usb_device (device : string) : Op response :=
  let device := unquote device in
  or_500
    (let* mount_point := on_usb_manager (USBManager.mount_device device) in
     ret (Json (Mounted mount_point
                  ("Device " +:+ device +:+ " mounted successfully")))).

Definition unmount_usb_device : Op response :=
  or_500
    (run* on_usb_manager USBManager.unmount_device in
     ret (Json (Message "USB device unmounted successfully"))).

Definition get_usb_files (args : gmap string string) : Op response :=
  or_500
    (let path := default "" (args !! "path") in
     let* files := on_file_ops (FileOperations.list_files path) in
     ret (Json (Files files))).

(** [upload_to_usb]; [None] when the collision loop of [upload_file] did
    not finish within [fuel] tests. *)
Definition upload_to_usb (fuel : nat) (body : form) : Op (option response) :=
  match body with
  | TooLarge => ret (Some (Error 413 "File too large (max 100MB)"))
  | Unreadable e => ret (Some (Error 500 (str e)))
  | Form files =>
      try_except
        (match files !! "file" with
         | None => ret (Some (Error 400 "No file provided"))
         | Some file =>
             if PyStr.eqb (FileOperations.filename file) "" then
               ret (Some (Error 400 "No file selected"))
             else if negb (FileOperations.is_valid_file from_buffer file) then
               ret (Some (Error 400 "Invalid file type"))
             else
               let* result :=
                 on_file_ops (FileOperations.upload_file fuel file) in
               ret (option_map
                      (fun file_info =>
                         Json (FileInfo
                                 ("File " +:+ FileOperations.filename file
                                  +:+ " uploaded successfully")
                                 file_info))
                      result)
         end)
        any_exception
        (fun e => ret (Some (Error 500 (str e))))
  end.

Definition delete_usb_file (filename : string) : Op response :=
  or_500
    (run* on_file_ops (FileOperations.delete_file filename) in
     ret (Json (Message ("File " +:+ filename +:+ " deleted successfully")))).

Definition get_usb_status : Op response :=
  or_500
    (let* status := on_usb_manager USBManager.get_status in
     ret (Json (Status status))).

(** The first lines of the two handlers with a JSON body: [get_json] and
    [data.get] are inside the [try]. *)
Definition get_json (body : json) : Op (gmap string string) :=
  match body with
  | NoObject e => raise e
  | Object data => ret data
  end.

Definition create_folder (body : json) : Op response :=
  or_500
    (let* data := get_json body in
     let folder_name := default "" (data !! "folder_name") in
     let parent_path := default "" (data !! "parent_path") in
     if negb (PyStr.truthy folder_name) then
       ret (Error 400 "Folder name is required")
     else
       let* result :=
         on_file_ops (FileOperations.create_folder folder_name parent_path) in
       ret (Json (FolderInfo
                    ("Folder " +:+ folder_name +:+ " created successfully")
                    result))).

Definition rename_file (filename : string) (body : json) : Op response :=
  or_500
    (let* data := get_json body in
     let new_name := default "" (data !! "new_name") in
     if negb (PyStr.truthy new_name) then
       ret (Error 400 "New name is required")
     else
       let* result :=
         on_file_ops (FileOperations.rename_file filename new_name) in
       ret (Json (FileInfo
                    ("File renamed to " +:+ new_name +:+ " successfully")
                    result))).

(** [download_file]; [abort(404)] raises inside the [try]. *)
Definition download_file (filename : string) : Op response :=
  or_500
    (let* file_path := on_file_ops (FileOperations.get_file_path filename) in
     let* w := get_world in
     if negb (path_exists file_path w) then
       raise (OtherError not_found_description)
     else
       run* of_result (send_file file_path w) in
       ret (Attachment file_path)).

(** The handlers registered for the status codes 404 and 500. *)
Definition not_found : response := Error 404 "Resource not found".
Definition internal_error : response := Error 500 "Internal server error".

(** The routes. *)
Definition handle (fuel : nat) (r : request) : Op (option response) :=
  match r with
  | GetUsbDevices => let* a := get_usb_devices in ret (Some a)
  | MountUsbDevice device => let* a := mount_usb_device device in ret (Some a)
  | UnmountUsbDevice => let* a := unmount_usb_device in ret (Some a)
  | GetUsbFiles args => let* a := get_usb_files args in ret (Some a)
  | UploadToUsb body => upload_to_usb fuel body
  | DeleteUsbFile filename => let* a := delete_usb_file filename in ret (Some a)
  | GetUsbStatus => let* a := get_usb_status in ret (Some a)
  | CreateFolder body => let* a := create_folder body in ret (Some a)
  | RenameFile filename body =>
      let* a := rename_file filename body in ret (Some a)
  | DownloadFile filename => let* a := download_file filename in ret (Some a)
  end.

(** The state after a sequence of requests. *)
Definition serve (fuel : nat) (requests : list request) (st : state W t)
    : state W t :=
  fold_left (fun st r => snd (handle fuel r st)) requests st.

End Handlers.

End App.

(** ** An in-memory host, for evaluation *)

(** [werkzeug.utils.secure_filename] on ASCII input, on POSIX. *)
Module Werkzeug.

Definition is_ascii (c : ascii) : bool := Z.of_N (N_of_ascii c) <? 128.

Definition is_lower (c : ascii) : bool :=
  ((97 <=? Z.of_N (N_of_ascii c)) && (Z.of_N (N_of_ascii c) <=? 122))%bool.

(** The complement of the class [[^A-Za-z0-9_.-]]. *)
Definition is_kept (c : ascii) : bool :=
  (PyStr.is_upper c || is_lower c || PyStr.is_digit c
   || Ascii.eqb c "_" || Ascii.eqb c "." || Ascii.eqb c "-")%bool.

Fixpoint filter_chars (f : ascii → bool) (s : string) : string :=
  match s with
  | EmptyString => EmptyString
  | String c r => if f c then String c (filter_chars f r) else filter_chars f r
  end.

Fixpoint map_chars (f : ascii → ascii) (s : string) : string :=
  match s with
  | EmptyString => EmptyString
  | String c r => String (f c) (map_chars f r)
  end.

Definition is_dot_or_underscore (c : ascii) : bool :=
  (Ascii.eqb c "." || Ascii.eqb c "_")%bool.

Fixpoint lstrip_chars (s : string) : string :=
  match s with
  | String a r => if is_dot_or_underscore a then lstrip_chars r else s
  | EmptyString => EmptyString
  end.

Fixpoint rstrip_chars (s : string) : string :=
  match s with
  | EmptyString => EmptyString
  | String a r =>
      match rstrip_chars r with
      | EmptyString => if is_dot_or_underscore a then EmptyString
                       else String a EmptyString
      | r' => String a r'
      end
  end.

Fixpoint join_with (sep : string) (l : list string) : string :=
  match l with
  | [] => EmptyString
  | [x] => x
  | x :: l' => x +:+ sep +:+ join_with sep l'
  end.

Definition secure_filename (filename : string) : string :=
  let filename := filter_chars is_ascii filename in
  let filename :=
    map_chars (fun c => if Ascii.eqb c "/" then " "%char else c) filename in
  let filename := join_with "_" (String.words filename) in
  rstrip_chars (lstrip_chars (filter_chars is_kept filename)).

End Werkzeug.

Module Sim.

Inductive node :=
| Dir
| File (data : string)
| BlockDev.

#[global] Instance node_eq_dec : EqDecision node.
Proof. solve_decision. Defined.

(** Paths are kept resolved, as lists of components. *)
Record world := mkWorld {
  pid : nat;
  fs : list (list string * node);
  mounts : list (list string * string);
  mountable : list string;
  umount_hangs : bool;
  capacity : usage;
  lsblk_out : string
}.

Definition key (p : string) : list string := PosixPath.components p.

Fixpoint lookup (k : list string) (l : list (list string * node)) : option node :=
  match l with
  | [] => None
  | (k', n) :: l' => if bool_decide (k = k') then Some n else lookup k l'
  end.

Definition erase (k : list string) (l : list (list string * node))
    : list (list string * node) :=
  List.filter (fun e => negb (bool_decide (fst e = k))) l.

Definition with_fs (w : world) (fs' : list (list string * node)) : world :=
  mkWorld (pid w) fs' (mounts w) (mountable w) (umount_hangs w)
    (capacity w) (lsblk_out w).

Definition with_mounts (w : world) (ms : list (list string * string)) : world :=
  mkWorld (pid w) (fs w) ms (mountable w) (umount_hangs w)
    (capacity w) (lsblk_out w).

Definition is_mounted (k : list string) (w : world) : bool :=
  existsb (fun e => bool_decide (fst e = k)) (mounts w).

Definition child_name (k : list string) (e : list string * node)
    : option string :=
  match List.rev (fst e) with
  | n :: parent => if bool_decide (List.rev parent = k) then Some n else None
  | [] => None
  end.

(** The names directly below [k], in the order of [fs]. *)
Definition children (k : list string) (w : world) : list string :=
  omap (child_name k) (fs w).

Definition below (k : list string) (e : list string * node) : bool :=
  PosixPath.is_prefix k (fst e).

Definition ok_run (out : string) : result completed :=
  Ok {| returncode := 0; stdout := out; stderr := "" |}.

Definition failed_run (code : Z) (err : string) : result completed :=
  Ok {| returncode := code; stdout := ""; stderr := err |}.

Definition run_mount (dev mp : string) (w : world) : result completed * world :=
  if bool_decide (dev ∈ mountable w)
  then (ok_run "", with_mounts w ((key mp, dev) :: mounts w))
  else (failed_run 32 ("mount: " +:+ mp +:+ ": unknown filesystem type."), w).

Definition run_umount (mp : string) (w : world) : result completed * world :=
  if umount_hangs w then (Raise (OtherError "Command timed out"), w)
  else if is_mounted (key mp) w
  then (ok_run "",
        with_mounts w
          (List.filter (fun e => negb (bool_decide (fst e = key mp))) (mounts w)))
  else (failed_run 32 ("umount: " +:+ mp +:+ ": not mounted."), w).

Definition sim_run (argv : list string) (timeout : Z) (w : world)
    : result completed * world :=
  match argv with
  | ["sudo"; "mount"; dev; mp] => run_mount dev mp w
  | ["sudo"; "mount"; "-t"; "auto"; dev; mp] => run_mount dev mp w
  | ["sudo"; "umount"; mp] => run_umount mp w
  | "lsblk" :: _ => (ok_run (lsblk_out w), w)
  | _ => (failed_run 127 "command not found", w)
  end.

Definition sim_stat (p : string) (w : world) : os_result stat_result :=
  match lookup (key p) (fs w) with
  | Some (File data) =>
      Done {| st_size := Z.of_nat (String.length data); st_mtime := 0; st_ctime := 0 |}
  | Some _ => Done {| st_size := 4096; st_mtime := 0; st_ctime := 0 |}
  | None => Failed "No such file or directory"
  end.

Definition sim_rmdir (p : string) (w : world) : os_result unit * world :=
  match lookup (key p) (fs w), children (key p) w with
  | Some Dir, [] =>
      if is_mounted (key p) w then (Failed "Device or resource busy", w)
      else (Done tt, with_fs w (erase (key p) (fs w)))
  | Some Dir, _ :: _ => (Failed "Directory not empty", w)
  | _, _ => (Failed "No such file or directory", w)
  end.

Definition sim_rename (src dst : string) (w : world) : os_result unit * world :=
  match lookup (key src) (fs w) with
  | Some n =>
      (Done tt, with_fs w ((key dst, n) :: erase (key dst) (erase (key src) (fs w))))
  | None => (Failed "No such file or directory", w)
  end.

Definition sim_listdir (p : string) (w : world) : os_result (list string) :=
  match lookup (key p) (fs w) with
  | Some Dir => Done (children (key p) w)
  | _ => Failed "Not a directory"
  end.

Definition sim_glob_dev (pattern : string) (w : world) : os_result (list string) :=
  Done (omap
        (fun e : list string * node =>
           match fst e, snd e with
           | ["dev"; n], BlockDev =>
               if String.prefix (PyStr.take (Nat.pred (String.length pattern)) pattern) n
               then Some ("/dev/" +:+ n) else None
           | _, _ => None
           end)
        (fs w)).

#[global] Instance host : Host world := {|
  getpid := pid;
  path_exists p w := bool_decide (is_Some (lookup (key p) (fs w)));
  path_ismount p w := is_mounted (key p) w;
  path_isdir p w := bool_decide (lookup (key p) (fs w) = Some Dir);
  is_block_device p w := bool_decide (lookup (key p) (fs w) = Some BlockDev);
  glob_dev := sim_glob_dev;
  read_text p w :=
    match lookup (key p) (fs w) with
    | Some (File data) => Ok data
    | _ => Raise (OSError "No such file or directory")
    end;
  listdir := sim_listdir;
  stat := sim_stat;
  disk_usage p w := Done (capacity w);
  makedirs p w :=
    match lookup (key p) (fs w) with
    | None => (Done tt, with_fs w (fs w ++ [(key p, Dir)]))
    | Some _ => (Done tt, w)
    end;
  rmdir := sim_rmdir;
  rename := sim_rename;
  remove p w :=
    match lookup (key p) (fs w) with
    | Some (File _) => (Done tt, with_fs w (erase (key p) (fs w)))
    | _ => (Failed "No such file or directory", w)
    end;
  rmtree p w :=
    (Done tt, with_fs w (List.filter (fun e => negb (below (key p) e)) (fs w)));
  write_file p data w :=
    (Done tt, with_fs w (erase (key p) (fs w) ++ [(key p, File data)]));
  run := sim_run
|}.

(** Floats as the expressions that produce them. *)
Inductive sfloat :=
| FDiv (a b : Z)
| FMul (f : sfloat) (k : Z)
| FRound (f : sfloat) (ndigits : Z).

(** The documents [lsblk] can print are given as a table from its output
    to the parsed [blockdevices] list. *)
Definition runtime (documents : list (string * list device)) : Runtime := {|
  float := sfloat;
  int_truediv := FDiv;
  float_mul_int := FMul;
  round_ndigits := FRound;
  lsblk_blockdevices out :=
    match List.find (fun d => PyStr.eqb (fst d) out) documents with
    | Some d => Ok (snd d)
    | None => Raise (OtherError "Expecting value: line 1 column 1 (char 0)")
    end;
  secure_filename := Werkzeug.secure_filename;
  lower := PyStr.ascii_lower;
  isoformat t :=
    if t <? 0 then Unsupported "Value too large for defined data type"
    else if 253402300800 <=? t
         then OutOfRange "year 10000 is out of range"
         else Formatted (PyStr.of_nat (Z.to_nat t))
|}.

Definition start {S} (w : world) (s : S) : state world S := mkState w [] s.

End Sim.


(** Worlds and objects used in the examples. *)
Module Samples.
Import Sim.

Definition stick : world := {|
  pid := 7;
  fs := [ (["media"; "usb"], Dir);
          (["dev"; "sda1"], BlockDev);
          (["dev"; "sdb1"], BlockDev) ];
  mounts := [];
  mountable := ["/dev/sda1"];
  umount_hangs := false;
  capacity := {| total := 1000; used := 250; free := 750 |};
  lsblk_out := ""
|}.

Definition fresh : USBManager.t := USBManager.mk None None "/media/usb".

(** The manager after mounting [/dev/sda1]. *)
Definition plugged : USBManager.t :=
  USBManager.mk (Some "/media/usb/usb_7") (Some "/dev/sda1") "/media/usb".

(** [stick] with [/dev/sda1] mounted. *)
Definition mounted_stick : world :=
  with_mounts
    (with_fs stick (fs stick ++ [(["media"; "usb"; "usb_7"], Dir)]))
    [(["media"; "usb"; "usb_7"], "/dev/sda1")].

(** The same, with an unmount tool that does not come back in time. *)
Definition hung_stick : world :=
  mkWorld (pid mounted_stick) (fs mounted_stick) (mounts mounted_stick)
    (mountable mounted_stick) true (capacity mounted_stick)
    (lsblk_out mounted_stick).

(** A mounted volume that reports no capacity at all. *)
Definition blank_stick : world :=
  mkWorld (pid mounted_stick) (fs mounted_stick) (mounts mounted_stick)
    (mountable mounted_stick) false {| total := 0; used := 0; free := 0 |}
    (lsblk_out mounted_stick).

Definition rt : Runtime := runtime [].

(** The file service working on the manager [plugged]. *)
Definition service : FileOperations.t :=
  FileOperations.mk (Some plugged) (100 * 1024 * 1024).

(** An upload of two bytes under the client's name [report.txt]. *)
Definition report : FileOperations.upload :=
  FileOperations.mkUpload "report.txt" "hi".

(** An upload whose name sanitizes to nothing, and one that is one byte
    over a service limit of two bytes. *)
Definition dots : FileOperations.upload := FileOperations.mkUpload "../.." "x".
Definition three_bytes : FileOperations.upload :=
  FileOperations.mkUpload "big.bin" "abc".
Definition tiny_service : FileOperations.t := FileOperations.mk (Some plugged) 2.

(** A listing entry with the given name and kind. *)
Definition entry (name : string) (is_directory : bool)
    : FileOperations.file_info :=
  FileOperations.mkFileInfo name name is_directory 0 "" ""
    (FileOperations._get_file_type name is_directory)
    (FileOperations._get_file_icon (RT := rt) name is_directory).

(** The mounted volume holding, in directory order, the file [b.txt], the
    directory [A] and the file [a.txt]. *)
Definition three_entries : world :=
  with_fs mounted_stick
    (fs mounted_stick ++
       [ (["media"; "usb"; "usb_7"; "b.txt"], File "bb");
         (["media"; "usb"; "usb_7"; "A"], Dir);
         (["media"; "usb"; "usb_7"; "a.txt"], File "a") ]).

(** A host whose [lsblk] lists a removable disk [/dev/sda] and a
    partition-type entry named [/dev/sda1p2]. *)
Definition odd_names : list device :=
  [ list_to_map [("name", PStr "/dev/sda"); ("size", PStr "8G");
                 ("type", PStr "disk"); ("mountpoint", PNone)];
    list_to_map [("name", PStr "/dev/sda1p2"); ("size", PStr "4G");
                 ("type", PStr "part"); ("mountpoint", PNone);
                 ("label", PStr "DATA"); ("fstype", PStr "vfat")] ].

(** The usual case: disk [/dev/sda], partition [/dev/sda1], and an
    internal disk [/dev/sdb] with partition [/dev/sdb1]. *)
Definition usual_names : list device :=
  [ list_to_map [("name", PStr "/dev/sda"); ("type", PStr "disk")];
    list_to_map [("name", PStr "/dev/sda1"); ("type", PStr "part")];
    list_to_map [("name", PStr "/dev/sdb"); ("type", PStr "disk")];
    list_to_map [("name", PStr "/dev/sdb1"); ("type", PStr "part")] ].

Definition lsblk_rt : Runtime :=
  runtime [("odd", odd_names); ("usual", usual_names)].

Definition with_lsblk (out : string) : world :=
  mkWorld 7
    [ (["media"; "usb"], Dir);
      (["sys"; "block"; "sda"], Dir);
      (["sys"; "block"; "sda"; "removable"], File "1
");
      (["sys"; "block"; "sdb"], Dir);
      (["sys"; "block"; "sdb"; "removable"], File "0
") ]
    [] [] false {| total := 0; used := 0; free := 0 |} out.

(** A file service built without a manager, as in [app.py]. *)
Definition lone_service : FileOperations.t :=
  FileOperations.mk None (100 * 1024 * 1024).

(** The file service working on a manager that has nothing mounted. *)
Definition idle_service : FileOperations.t :=
  FileOperations.mk (Some fresh) (100 * 1024 * 1024).

(** What [lsblk] prints without [-p]: bare kernel names. *)
Definition bare_names : list device :=
  [ list_to_map [("name", PStr "sda"); ("type", PStr "disk")];
    list_to_map [("name", PStr "sda1"); ("type", PStr "part")] ].

Definition bare_rt : Runtime := runtime [("bare", bare_names)].

(** Hosts without a file system of their own: the queries are answered by
    the given functions, every command fails, every tool run gives the given
    outcome. *)
Definition stub (exists_ ismount_ isdir_ : string → bool)
    (tool : list string → result completed) : Host unit := {|
  getpid _ := 1%nat;
  path_exists p _ := exists_ p;
  path_ismount p _ := ismount_ p;
  path_isdir p _ := isdir_ p;
  is_block_device _ _ := false;
  glob_dev _ _ := Done [];
  read_text _ _ := Raise (OSError "No such file or directory");
  listdir _ _ := Failed "Input/output error";
  stat _ _ := Failed "Input/output error";
  disk_usage _ _ := Failed "Input/output error";
  makedirs _ w := (Failed "Read-only file system", w);
  rmdir _ w := (Failed "Read-only file system", w);
  rename _ _ w := (Failed "Read-only file system", w);
  remove _ w := (Failed "Read-only file system", w);
  rmtree _ w := (Failed "Read-only file system", w);
  write_file _ _ w := (Failed "Read-only file system", w);
  run argv _ w := (tool argv, w)
|}.

(** A mounted volume of plain files, given by their names and modification
    times, on a host that allows no command. *)
Definition dated (entries : list (string * Z)) : Host unit := {|
  getpid _ := 1%nat;
  path_exists _ _ := true;
  path_ismount _ _ := true;
  path_isdir _ _ := false;
  is_block_device _ _ := false;
  glob_dev _ _ := Done [];
  read_text _ _ := Raise (OSError "No such file or directory");
  listdir _ _ := Done (List.map fst entries);
  stat p _ :=
    match List.find (fun e => PyStr.eqb ("/media/usb/usb_7/" +:+ fst e) p)
            entries with
    | Some e => Done {| st_size := 1; st_mtime := snd e; st_ctime := 0 |}
    | None => Failed "No such file or directory"
    end;
  disk_usage _ _ := Failed "Input/output error";
  makedirs _ w := (Failed "Read-only file system", w);
  rmdir _ w := (Failed "Read-only file system", w);
  rename _ _ w := (Failed "Read-only file system", w);
  remove _ w := (Failed "Read-only file system", w);
  rmtree _ w := (Failed "Read-only file system", w);
  write_file _ _ w := (Failed "Read-only file system", w);
  run _ _ w := (Sim.failed_run 127 "command not found", w)
|}.

Definition nowhere (p : string) : bool := false.
Definition everywhere (p : string) : bool := true.

(** Nothing exists and every tool exits with status 1. *)
Definition bare : Host unit :=
  stub nowhere nowhere nowhere
    (fun _ => Sim.failed_run 1 "lsblk: failed to initialize").

(** The application as loaded, and one whose file service shares the
    manager [plugged]. *)
Definition loaded : App.t := App.mk fresh lone_service.
Definition sharing : App.t := App.mk plugged service.

Definition libraries : App.Libraries world := {|
  App.unquote s := s;
  App.from_buffer _ := Ok "text/plain";
  App.send_file p w :=
    match lookup (key p) (fs w) with
    | Some (File _) => Ok tt
    | _ => Raise (OSError "Is a directory")
    end
|}.

(** Every path exists and is a mount point, but no call succeeds. *)
Definition unreadable : Host unit :=
  stub everywhere everywhere nowhere
    (fun _ => Sim.failed_run 32 "mount: permission denied").

End Samples.


(** ** Vocabulary of the properties *)

Module Props.

(** The single session is either absent or complete. *)
Definition session_wf (m : USBManager.t) : bool :=
  match USBManager.mount_point m, USBManager.mounted_device m with
  | Some mp, Some _ => PyStr.truthy mp
  | None, None => true
  | _, _ => false
  end.

(** An invocation of the mount tool. *)
Definition is_mount_command (ev : event) : bool :=
  match ev with
  | ERun ("sudo" :: "mount" :: _) => true
  | _ => false
  end.

Definition is_makedirs (ev : event) : bool :=
  match ev with
  | EMakedirs _ => true
  | _ => false
  end.

(** The events a call added to the trace. *)
Definition added {W S} (st st' : state W S) (new : list event) : Prop :=
  trace st' = trace st ++ new.

Fixpoint all_chars (f : ascii → bool) (s : string) : bool :=
  match s with
  | EmptyString => true
  | String c r => (f c && all_chars f r)%bool
  end.

Definition not_digit (c : ascii) : bool := negb (PyStr.is_digit c).
Definition not_slash (c : ascii) : bool := negb (Ascii.eqb c "/").

(** The derivation of the parent disk in the words of the specification:
    the device name without its trailing digits. *)
Fixpoint strip_trailing_digits (s : string) : string :=
  match s with
  | EmptyString => EmptyString
  | String c r =>
      match strip_trailing_digits r with
      | EmptyString => if PyStr.is_digit c then EmptyString
                       else String c EmptyString
      | r' => String c r'
      end
  end.

(** The order of a listing: a directory comes before a file; within the
    same kind, the lower-cased names ascend. *)
Definition listed_before {RT : Runtime} (x y : FileOperations.file_info)
    : Prop :=
  (FileOperations.is_directory x = true
   ∧ FileOperations.is_directory y = false)
  ∨ (FileOperations.is_directory x = FileOperations.is_directory y
     ∧ String.leb (lower (FileOperations.name x))
                  (lower (FileOperations.name y)) = true).

(** The names the collision loop of [upload_file] tries, in order: the
    sanitized name, then the numbered ones from 1 on. *)
Definition candidate (filename : string) (k : nat) : string :=
  match k with
  | O => filename
  | S _ => FileOperations.numbered filename k
  end.

(** A file service that holds no manager yet, or one without a session. *)
Definition detached (fo : FileOperations.t) : Prop :=
  match FileOperations.usb_manager fo with
  | None => True
  | Some m => USBManager.mount_point m = None
  end.

(** The outcome of a method that stopped at its mount check: it raised
    ["No USB device mounted"] (or the error of creating the manager's base
    directory), the service is still detached, and at most that directory
    creation was issued. *)
Definition refused {W A} (st : state W FileOperations.t)
    (out : result A * state W FileOperations.t) : Prop :=
  (fst out = Raise (Exception "No USB device mounted")
   ∨ ∃ msg, fst out = Raise (OSError msg))
  ∧ detached (self (snd out))
  ∧ (trace (snd out) = trace st
     ∨ trace (snd out) = trace st ++ [EMakedirs "/media/usb"]).

(** The routes that work on the volume. *)
Definition file_request (r : App.request) : bool :=
  match r with
  | App.GetUsbFiles _ | App.UploadToUsb _ | App.DeleteUsbFile _
  | App.CreateFolder _ | App.RenameFile _ _ | App.DownloadFile _ => true
  | _ => false
  end.

(** The exception raised while the request's body is read, if any. *)
Definition body_error (r : App.request) : option exn :=
  match r with
  | App.UploadToUsb (App.Unreadable e) => Some e
  | App.CreateFolder (App.NoObject e) => Some e
  | App.RenameFile _ (App.NoObject e) => Some e
  | _ => None
  end.

(** The command line of the primary enumeration. *)
Definition lsblk_json : list string :=
  ["lsblk"; "-J"; "-o"; "NAME,SIZE,TYPE,MOUNTPOINT,LABEL,FSTYPE"].

(** No [disk]-type entry of the listing has a name starting with [/dev/]. *)
Definition disks_without_dev_prefix (blockdevices : list device) : bool :=
  forallb
    (fun d =>
       negb (USBManager.field_is d "type" "disk")
       || match USBManager.name_of d with
          | Some n => negb (String.prefix "/dev/" n)
          | None => true
          end)
    blockdevices.

(** A device name of the usual shape: [/dev/] followed by ASCII characters
    without a slash, among which digits occur at the end only
    ([/dev/sda1], [/dev/sdb]). *)
Definition is_ascii (c : ascii) : bool := (N_of_ascii c <? 128)%N.

Definition usual_name (n : string) : bool :=
  let rest := PyStr.drop 5 n in
  String.prefix "/dev/" n
  && all_chars is_ascii rest
  && all_chars not_slash rest
  && all_chars not_digit (strip_trailing_digits rest).

Definition usual_partitions (blockdevices : list device) : bool :=
  forallb
    (fun d =>
       negb (USBManager.field_is d "type" "part")
       || match USBManager.name_of d with
          | Some n => usual_name n
          | None => true
          end)
    blockdevices.

(** The names of a listing are kernel names as [lsblk] prints them, without
    a directory ([sda], [sda1], [nvme0n1p1]), or, as with [lsblk -p], every
    partition has a name of the usual shape. *)
Definition listing_names (blockdevices : list device) : bool :=
  disks_without_dev_prefix blockdevices || usual_partitions blockdevices.

(** The shape of an entry produced by the fallback enumeration. *)
Definition fallback_entry (d : device) : Prop :=
  d !! "type" = Some (PStr "disk")
  ∧ d !! "label" = Some (PStr "USB Device")
  ∧ d !! "mountpoint" = Some (PStr "")
  ∧ d !! "fstype" = None
  ∧ ∃ p size, d !! "name" = Some (PStr p) ∧ d !! "size" = Some (PStr size).

Section Failures.
Context {W : Type} {HW : Host W}.

(** The mount point a call made in [st] uses. *)
Definition own_point (st : state W USBManager.t) : string :=
  PosixPath.join (USBManager.mount_base (self st))
    ["usb_" +:+ PyStr.of_nat (getpid (world st))].

(** The session of [st] has been torn down, giving [st1].  Without a
    session there is nothing to do.  With one at [mp], the unmount tool was
    run and has returned, the removal of [mp] was attempted, and the session
    is cleared. *)
Definition torn_down (st st1 : state W USBManager.t) : Prop :=
  (USBManager.truthy (USBManager.mount_point (self st)) = false ∧ st1 = st)
  ∨ ∃ mp c w1,
      USBManager.mount_point (self st) = Some mp
      ∧ PyStr.truthy mp = true
      ∧ run ["sudo"; "umount"; mp] 30 (world st) = (Ok c, w1)
      ∧ st1 = mkState (snd (rmdir mp w1))
                (trace st ++ [ERun ["sudo"; "umount"; mp]; ERmdir mp])
                (USBManager.set_session None None (self st)).

(** The two invocations of the mount tool. *)
Definition plain_mount (dev mp : string) : list string :=
  ["sudo"; "mount"; dev; mp].
Definition auto_mount (dev mp : string) : list string :=
  ["sudo"; "mount"; "-t"; "auto"; dev; mp].

(** The ways mounting [dev] at [mp] fails from the world [w]: the step that
    failed, the exception it gives, the world it leaves and the commands
    issued up to it. *)
Inductive mount_failure (dev mp : string) (w : W)
    : exn → W → list event → Prop :=
| directory_failed msg w1 :
    makedirs mp w = (Failed msg, w1) →
    mount_failure dev mp w (OSError msg) w1 [EMakedirs mp]
| first_attempt_raised e w1 w2 :
    makedirs mp w = (Done tt, w1) →
    run (plain_mount dev mp) 30 w1 = (Raise e, w2) →
    mount_failure dev mp w e w2 [EMakedirs mp; ERun (plain_mount dev mp)]
| second_attempt_raised c1 e w1 w2 w3 :
    makedirs mp w = (Done tt, w1) →
    run (plain_mount dev mp) 30 w1 = (Ok c1, w2) →
    returncode c1 ≠ 0 →
    run (auto_mount dev mp) 30 w2 = (Raise e, w3) →
    mount_failure dev mp w e w3
      [EMakedirs mp; ERun (plain_mount dev mp); ERun (auto_mount dev mp)]
| attempts_failed c1 c2 w1 w2 w3 :
    makedirs mp w = (Done tt, w1) →
    run (plain_mount dev mp) 30 w1 = (Ok c1, w2) →
    returncode c1 ≠ 0 →
    run (auto_mount dev mp) 30 w2 = (Ok c2, w3) →
    returncode c2 ≠ 0 →
    mount_failure dev mp w
      (Exception ("Failed to mount device: " +:+ stderr c2)) w3
      [EMakedirs mp; ERun (plain_mount dev mp); ERun (auto_mount dev mp)]
| first_unverified c1 w1 w2 :
    makedirs mp w = (Done tt, w1) →
    run (plain_mount dev mp) 30 w1 = (Ok c1, w2) →
    returncode c1 = 0 →
    path_ismount mp w2 = false →
    mount_failure dev mp w (Exception "Mount verification failed") w2
      [EMakedirs mp; ERun (plain_mount dev mp)]
| second_unverified c1 c2 w1 w2 w3 :
    makedirs mp w = (Done tt, w1) →
    run (plain_mount dev mp) 30 w1 = (Ok c1, w2) →
    returncode c1 ≠ 0 →
    run (auto_mount dev mp) 30 w2 = (Ok c2, w3) →
    returncode c2 = 0 →
    path_ismount mp w3 = false →
    mount_failure dev mp w (Exception "Mount verification failed") w3
      [EMakedirs mp; ERun (plain_mount dev mp); ERun (auto_mount dev mp)].

End Failures.

Section Answers.
Context {W : Type} {HW : Host W} {RT : Runtime}.

(** The request [req] made in [st] was answered with an error and not
    served: the file service is still detached, the status is 400, 413 or
    500, and a 500 carries the text of the exception raised while the body
    was read, ["No USB device mounted"], or the error of creating
    [/media/usb]. *)
Definition unserved (req : App.request) (st : state W App.t)
    (out : result (option App.response) * state W App.t) : Prop :=
  detached (App.file_ops (self (snd out)))
  ∧ ∃ code error,
      fst out = Ok (Some (App.Error code error))
      ∧ (code = 400 ∨ code = 413 ∨ code = 500)
      ∧ (code = 500 →
         (∃ e, body_error req = Some e ∧ error = App.str e)
         ∨ error = "No USB device mounted"
         ∨ fst (makedirs "/media/usb" (world st)) = Failed error).

End Answers.

End Props.

(** * Properties *)

(** ** The monad, step by step *)

Ltac step_monad :=
  cbv beta iota zeta delta
    [bind ret raise get_self get_world put_self of_result try_except
     os_command command];
  cbn [world trace self fst snd].

(** ** Device manager: unmount *)

Section Unmount.
Context {W : Type} {HW : Host W}.
Implicit Types st : state W USBManager.t.

Lemma unmount_device_nothing_mounted st :
  USBManager.truthy (USBManager.mount_point (self st)) = false →
  USBManager.unmount_device st = (Ok true, st).
Proof.
  intros Hm. unfold USBManager.unmount_device. step_monad. now rewrite Hm.
Qed.

(** What [unmount_device] does when a session exists, by the outcome of
    the unmount tool. *)
Lemma unmount_device_mounted st mp :
  USBManager.mount_point (self st) = Some mp →
  PyStr.truthy mp = true →
  USBManager.unmount_device st =
    match run ["sudo"; "umount"; mp] 30 (world st) with
    | (Ok _, w1) =>
        (Ok true,
         mkState (snd (rmdir mp w1))
           (trace st ++ [ERun ["sudo"; "umount"; mp]; ERmdir mp])
           (USBManager.set_session None None (self st)))
    | (Raise e, w1) =>
        (Raise e,
         mkState w1 (trace st ++ [ERun ["sudo"; "umount"; mp]]) (self st))
    end.
Proof.
  intros Hmp Ht. unfold USBManager.unmount_device. step_monad.
  unfold USBManager.truthy. rewrite Hmp, Ht. simpl.
  destruct (run _ 30 (world st)) as [[r|e] w1]; simpl; [|reflexivity].
  destruct (rmdir mp w1) as [[[]|msg] w2]; simpl; now rewrite <- app_assoc.
Qed.

(** After a call that returned, nothing is mounted. *)
Lemma unmount_device_returns_cleared st b st' :
  USBManager.unmount_device st = (Ok b, st') →
  b = true ∧ USBManager.truthy (USBManager.mount_point (self st')) = false.
Proof.
  intros Hu.
  destruct (USBManager.truthy (USBManager.mount_point (self st))) eqn:Ht.
  - destruct (USBManager.mount_point (self st)) as [mp|] eqn:Hmp; [|discriminate].
    rewrite (unmount_device_mounted st mp Hmp Ht) in Hu.
    destruct (run _ 30 (world st)) as [[r|e] w1]; [|discriminate].
    injection Hu as <- <-. now split.
  - rewrite (unmount_device_nothing_mounted st Ht) in Hu.
    injection Hu as <- <-. now split.
Qed.

(** A second call after one that returned is a no-op as well. *)
Lemma unmount_device_twice st st' b :
  USBManager.unmount_device st = (Ok b, st') →
  USBManager.unmount_device st' = (Ok true, st').
Proof.
  intros Hu. apply unmount_device_nothing_mounted.
  now apply (unmount_device_returns_cleared st b st').
Qed.

End Unmount.

(** ** Device manager: mount *)

Section Mount.
Context {W : Type} {HW : Host W}.
Implicit Types st : state W USBManager.t.

Lemma mount_device_missing st dev :
  path_exists dev (world st) = false →
  USBManager.mount_device dev st =
    (Raise (Exception ("Device " +:+ dev +:+ " does not exist")), st).
Proof.
  intros He. unfold USBManager.mount_device. step_monad. now rewrite He.
Qed.

Lemma mount_device_present st dev :
  path_exists dev (world st) = true →
  USBManager.mount_device dev st =
    match USBManager.supersede st with
    | (Ok _, st1) => USBManager.mount_at_own_point dev st1
    | (Raise e, st1) => (Raise e, st1)
    end.
Proof.
  intros He. unfold USBManager.mount_device. step_monad. now rewrite He.
Qed.

Lemma supersede_nothing_mounted st :
  USBManager.truthy (USBManager.mount_point (self st)) = false →
  USBManager.supersede st = (Ok tt, st).
Proof.
  intros Hm. unfold USBManager.supersede. step_monad. now rewrite Hm.
Qed.

Lemma supersede_mounted st :
  USBManager.truthy (USBManager.mount_point (self st)) = true →
  USBManager.supersede st =
    match USBManager.unmount_device st with
    | (Ok _, st1) => (Ok tt, st1)
    | (Raise e, st1) => (Raise e, st1)
    end.
Proof.
  intros Hm. unfold USBManager.supersede. step_monad. rewrite Hm.
  unfold bind. now destruct (USBManager.unmount_device st) as [[b|e] st1].
Qed.

(** The attempts leave the manager alone and only run the mount tool. *)
Lemma attempt_mount_spec st dev mp r st' :
  USBManager.attempt_mount dev mp st = (r, st') →
  self st' = self st
  ∧ ∃ runs, trace st' = trace st ++ runs
      ∧ Forall (fun ev => Props.is_mount_command ev = true) runs
      ∧ (r = Ok tt ∨ ∃ e, r = Raise e).
Proof.
  unfold USBManager.attempt_mount. step_monad.
  destruct (run ["sudo"; "mount"; dev; mp] 30 (world st)) as [[c1|e1] w1] eqn:H1;
    simpl.
  - destruct (returncode c1 =? 0) eqn:Hc1; simpl.
    + intros [= <- <-]. split; [reflexivity|]. eexists. split; [reflexivity|].
      split; [repeat constructor | now left].
    + destruct (run ["sudo"; "mount"; "-t"; "auto"; dev; mp] 30 w1)
        as [[c2|e2] w2] eqn:H2; simpl.
      * destruct (returncode c2 =? 0) eqn:Hc2; simpl;
          intros [= <- <-]; (split; [reflexivity|]);
          rewrite <- app_assoc; (eexists; split; [reflexivity|]);
          (split; [repeat constructor|]).
        -- now left.
        -- right. eauto.
      * intros [= <- <-]. split; [reflexivity|].
        rewrite <- app_assoc. eexists. split; [reflexivity|].
        split; [repeat constructor|]. eauto.
  - intros [= <- <-]. split; [reflexivity|]. eexists. split; [reflexivity|].
    split; [repeat constructor|]. eauto.
Qed.

(** From the mount directory on: the directory is created, the tool is
    run, and nothing is removed again.  The session is the new one when the
    call returns and the old one when it raises. *)
Lemma mount_at_own_point_spec st dev r st' :
  USBManager.mount_at_own_point dev st = (r, st') →
  ∃ runs, trace st' = trace st ++ EMakedirs (Props.own_point st) :: runs
    ∧ Forall (fun ev => Props.is_mount_command ev = true) runs
    ∧ ((r = Ok (Props.own_point st)
        ∧ self st' = USBManager.set_session (Some (Props.own_point st))
                       (Some dev) (self st)
        ∧ path_ismount (Props.own_point st) (world st') = true)
       ∨ (∃ e, r = Raise e ∧ self st' = self st)).
Proof.
  unfold USBManager.mount_at_own_point, Props.own_point. step_monad.
  set (mp := PosixPath.join _ _).
  destruct (makedirs mp (world st)) as [[[]|msg] w1] eqn:Hmk; simpl.
  - match goal with
    | |- context [USBManager.attempt_mount dev ?mp ?s] =>
        destruct (USBManager.attempt_mount dev mp s) as [ra sa] eqn:Ha
    end.
    apply attempt_mount_spec in Ha as (Hself & runs & Htr & Hruns & Hr).
    simpl in Hself, Htr.
    destruct ra as [[]|e]; simpl.
    + destruct (path_ismount mp (world sa)) eqn:Hv; simpl;
        intros [= <- <-]; simpl; exists runs; rewrite Htr, <- app_assoc;
        (split; [reflexivity|]); (split; [exact Hruns|]).
      * left. now rewrite Hself.
      * right. eexists. split; [reflexivity | assumption].
    + intros [= <- <-]. exists runs. rewrite Htr, <- app_assoc.
      split; [reflexivity|]. split; [exact Hruns|]. right. eauto.
  - intros [= <- <-]. exists []. simpl. split; [reflexivity|].
    split; [constructor|]. right. eauto.
Qed.

(** What [supersede] leaves behind. *)
Lemma supersede_spec st r st1 :
  USBManager.supersede st = (r, st1) →
  (USBManager.truthy (USBManager.mount_point (self st)) = false
   ∧ r = Ok tt ∧ st1 = st)
  ∨ ∃ mpA, USBManager.mount_point (self st) = Some mpA
      ∧ ((r = Ok tt
          ∧ trace st1 = trace st ++ [ERun ["sudo"; "umount"; mpA]; ERmdir mpA]
          ∧ self st1 = USBManager.set_session None None (self st))
         ∨ (∃ e, r = Raise e
              ∧ trace st1 = trace st ++ [ERun ["sudo"; "umount"; mpA]]
              ∧ self st1 = self st)).
Proof.
  intros Hs.
  destruct (USBManager.truthy (USBManager.mount_point (self st))) eqn:Ht.
  - right. rewrite (supersede_mounted st Ht) in Hs.
    destruct (USBManager.mount_point (self st)) as [mpA|] eqn:Hmp;
      [|discriminate].
    exists mpA. split; [reflexivity|].
    rewrite (unmount_device_mounted st mpA Hmp Ht) in Hs.
    destruct (run ["sudo"; "umount"; mpA] 30 (world st)) as [[c|e] w1] eqn:Hr;
      injection Hs as <- <-; simpl.
    + left. auto.
    + right. exists e. auto.
  - left. rewrite (supersede_nothing_mounted st Ht) in Hs.
    injection Hs as <- <-. auto.
Qed.

(** [supersede] by the session and the outcome of the unmount tool. *)
Lemma supersede_returned st st1 :
  USBManager.supersede st = (Ok tt, st1) → Props.torn_down st st1.
Proof.
  intros Hs.
  destruct (USBManager.truthy (USBManager.mount_point (self st))) eqn:Ht.
  - right. rewrite (supersede_mounted st Ht) in Hs.
    destruct (USBManager.mount_point (self st)) as [mp|] eqn:Hmp;
      [|discriminate].
    rewrite (unmount_device_mounted st mp Hmp Ht) in Hs.
    destruct (run ["sudo"; "umount"; mp] 30 (world st)) as [[c|e] w1] eqn:Hr;
      [|discriminate].
    injection Hs as <-. exists mp, c, w1. auto.
  - left. rewrite (supersede_nothing_mounted st Ht) in Hs.
    injection Hs as <-. auto.
Qed.

Lemma supersede_raised st e st1 :
  USBManager.supersede st = (Raise e, st1) →
  ∃ mp w1,
    USBManager.mount_point (self st) = Some mp
    ∧ PyStr.truthy mp = true
    ∧ run ["sudo"; "umount"; mp] 30 (world st) = (Raise e, w1)
    ∧ st1 = mkState w1 (trace st ++ [ERun ["sudo"; "umount"; mp]]) (self st).
Proof.
  intros Hs.
  destruct (USBManager.truthy (USBManager.mount_point (self st))) eqn:Ht.
  - rewrite (supersede_mounted st Ht) in Hs.
    destruct (USBManager.mount_point (self st)) as [mp|] eqn:Hmp;
      [|discriminate].
    rewrite (unmount_device_mounted st mp Hmp Ht) in Hs.
    destruct (run ["sudo"; "umount"; mp] 30 (world st)) as [[c|e'] w1] eqn:Hr;
      [discriminate|].
    injection Hs as <- <-. exists mp, w1. auto.
  - rewrite (supersede_nothing_mounted st Ht) in Hs. discriminate.
Qed.

(** How [mount_device] fails once the previous session is out of the way:
    the step, the exception and the commands issued. *)
Lemma mount_at_own_point_raised st dev e st' :
  USBManager.mount_at_own_point dev st = (Raise e, st') →
  ∃ new,
    Props.mount_failure dev (Props.own_point st) (world st) e (world st') new
    ∧ trace st' = trace st ++ new
    ∧ self st' = self st.
Proof.
  unfold USBManager.mount_at_own_point, USBManager.attempt_mount,
    Props.own_point.
  step_monad. set (mp := PosixPath.join _ _).
  destruct (makedirs mp (world st)) as [[[]|msg] w1] eqn:Hmk; simpl.
  2: { intros [= <- <-]. eexists. split; [|split; reflexivity].
       now apply Props.directory_failed. }
  destruct (run ["sudo"; "mount"; dev; mp] 30 w1) as [[c1|e1] w2] eqn:H1; simpl.
  2: { intros [= <- <-]. eexists. split; [|split; [|reflexivity]].
       - eapply Props.first_attempt_raised; eassumption.
       - simpl. now rewrite <- app_assoc. }
  destruct (returncode c1 =? 0) eqn:Hc1; simpl.
  - destruct (path_ismount mp w2) eqn:Hv; simpl; [discriminate|].
    intros [= <- <-]. eexists. split; [|split; [|reflexivity]].
    + eapply Props.first_unverified; try eassumption. lia.
    + simpl. now rewrite <- app_assoc.
  - destruct (run ["sudo"; "mount"; "-t"; "auto"; dev; mp] 30 w2)
      as [[c2|e2] w3] eqn:H2; simpl.
    2: { intros [= <- <-]. eexists. split; [|split; [|reflexivity]].
         - eapply Props.second_attempt_raised; try eassumption. lia.
         - simpl. now rewrite <- !app_assoc. }
    destruct (returncode c2 =? 0) eqn:Hc2; simpl.
    + destruct (path_ismount mp w3) eqn:Hv; simpl; [discriminate|].
      intros [= <- <-]. eexists. split; [|split; [|reflexivity]].
      * eapply Props.second_unverified; try eassumption; lia.
      * simpl. now rewrite <- !app_assoc.
    + intros [= <- <-]. eexists. split; [|split; [|reflexivity]].
      * eapply Props.attempts_failed; try eassumption; lia.
      * simpl. now rewrite <- !app_assoc.
Qed.

Lemma own_point_truthy st : PyStr.truthy (Props.own_point st) = true.
Proof.
  unfold Props.own_point, PosixPath.join, PosixPath.join2. simpl.
  destruct (negb (PyStr.truthy _) || PyStr.endswith "/" _)%bool;
    destruct (USBManager.mount_base (self st)); reflexivity.
Qed.

End Mount.

(** ** Claims about unmounting *)

(** C6: when nothing is mounted, [unmount_device] returns [True] without
    touching the host or the manager; calling it twice in a row returns
    [True] both times and leaves the state as it was. *)
Theorem unmount_device_idempotent {W : Type} {HW : Host W}
    (st : state W USBManager.t) :
  USBManager.truthy (USBManager.mount_point (self st)) = false →
  USBManager.unmount_device st = (Ok true, st)
  ∧ (run* USBManager.unmount_device in USBManager.unmount_device) st
    = (Ok true, st).
Proof.
  intros Hm. pose proof (unmount_device_nothing_mounted st Hm) as Hu.
  split; [exact Hu|]. unfold bind. now rewrite Hu.
Qed.

Lemma unmount_device_idempotent_witness :
  USBManager.unmount_device (Sim.start Samples.stick Samples.fresh)
    = (Ok true, Sim.start Samples.stick Samples.fresh)
  ∧ (run* USBManager.unmount_device in USBManager.unmount_device)
      (Sim.start Samples.stick Samples.fresh)
    = (Ok true, Sim.start Samples.stick Samples.fresh).
Proof. apply unmount_device_idempotent. reflexivity. Defined.

(** C5, as the claim states it, fails when the unmount tool does not return:
    the call raises and the session stays. *)
Lemma unmount_device_timeout_keeps_session :
  let st := Sim.start Samples.hung_stick Samples.plugged in
  USBManager.truthy (USBManager.mount_point (self st)) = true
  ∧ fst (USBManager.unmount_device st) = Raise (OtherError "Command timed out")
  ∧ USBManager.mount_point (self (snd (USBManager.unmount_device st)))
    = Some "/media/usb/usb_7"
  ∧ USBManager.mounted_device (self (snd (USBManager.unmount_device st)))
    = Some "/dev/sda1".
Proof. vm_compute. repeat split. Qed.

(** C5 (amended): while a session exists, whenever the unmount tool returns
    -- with any return code -- the directory removal is attempted, its
    failure is swallowed, the session is cleared and the call returns
    [True]; when running the tool raises, the exception is passed on and the
    session is left as it was. *)
Theorem unmount_device_cleanup {W : Type} {HW : Host W}
    (st : state W USBManager.t) (mp : string) :
  USBManager.mount_point (self st) = Some mp →
  PyStr.truthy mp = true →
  (∀ r w1,
     run ["sudo"; "umount"; mp] 30 (world st) = (Ok r, w1) →
     USBManager.unmount_device st =
       (Ok true,
        mkState (snd (rmdir mp w1))
          (trace st ++ [ERun ["sudo"; "umount"; mp]; ERmdir mp])
          (USBManager.mk None None (USBManager.mount_base (self st)))))
  ∧ (∀ e w1,
       run ["sudo"; "umount"; mp] 30 (world st) = (Raise e, w1) →
       USBManager.unmount_device st =
         (Raise e,
          mkState w1 (trace st ++ [ERun ["sudo"; "umount"; mp]]) (self st))).
Proof.
  intros Hmp Ht.
  split; intros x w1 Hrun; rewrite (unmount_device_mounted st mp Hmp Ht), Hrun;
    reflexivity.
Qed.

Lemma unmount_device_cleanup_witness :
  USBManager.unmount_device (Sim.start Samples.stick Samples.plugged) =
    (Ok true,
     mkState Samples.stick
       [ERun ["sudo"; "umount"; "/media/usb/usb_7"]; ERmdir "/media/usb/usb_7"]
       Samples.fresh).
Proof.
  destruct (unmount_device_cleanup (Sim.start Samples.stick Samples.plugged)
              "/media/usb/usb_7" eq_refl eq_refl) as [Hret _].
  exact (Hret _ _ eq_refl).
Defined.

(** ** Device manager: the session under every operation *)

Section Session.
Context {W : Type} {HW : Host W} {RT : Runtime}.
Implicit Types st : state W USBManager.t.

Lemma mount_device_spec st dev r st' :
  USBManager.mount_device dev st = (r, st') →
  (path_exists dev (world st) = false
   ∧ r = Raise (Exception ("Device " +:+ dev +:+ " does not exist"))
   ∧ st' = st)
  ∨ (path_exists dev (world st) = true
     ∧ ∃ r1 st1, USBManager.supersede st = (r1, st1)
         ∧ match r1 with
           | Ok _ => USBManager.mount_at_own_point dev st1 = (r, st')
           | Raise e => r = Raise e ∧ st' = st1
           end).
Proof.
  intros Hm. destruct (path_exists dev (world st)) eqn:He.
  - right. split; [reflexivity|].
    rewrite (mount_device_present st dev He) in Hm.
    destruct (USBManager.supersede st) as [[[]|e] st1]; eexists _, _;
      (split; [reflexivity|]); [exact Hm | now injection Hm as <- <-].
  - left. rewrite (mount_device_missing st dev He) in Hm.
    now injection Hm as <- <-.
Qed.

Lemma mount_device_keeps_wf st dev :
  Props.session_wf (self st) = true →
  Props.session_wf (self (snd (USBManager.mount_device dev st))) = true.
Proof.
  intros Hwf.
  destruct (USBManager.mount_device dev st) as [r st'] eqn:Hm. simpl.
  apply mount_device_spec in Hm
    as [(_ & _ & ->) | (_ & r1 & st1 & Hs & Hrest)]; [exact Hwf|].
  assert (Hwf1 : Props.session_wf (self st1) = true).
  { apply supersede_spec in Hs
      as [(_ & _ & ->) | (mpA & _ & [(_ & _ & ->) | (e & _ & _ & ->)])];
      auto. }
  destruct r1 as [[]|e]; [|now destruct Hrest as [_ ->]].
  apply mount_at_own_point_spec in Hrest
    as (runs & _ & _ & [(_ & -> & _) | (e & _ & ->)]); [|exact Hwf1].
  unfold Props.session_wf. simpl. apply own_point_truthy.
Qed.

Lemma unmount_device_keeps_wf st :
  Props.session_wf (self st) = true →
  Props.session_wf (self (snd (USBManager.unmount_device st))) = true.
Proof.
  intros Hwf.
  destruct (USBManager.truthy (USBManager.mount_point (self st))) eqn:Ht.
  - destruct (USBManager.mount_point (self st)) as [mp|] eqn:Hmp;
      [|discriminate].
    rewrite (unmount_device_mounted st mp Hmp Ht).
    now destruct (run _ 30 (world st)) as [[c|e] w1].
  - now rewrite (unmount_device_nothing_mounted st Ht).
Qed.

Lemma get_status_keeps_state st :
  snd (USBManager.get_status st) = st.
Proof.
  unfold USBManager.get_status, USBManager.truediv. step_monad.
  destruct (negb _ || negb _)%bool; [reflexivity|].
  destruct (disk_usage _ (world st)) as [u|msg]; simpl; [|reflexivity].
  now destruct (total u =? 0).
Qed.

Lemma fallback_size_keeps_self st p :
  self (snd (USBManager.fallback_size p st)) = self st.
Proof.
  unfold USBManager.fallback_size. step_monad.
  now destruct (run _ 5 (world st)) as [[c|e] w1].
Qed.

Lemma fallback_paths_keeps_self paths : ∀ devices st,
  self (snd (USBManager.fallback_paths paths devices st)) = self st.
Proof.
  induction paths as [|p paths IH]; intros devices st; [reflexivity|].
  cbn [USBManager.fallback_paths]. step_monad.
  destruct (is_block_device p (world st)); [|apply IH].
  pose proof (fallback_size_keeps_self st p) as Hs.
  destruct (USBManager.fallback_size p st) as [[size|e] st1]; simpl in *.
  - rewrite IH. exact Hs.
  - exact Hs.
Qed.

Lemma fallback_patterns_keeps_self patterns : ∀ devices st,
  self (snd (USBManager.fallback_patterns patterns devices st)) = self st.
Proof.
  induction patterns as [|pat patterns IH]; intros devices st; [reflexivity|].
  cbn [USBManager.fallback_patterns]. step_monad.
  destruct (glob_dev _ (world st)) as [paths|msg]; [|reflexivity].
  step_monad.
  pose proof (fallback_paths_keeps_self paths devices st) as Hs.
  destruct (USBManager.fallback_paths paths devices st) as [[ds|e] st1];
    simpl in *.
  - rewrite IH. exact Hs.
  - exact Hs.
Qed.

Lemma enumerate_primary_keeps_self st :
  self (snd (USBManager.enumerate_primary st)) = self st.
Proof.
  unfold USBManager.enumerate_primary. step_monad.
  destruct (run _ 10 (world st)) as [[c|e] w1]; simpl; [|reflexivity].
  destruct (returncode c =? 0); [|reflexivity]. step_monad.
  now destruct (lsblk_blockdevices (stdout c)).
Qed.

Lemma get_available_devices_keeps_self st :
  self (snd (USBManager.get_available_devices st)) = self st.
Proof.
  unfold USBManager.get_available_devices, USBManager._get_devices_fallback.
  unfold try_except, any_exception.
  pose proof (enumerate_primary_keeps_self st) as Hs.
  destruct (USBManager.enumerate_primary st) as [[ds|e] st1]; simpl in *;
    [exact Hs|].
  exact (eq_trans
           (fallback_patterns_keeps_self ["/dev/sd*"; "/dev/usb*"] [] st1) Hs).
Qed.

End Session.

(** C2: the manager holds one session, absent or complete, and every
    operation keeps it so.  When [mount_device] is called for an existing
    device node while a session at [mpA] exists, the first command issued is
    the unmount of [mpA].  If running it raises, that exception leaves the
    call and nothing else was done.  Otherwise the removal of [mpA] follows
    and the session is cleared, and only then the mount directory is created
    and the mount tool is run; the call ends with the new session alone, or,
    when it fails, with no session.  Without the device node nothing is
    issued and the session stays. *)
Theorem single_active_mount {W : Type} {HW : Host W} {RT : Runtime}
    (st : state W USBManager.t) :
  Props.session_wf (self st) = true →
  (∀ dev, Props.session_wf (self (snd (USBManager.mount_device dev st))) = true)
  ∧ Props.session_wf (self (snd (USBManager.unmount_device st))) = true
  ∧ self (snd (USBManager.get_status st)) = self st
  ∧ self (snd (USBManager.get_available_devices st)) = self st
  ∧ (∀ dev mpA r st',
       USBManager.mount_point (self st) = Some mpA →
       USBManager.mount_device dev st = (r, st') →
       let umount := ERun ["sudo"; "umount"; mpA] in
       let base := USBManager.mount_base (self st) in
       if path_exists dev (world st) then
         match run ["sudo"; "umount"; mpA] 30 (world st) with
         | (Raise e, w1) =>
             r = Raise e ∧ st' = mkState w1 (trace st ++ [umount]) (self st)
         | (Ok _, w1) =>
             let st1 :=
               mkState (snd (rmdir mpA w1)) (trace st ++ [umount; ERmdir mpA])
                 (USBManager.mk None None base) in
             ∃ runs,
               trace st' = trace st1 ++ EMakedirs (Props.own_point st1) :: runs
               ∧ Forall (fun ev => Props.is_mount_command ev = true) runs
               ∧ ((r = Ok (Props.own_point st1)
                   ∧ self st' = USBManager.mk (Some (Props.own_point st1))
                                  (Some dev) base
                   ∧ path_ismount (Props.own_point st1) (world st') = true)
                  ∨ (∃ e, r = Raise e
                       ∧ self st' = USBManager.mk None None base))
         end
       else
         r = Raise (Exception ("Device " +:+ dev +:+ " does not exist"))
         ∧ st' = st).
Proof.
  intros Hwf.
  split; [intros dev; now apply mount_device_keeps_wf|].
  split; [now apply unmount_device_keeps_wf|].
  split; [now rewrite get_status_keeps_state|].
  split; [apply get_available_devices_keeps_self|].
  intros dev mpA r st' Hmp Hm umount base.
  assert (Ht : PyStr.truthy mpA = true).
  { unfold Props.session_wf in Hwf. rewrite Hmp in Hwf.
    now destruct (USBManager.mounted_device (self st)). }
  assert (Htm : USBManager.truthy (USBManager.mount_point (self st)) = true)
    by now rewrite Hmp.
  destruct (path_exists dev (world st)) eqn:He.
  2: { rewrite (mount_device_missing st dev He) in Hm.
       now injection Hm as <- <-. }
  rewrite (mount_device_present st dev He), (supersede_mounted st Htm),
    (unmount_device_mounted st mpA Hmp Ht) in Hm.
  destruct (run ["sudo"; "umount"; mpA] 30 (world st)) as [[c|e] w1].
  - apply mount_at_own_point_spec in Hm as (runs & Htr & Hruns & Hout).
    exists runs. split; [exact Htr|]. split; [exact Hruns|].
    destruct Hout as [(-> & Hs & Hv) | (e & -> & Hs)].
    + left. split; [reflexivity|]. split; [exact Hs | exact Hv].
    + right. exists e. split; [reflexivity | exact Hs].
  - now injection Hm as <- <-.
Qed.

Lemma single_active_mount_witness :
  let st := Sim.start Samples.mounted_stick Samples.plugged in
  let out := USBManager.mount_device "/dev/sda1" st in
  path_exists "/dev/sda1" (world st) = true
  ∧ (∃ runs,
       trace (snd out)
       = [ ERun ["sudo"; "umount"; "/media/usb/usb_7"];
           ERmdir "/media/usb/usb_7"; EMakedirs "/media/usb/usb_7" ] ++ runs
       ∧ Forall (fun ev => Props.is_mount_command ev = true) runs)
  ∧ fst out = Ok "/media/usb/usb_7"
  ∧ self (snd out)
    = USBManager.mk (Some "/media/usb/usb_7") (Some "/dev/sda1") "/media/usb".
Proof.
  intros st out.
  destruct (single_active_mount (RT := Samples.rt) st eq_refl)
    as (_ & _ & _ & _ & Hsup).
  specialize (Hsup "/dev/sda1" "/media/usb/usb_7" (fst out) (snd out)
                eq_refl (surjective_pairing _)).
  destruct Hsup as (runs & Htr & Hruns & _).
  split; [reflexivity|].
  split; [exists runs; split; [exact Htr | exact Hruns]|].
  split; reflexivity.
Defined.

(** C4, as the claim states it, fails on its last part: after both attempts
    failed the mount directory the call created is still there, and no
    removal was issued. *)
Lemma mount_device_failure_leaves_directory :
  let st := Sim.start Samples.stick Samples.fresh in
  let out := USBManager.mount_device "/dev/sdb1" st in
  path_exists "/media/usb/usb_7" (world st) = false
  ∧ fst out = Raise (Exception
       "Failed to mount device: mount: /media/usb/usb_7: unknown filesystem type.")
  ∧ path_exists "/media/usb/usb_7" (world (snd out)) = true
  ∧ trace (snd out) =
      [ EMakedirs "/media/usb/usb_7";
        ERun ["sudo"; "mount"; "/dev/sdb1"; "/media/usb/usb_7"];
        ERun ["sudo"; "mount"; "-t"; "auto"; "/dev/sdb1"; "/media/usb/usb_7"] ].
Proof. vm_compute. repeat split. Qed.

(** C4 (amended): a failing [mount_device] raises the diagnostic of the
    step that failed: ["Device ... does not exist"] for a missing node, with
    nothing done; what running the unmount of the previous session raised;
    or, once that session is torn down, the error of creating the mount
    directory, what running a mount attempt raised, ["Failed to mount
    device: "] followed by the error output of the second attempt when both
    attempts exit with a non-zero status, or ["Mount verification failed"]
    when an attempt succeeded and the directory is no mount point.  The
    manager then holds the session it had before the call or none, never a
    new one; and the mount directory, once created, is followed by mount
    commands only: it is not removed. *)
Theorem mount_device_failure {W : Type} {HW : Host W}
    (st : state W USBManager.t) (dev : string) (e : exn)
    (st' : state W USBManager.t) :
  USBManager.mount_device dev st = (Raise e, st') →
  ((path_exists dev (world st) = false
    ∧ e = Exception ("Device " +:+ dev +:+ " does not exist")
    ∧ st' = st)
   ∨ (path_exists dev (world st) = true
      ∧ ∃ mp w1,
          USBManager.mount_point (self st) = Some mp
          ∧ PyStr.truthy mp = true
          ∧ run ["sudo"; "umount"; mp] 30 (world st) = (Raise e, w1)
          ∧ st' = mkState w1 (trace st ++ [ERun ["sudo"; "umount"; mp]])
                    (self st))
   ∨ (path_exists dev (world st) = true
      ∧ ∃ st1 new,
          Props.torn_down st st1
          ∧ Props.mount_failure dev (Props.own_point st1) (world st1)
              e (world st') new
          ∧ trace st' = trace st1 ++ new
          ∧ self st' = self st1))
  ∧ (self st' = self st
     ∨ self st' = USBManager.mk None None (USBManager.mount_base (self st)))
  ∧ ∃ new, Props.added st st' new
      ∧ (Forall (fun ev => Props.is_makedirs ev = false) new
         ∨ ∃ before mp runs,
             new = before ++ EMakedirs mp :: runs
             ∧ Forall (fun ev => Props.is_mount_command ev = true) runs).
Proof.
  intros Hm. split.
  - destruct (path_exists dev (world st)) eqn:He.
    2: { left. rewrite (mount_device_missing st dev He) in Hm.
         injection Hm as <- <-. auto. }
    right. rewrite (mount_device_present st dev He) in Hm.
    destruct (USBManager.supersede st) as [[[]|e1] st1] eqn:Hs.
    + right. split; [reflexivity|].
      apply supersede_returned in Hs.
      apply mount_at_own_point_raised in Hm as (new & Hf & Htr & Hself).
      exists st1, new. auto.
    + left. split; [reflexivity|]. injection Hm as <- <-.
      now apply supersede_raised.
  - unfold Props.added.
    apply mount_device_spec in Hm
      as [(_ & [= ->] & ->) | (_ & r1 & st1 & Hs & Hrest)].
    { split; [now left|].
      exists []. rewrite app_nil_r. split; [reflexivity | left; constructor]. }
    apply supersede_spec in Hs
      as [(_ & -> & ->)
         | (mp & Hmp & [(-> & Htr & Hself) | (e1 & -> & Htr & Hself)])].
    + apply mount_at_own_point_spec in Hrest
        as (runs & Htr' & Hruns & [([=] & _) | (e' & [= <-] & Hs')]).
      split; [now left|].
      eexists. split; [exact Htr'|]. right. exists []. eauto.
    + apply mount_at_own_point_spec in Hrest
        as (runs & Htr' & Hruns & [([=] & _) | (e' & [= <-] & Hs')]).
      split; [right; now rewrite Hs', Hself|].
      eexists. rewrite Htr', Htr, <- app_assoc. split; [reflexivity|].
      right. eexists _, _, _. split; [reflexivity | exact Hruns].
    + destruct Hrest as [[= <-] ->].
      split; [now left|].
      eexists. split; [exact Htr|]. left. repeat constructor.
Qed.

Lemma mount_device_failure_witness :
  let st := Sim.start Samples.stick Samples.fresh in
  let out := USBManager.mount_device "/dev/sdb1" st in
  let unknown :=
    {| returncode := 32; stdout := "";
       stderr := "mount: /media/usb/usb_7: unknown filesystem type." |} in
  fst out = Raise (Exception ("Failed to mount device: " +:+ stderr unknown))
  ∧ run (Props.auto_mount "/dev/sdb1" "/media/usb/usb_7") 30 (world (snd out))
    = (Ok unknown, world (snd out))
  ∧ ∃ new,
      Props.mount_failure "/dev/sdb1" "/media/usb/usb_7" (world st)
        (Exception ("Failed to mount device: " +:+ stderr unknown))
        (world (snd out)) new
      ∧ trace (snd out) = new.
Proof.
  intros st out unknown.
  split; [reflexivity|]. split; [reflexivity|].
  assert (Hrun :
    USBManager.mount_device "/dev/sdb1" st
    = (Raise (Exception ("Failed to mount device: " +:+ stderr unknown)),
       snd out)) by reflexivity.
  destruct (mount_device_failure st "/dev/sdb1" _ _ Hrun)
    as ([(Hex & _) | [(_ & mp & w1 & Hmp & _) | (_ & st1 & new & Ht & Hf & Htr & _)]]
        & _); [discriminate Hex | discriminate Hmp |].
  destruct Ht as [(_ & ->) | (mp & c & w1 & Hmp & _)]; [|discriminate Hmp].
  exists new. split; [exact Hf | exact Htr].
Defined.

(** ** Device manager: status *)

(** [get_status] always returns, and leaves everything as it was. *)
Lemma get_status_total {W : Type} {HW : Host W} {RT : Runtime}
    (st : state W USBManager.t) :
  ∃ s, USBManager.get_status st = (Ok s, st).
Proof.
  unfold USBManager.get_status, USBManager.truediv. step_monad.
  destruct (negb _ || negb _)%bool; [eauto|].
  destruct (disk_usage _ (world st)) as [u|msg]; simpl; [|eauto].
  destruct (total u =? 0); simpl; eauto.
Qed.

(** C7: in a mounted state [get_status] returns a status and never an
    exception.  With a non-zero total the reported [usage_percent] is
    [round((used / total) * 100, 1)]; with a zero total the division raises
    inside the method, is caught there, and the all-zero status is returned,
    whose [usage_percent] is the integer [0]. *)
Theorem get_status_usage_percent {W : Type} {HW : Host W} {RT : Runtime}
    (st : state W USBManager.t) (mp : string) (u : usage) :
  USBManager.mount_point (self st) = Some mp →
  PyStr.truthy mp = true →
  path_ismount mp (world st) = true →
  disk_usage mp (world st) = Done u →
  ∃ s, USBManager.get_status st = (Ok s, st)
    ∧ (total u = 0 →
       s = USBManager.unmounted_status
       ∧ USBManager.usage_percent s = USBManager.Int 0)
    ∧ (total u ≠ 0 →
       USBManager.usage_percent s =
         USBManager.Float
           (round_ndigits (float_mul_int (int_truediv (used u) (total u)) 100) 1)
       ∧ USBManager.mounted s = true
       ∧ USBManager.total_space s = total u
       ∧ USBManager.used_space s = used u
       ∧ USBManager.free_space s = free u).
Proof.
  intros Hmp Ht Hmt Hdu.
  unfold USBManager.get_status, USBManager.truediv. step_monad.
  unfold USBManager.truthy. rewrite Hmp. simpl. rewrite Ht, Hmt, Hdu. simpl.
  destruct (total u =? 0) eqn:Hz; simpl; eexists; (split; [reflexivity|]).
  - split; [intros _; now split | intros Hnz; lia].
  - split; [intros Hz'; lia | intros _; repeat split].
Qed.

Lemma get_status_usage_percent_witness :
  (∃ s, USBManager.get_status (RT := Samples.rt)
          (Sim.start Samples.blank_stick Samples.plugged)
        = (Ok s, Sim.start Samples.blank_stick Samples.plugged)
      ∧ USBManager.usage_percent s = USBManager.Int 0)
  ∧ (∃ s, USBManager.get_status (RT := Samples.rt)
            (Sim.start Samples.mounted_stick Samples.plugged)
          = (Ok s, Sim.start Samples.mounted_stick Samples.plugged)
        ∧ USBManager.usage_percent s =
            USBManager.Float (RT := Samples.rt)
              (Sim.FRound (Sim.FMul (Sim.FDiv 250 1000) 100) 1)).
Proof.
  split.
  - destruct (get_status_usage_percent (RT := Samples.rt)
                (Sim.start Samples.blank_stick Samples.plugged)
                "/media/usb/usb_7" {| total := 0; used := 0; free := 0 |})
      as (s & Hs & Hzero & _); [reflexivity ..|].
    exists s. split; [exact Hs|]. exact (proj2 (Hzero eq_refl)).
  - destruct (get_status_usage_percent (RT := Samples.rt)
                (Sim.start Samples.mounted_stick Samples.plugged)
                "/media/usb/usb_7" {| total := 1000; used := 250; free := 750 |})
      as (s & Hs & _ & Hnz); [reflexivity ..|].
    exists s. split; [exact Hs|].
    refine (proj1 (Hnz _)). discriminate.
Defined.

(** ** Device manager: enumeration *)

Section Names.

Lemma append_cons c a b : String c a +:+ b = String c (a +:+ b).
Proof. reflexivity. Qed.

Lemma append_nil b : "" +:+ b = b.
Proof. reflexivity. Qed.

Lemma append_assoc a b c : (a +:+ b) +:+ c = a +:+ (b +:+ c).
Proof. induction a as [|x a IH]; [reflexivity|]. rewrite !append_cons. now f_equal. Qed.

Lemma all_chars_append f a b :
  Props.all_chars f (a +:+ b) = (Props.all_chars f a && Props.all_chars f b)%bool.
Proof.
  induction a as [|x a IH]; [reflexivity|].
  rewrite append_cons. simpl. rewrite IH. now rewrite andb_assoc.
Qed.

Lemma contains_slash_free s :
  Props.all_chars Props.not_slash s = true → PyStr.contains "/" s = false.
Proof.
  induction s as [|c s IH]; [reflexivity|]. simpl.
  intros [Hc Hs]%andb_true_iff. rewrite (IH Hs).
  unfold Props.not_slash in Hc. now destruct (Ascii.eqb c "/").
Qed.

Lemma last_piece_slash_free s :
  PyStr.contains "/" s = false → PyStr.last_piece "/" s = s.
Proof.
  destruct s as [|c s]; [reflexivity|]. intros Hc.
  cbn [PyStr.last_piece]. now rewrite Hc.
Qed.

Lemma cut_at_digit_digits d :
  Props.all_chars PyStr.is_digit d = true → USBManager.cut_at_digit d = "".
Proof.
  destruct d as [|c d]; [reflexivity|]. simpl.
  now intros [-> _]%andb_true_iff.
Qed.

Lemma cut_at_digit_stem stem d :
  Props.all_chars Props.not_digit stem = true →
  Props.all_chars PyStr.is_digit d = true →
  USBManager.cut_at_digit (stem +:+ d) = stem.
Proof.
  intros Hs Hd. induction stem as [|c stem IH].
  - now apply cut_at_digit_digits.
  - rewrite append_cons. simpl in *. apply andb_true_iff in Hs as [Hc Hs].
    unfold Props.not_digit in Hc. destruct (PyStr.is_digit c); [discriminate|].
    now rewrite IH.
Qed.

(** On names of the shape [/dev/<stem><digits>] the source derives the
    stem. *)
Lemma disk_name_of_usual stem d :
  Props.all_chars Props.not_digit stem = true →
  Props.all_chars Props.not_slash stem = true →
  Props.all_chars PyStr.is_digit d = true →
  USBManager.disk_name_of ("/dev/" +:+ stem +:+ d) = stem.
Proof.
  intros Hnd Hns Hd. unfold USBManager.disk_name_of.
  assert (Hfree : PyStr.contains "/" (stem +:+ d) = false).
  { apply contains_slash_free. rewrite all_chars_append, Hns. simpl.
    clear -Hd. induction d as [|c d IH]; [reflexivity|]. simpl in *.
    apply andb_true_iff in Hd as [Hc Hd]. rewrite (IH Hd), andb_true_r.
    unfold Props.not_slash. destruct (Ascii.eqb_spec c "/") as [->|]; [|reflexivity].
    discriminate. }
  change ("/dev/" +:+ stem +:+ d)
    with (String "/" (String "d" (String "e" (String "v" (String "/" (stem +:+ d)))))).
  simpl. rewrite (last_piece_slash_free _ Hfree).
  now apply cut_at_digit_stem.
Qed.

Lemma strip_trailing_digits_digits d :
  Props.all_chars PyStr.is_digit d = true → Props.strip_trailing_digits d = "".
Proof.
  induction d as [|c d IH]; [reflexivity|]. simpl.
  intros [Hc Hd]%andb_true_iff. now rewrite (IH Hd), Hc.
Qed.

Lemma strip_trailing_digits_append a d :
  Props.all_chars PyStr.is_digit d = true →
  Props.strip_trailing_digits (a +:+ d) = Props.strip_trailing_digits a.
Proof.
  intros Hd. induction a as [|c a IH].
  - now apply strip_trailing_digits_digits.
  - rewrite append_cons. simpl. now rewrite IH.
Qed.

Lemma strip_trailing_digits_none s :
  Props.all_chars Props.not_digit s = true → Props.strip_trailing_digits s = s.
Proof.
  induction s as [|c s IH]; [reflexivity|]. simpl.
  intros [Hc Hs]%andb_true_iff. rewrite (IH Hs).
  unfold Props.not_digit in Hc. destruct (PyStr.is_digit c); [discriminate|].
  now destruct s.
Qed.

(** On the same names the specification's derivation gives [/dev/<stem>]. *)
Lemma strip_trailing_digits_usual stem d :
  Props.all_chars Props.not_digit stem = true →
  Props.all_chars PyStr.is_digit d = true →
  Props.strip_trailing_digits ("/dev/" +:+ stem +:+ d) = "/dev/" +:+ stem.
Proof.
  intros Hnd Hd. rewrite <- append_assoc.
  rewrite (strip_trailing_digits_append _ d Hd).
  apply strip_trailing_digits_none. now rewrite all_chars_append, Hnd.
Qed.

(** Every name is what is left without its trailing digits, followed by
    those digits. *)
Lemma strip_trailing_digits_split s :
  ∃ d, s = Props.strip_trailing_digits s +:+ d
    ∧ Props.all_chars PyStr.is_digit d = true.
Proof.
  induction s as [|c s (d & Hs & Hd)]; [now exists ""|].
  cbn [Props.strip_trailing_digits].
  destruct (Props.strip_trailing_digits s) as [|c' r'] eqn:Hstrip.
  - rewrite append_nil in Hs. subst d.
    destruct (PyStr.is_digit c) eqn:Hc.
    + exists (String c s). split; [reflexivity|]. simpl. now rewrite Hc.
    + exists s. split; [reflexivity | exact Hd].
  - exists d. rewrite append_cons. split; [now f_equal | exact Hd].
Qed.

Lemma prefix_drop p : ∀ n,
  String.prefix p n = true → n = p +:+ PyStr.drop (String.length p) n.
Proof.
  induction p as [|a p IH]; intros n H.
  - now destruct n.
  - destruct n as [|b n]; cbn [String.prefix] in H; [discriminate|].
    destruct (Ascii.ascii_dec a b) as [->|]; [|discriminate].
    rewrite append_cons. cbn [String.length PyStr.drop]. f_equal.
    now apply IH.
Qed.

Lemma prefix_dev n :
  String.prefix "/dev/" n = true → n = "/dev/" +:+ PyStr.drop 5 n.
Proof. apply (prefix_drop "/dev/"). Qed.

(** A usual name is [/dev/<stem><digits>]. *)
Lemma usual_name_shape n :
  Props.usual_name n = true →
  ∃ stem digits,
    n = "/dev/" +:+ stem +:+ digits
    ∧ Props.all_chars Props.not_digit stem = true
    ∧ Props.all_chars Props.not_slash stem = true
    ∧ Props.all_chars PyStr.is_digit digits = true.
Proof.
  unfold Props.usual_name.
  intros [[[Hp _]%andb_true_iff Hslash]%andb_true_iff Hstem]%andb_true_iff.
  destruct (strip_trailing_digits_split (PyStr.drop 5 n)) as (d & Hsplit & Hd).
  exists (Props.strip_trailing_digits (PyStr.drop 5 n)), d.
  split; [rewrite <- Hsplit; now apply prefix_dev|].
  split; [exact Hstem|]. split; [|exact Hd].
  rewrite Hsplit, all_chars_append in Hslash.
  now apply andb_true_iff in Hslash as [Hs _].
Qed.

End Names.

Section Enumeration.
Context {W : Type} {HW : Host W} {RT : Runtime}.
Implicit Types st : state W USBManager.t.

Lemma field_is_true d key value :
  USBManager.field_is d key value = true → d !! key = Some (PStr value).
Proof. unfold USBManager.field_is. apply bool_decide_eq_true. Qed.

Lemma name_of_Some d n :
  USBManager.name_of d = Some n → d !! "name" = Some (PStr n).
Proof.
  unfold USBManager.name_of.
  destruct (d !! "name") as [[|s]|]; congruence.
Qed.

Lemma usb_partitions_elem blockdevices usb_disks info :
  info ∈ USBManager.usb_partitions blockdevices usb_disks →
  ∃ d name, d ∈ blockdevices ∧ info = USBManager.device_info d
    ∧ d !! "type" = Some (PStr "part")
    ∧ d !! "name" = Some (PStr name)
    ∧ "/dev/" +:+ USBManager.disk_name_of name ∈ usb_disks.
Proof.
  unfold USBManager.usb_partitions.
  intros (d & -> & Hd)%list_elem_of_fmap.
  apply list_elem_of_In, filter_In in Hd as [Hin Hf].
  apply andb_true_iff in Hf as [Hty Hpart].
  unfold USBManager._is_usb_partition in Hpart.
  destruct (USBManager.name_of d) as [name|] eqn:Hn; [|discriminate].
  exists d, name. split; [now apply list_elem_of_In|].
  split; [reflexivity|]. split; [now apply field_is_true|].
  split; [now apply name_of_Some|]. now apply bool_decide_eq_true in Hpart.
Qed.

Lemma find_usb_disks_elem blockdevices w n :
  n ∈ USBManager.find_usb_disks blockdevices w →
  ∃ d, d ∈ blockdevices
    ∧ d !! "type" = Some (PStr "disk")
    ∧ d !! "name" = Some (PStr n)
    ∧ USBManager._is_removable_disk d w = true.
Proof.
  unfold USBManager.find_usb_disks.
  assert (Hgen : ∀ acc : gset string,
    n ∈ fold_left
          (fun usb_disks d =>
             if USBManager.field_is d "type" "disk"
                && USBManager._is_removable_disk d w
             then match USBManager.name_of d with
                  | Some name => usb_disks ∪ {[ name ]}
                  | None => usb_disks
                  end
             else usb_disks) blockdevices acc →
    n ∈ acc ∨ ∃ d, d ∈ blockdevices
      ∧ d !! "type" = Some (PStr "disk")
      ∧ d !! "name" = Some (PStr n)
      ∧ USBManager._is_removable_disk d w = true).
  { induction blockdevices as [|d bd IH]; intros acc Hn; [now left|].
    simpl in Hn. apply IH in Hn as [Hacc | (d' & Hin & Hrest)].
    - destruct (USBManager.field_is d "type" "disk"
                && USBManager._is_removable_disk d w) eqn:Hc; [|now left].
      apply andb_true_iff in Hc as [Hty Hrm].
      destruct (USBManager.name_of d) as [name|] eqn:Hname; [|now left].
      apply elem_of_union in Hacc as [Hacc | ->%elem_of_singleton]; [now left|].
      right. exists d. split; [apply list_elem_of_here|].
      split; [now apply field_is_true|]. split; [now apply name_of_Some | exact Hrm].
    - right. exists d'. split; [now apply list_elem_of_further | exact Hrest]. }
  intros Hn. apply Hgen in Hn as [Hempty | Hd]; [|exact Hd].
  now apply not_elem_of_empty in Hempty.
Qed.

(** When no disk name carries the [/dev/] prefix, nothing of the form
    [/dev/...] is in the removable-disk set. *)
Lemma bare_disks_no_member blockdevices (w : W) x :
  Props.disks_without_dev_prefix blockdevices = true →
  "/dev/" +:+ x ∉ USBManager.find_usb_disks blockdevices w.
Proof.
  intros Hbare Hmem.
  apply find_usb_disks_elem in Hmem as (disk & Hdisk & Hty & Hname & _).
  unfold Props.disks_without_dev_prefix in Hbare.
  rewrite forallb_forall in Hbare.
  apply list_elem_of_In in Hdisk. specialize (Hbare disk Hdisk).
  unfold USBManager.field_is, USBManager.name_of in Hbare.
  rewrite Hty, Hname in Hbare.
  rewrite bool_decide_eq_true_2 in Hbare by reflexivity.
  rewrite !append_cons, append_nil in Hbare. simpl in Hbare.
  destruct x; discriminate.
Qed.

(** The primary path, by the answer of [lsblk]. *)
Lemma enumerate_primary_spec st devices st' :
  USBManager.enumerate_primary st = (Ok devices, st') →
  ∃ c, run ["lsblk"; "-J"; "-o"; "NAME,SIZE,TYPE,MOUNTPOINT,LABEL,FSTYPE"] 10
         (world st) = (Ok c, world st')
    ∧ ((returncode c ≠ 0 ∧ devices = [])
       ∨ (returncode c = 0
          ∧ ∃ blockdevices,
              lsblk_blockdevices (stdout c) = Ok blockdevices
              ∧ devices =
                  USBManager.usb_partitions blockdevices
                    (USBManager.find_usb_disks blockdevices (world st')))).
Proof.
  unfold USBManager.enumerate_primary. step_monad.
  destruct (run _ 10 (world st)) as [[c|e] w1]; simpl; [|discriminate].
  destruct (returncode c =? 0) eqn:Hrc.
  - step_monad.
    destruct (lsblk_blockdevices (stdout c)) as [bd|e] eqn:Hbd; simpl;
      [|discriminate].
    intros [= <- <-]. exists c. split; [reflexivity|]. right.
    split; [lia|]. exists bd. split; [exact Hbd | reflexivity].
  - intros [= <- <-]. exists c. split; [reflexivity|]. left. split; [lia | reflexivity].
Qed.

End Enumeration.

(** C8: every entry reported through the primary path comes from a
    [part]-type entry of the listing whose name without its trailing digits
    is in the removable-disk set, and every member of that set is the name of
    a [disk]-type entry whose removable flag reads [1]: no partition of
    another disk is reported.  This holds for the listings [lsblk] prints:
    kernel names without a directory, for which the set holds no [/dev/...]
    name and nothing is reported, and, as with [lsblk -p], partition names of
    the shape [/dev/<stem><digits>]. *)
Theorem enumeration_reports_usb_partitions {W : Type} {HW : Host W}
    {RT : Runtime} (st : state W USBManager.t) (devices : list device)
    (st' : state W USBManager.t) :
  USBManager.enumerate_primary st = (Ok devices, st') →
  (∀ c blockdevices,
     run Props.lsblk_json 10 (world st) = (Ok c, world st') →
     lsblk_blockdevices (stdout c) = Ok blockdevices →
     Props.listing_names blockdevices = true) →
  USBManager.get_available_devices st = (Ok devices, st')
  ∧ ∃ blockdevices,
      (∀ n, n ∈ USBManager.find_usb_disks blockdevices (world st') →
         ∃ d, d ∈ blockdevices
           ∧ d !! "type" = Some (PStr "disk")
           ∧ d !! "name" = Some (PStr n)
           ∧ USBManager._is_removable_disk d (world st') = true)
      ∧ (∀ info, info ∈ devices →
           ∃ d name, d ∈ blockdevices
             ∧ info = USBManager.device_info d
             ∧ d !! "type" = Some (PStr "part")
             ∧ d !! "name" = Some (PStr name)
             ∧ Props.strip_trailing_digits name
                 ∈ USBManager.find_usb_disks blockdevices (world st')).
Proof.
  intros Hp Hnames. split.
  { unfold USBManager.get_available_devices, try_except. now rewrite Hp. }
  apply enumerate_primary_spec in Hp
    as (c & Hrun & [(_ & ->) | (_ & bd & Hbd & ->)]).
  - exists []. split.
    + intros n Hn. now apply find_usb_disks_elem in Hn.
    + intros info Hin. now apply elem_of_nil in Hin.
  - exists bd. split; [intros n; apply find_usb_disks_elem|].
    intros info Hin.
    apply usb_partitions_elem in Hin as (d & name & Hd & -> & Hty & Hname & Hmem).
    exists d, name. repeat (split; [assumption || reflexivity|]).
    specialize (Hnames c bd Hrun Hbd).
    apply orb_true_iff in Hnames as [Hbare | Husual].
    + now apply (bare_disks_no_member bd (world st')) in Hmem.
    + unfold Props.usual_partitions in Husual.
      rewrite forallb_forall in Husual.
      apply list_elem_of_In in Hd. specialize (Husual d Hd).
      unfold USBManager.field_is, USBManager.name_of in Husual.
      rewrite Hty, Hname in Husual.
      rewrite bool_decide_eq_true_2 in Husual by reflexivity.
      apply usual_name_shape in Husual
        as (stem & digits & -> & Hnd & Hns & Hdg).
      rewrite (strip_trailing_digits_usual stem digits Hnd Hdg).
      now rewrite (disk_name_of_usual stem digits Hnd Hns Hdg) in Hmem.
Qed.

Lemma enumeration_reports_usb_partitions_witness :
  let st := Sim.start (Samples.with_lsblk "usual") Samples.fresh in
  let out := USBManager.get_available_devices (RT := Samples.lsblk_rt) st in
  Props.listing_names Samples.usual_names = true
  ∧ fst out
    = Ok [USBManager.device_info
            (list_to_map [("name", PStr "/dev/sda1"); ("type", PStr "part")])]
  ∧ Props.strip_trailing_digits "/dev/sda1"
      ∈ USBManager.find_usb_disks Samples.usual_names (world (snd out)).
Proof.
  intros st out.
  destruct (enumeration_reports_usb_partitions (RT := Samples.lsblk_rt) st
              (USBManager.usb_partitions Samples.usual_names {[ "/dev/sda" ]})
              (snd (USBManager.enumerate_primary (RT := Samples.lsblk_rt) st)))
    as (Hrun & _).
  { vm_compute. reflexivity. }
  { intros c blockdevices [= <-] [= <-]. reflexivity. }
  split; [reflexivity|]. split; [now vm_compute|].
  assert (Hset : USBManager.find_usb_disks Samples.usual_names (world (snd out))
                 = {[ "/dev/sda" ]}) by now vm_compute.
  rewrite Hset. now apply elem_of_singleton.
Defined.

(** Names outside these shapes are treated differently: the source cuts the
    last component of a name at its first digit, so that a [part]-type entry
    named [/dev/sda1p2] -- not a name the kernel gives -- would be reported
    for the removable disk [/dev/sda], while that name without its trailing
    digits is [/dev/sda1p]. *)
Lemma enumeration_reports_odd_partition :
  let st := Sim.start (Samples.with_lsblk "odd") Samples.fresh in
  ∃ d, Samples.odd_names !! 1%nat = Some d
    ∧ Props.listing_names Samples.odd_names = false
    ∧ fst (USBManager.get_available_devices (RT := Samples.lsblk_rt) st)
      = Ok [USBManager.device_info d]
    ∧ USBManager.device_info d !! "name" = Some (PStr "/dev/sda1p2")
    ∧ Props.strip_trailing_digits "/dev/sda1p2" = "/dev/sda1p".
Proof.
  eexists. split; [reflexivity|].
  split; [now vm_compute|]. split; [now vm_compute|].
  split; [now vm_compute | reflexivity].
Qed.

(** ** File service: the order of a listing *)

Section Listing.
Context {RT : Runtime}.

Lemma ltb_false_leb s1 s2 :
  String.ltb s2 s1 = false ↔ String.leb s1 s2 = true.
Proof.
  unfold String.ltb, String.leb. rewrite (String.compare_antisym s1 s2).
  destruct (String.compare s2 s1); simpl; split; congruence.
Qed.

Lemma leb_trans s1 s2 s3 :
  String.leb s1 s2 = true → String.leb s2 s3 = true → String.leb s1 s3 = true.
Proof.
  intros H12 H23. apply Is_true_true.
  apply (@transitivity _ String.le _ s1 s2 s3); now apply Is_true_true.
Qed.

(** [x] stays before [y] exactly when [key(y) < key(x)] fails. *)
Lemma listed_before_key x y :
  FileOperations.key_lt (FileOperations.sort_key y) (FileOperations.sort_key x)
    = false
  ↔ Props.listed_before x y.
Proof.
  unfold FileOperations.key_lt, FileOperations.sort_key, Props.listed_before.
  simpl. rewrite <- ltb_false_leb.
  destruct (FileOperations.is_directory x), (FileOperations.is_directory y);
    simpl; intuition congruence.
Qed.

Lemma listed_before_total x y :
  Props.listed_before x y ∨ Props.listed_before y x.
Proof.
  unfold Props.listed_before.
  destruct (String.leb_total (lower (FileOperations.name x))
              (lower (FileOperations.name y)));
    destruct (FileOperations.is_directory x), (FileOperations.is_directory y);
    intuition.
Qed.

Lemma listed_before_trans x y z :
  Props.listed_before x y → Props.listed_before y z → Props.listed_before x z.
Proof.
  unfold Props.listed_before.
  intros [[Hx Hy] | [Hxy Hle1]] [[Hy' Hz] | [Hyz Hle2]].
  - congruence.
  - left. split; congruence.
  - left. split; congruence.
  - right. split; [congruence | eapply leb_trans; eassumption].
Qed.

Lemma insert_sorted_elem x l z :
  In z (FileOperations.insert_sorted x l) → z = x ∨ In z l.
Proof.
  induction l as [|y l IH]; simpl.
  - intros [<- | []]. now left.
  - destruct (FileOperations.key_lt _ _); simpl.
    + intros [<- | Hz]; [right; now left|].
      destruct (IH Hz); [now left | right; now right].
    + intros [<- | Hz]; [now left | now right].
Qed.

Lemma insert_sorted_sorted x l :
  StronglySorted Props.listed_before l →
  StronglySorted Props.listed_before (FileOperations.insert_sorted x l).
Proof.
  induction 1 as [|y l Hs IH Hall]; simpl.
  - repeat constructor.
  - destruct (FileOperations.key_lt (FileOperations.sort_key y)
                (FileOperations.sort_key x)) eqn:Hlt.
    + constructor; [exact IH|].
      apply List.Forall_forall. intros z Hz.
      apply insert_sorted_elem in Hz as [-> | Hz].
      * destruct (listed_before_total y x) as [Hyx | Hxy]; [exact Hyx|].
        apply listed_before_key in Hxy. congruence.
      * rewrite List.Forall_forall in Hall. now apply Hall.
    + apply listed_before_key in Hlt.
      constructor; [now constructor|].
      constructor; [exact Hlt|].
      eapply List.Forall_impl; [|exact Hall].
      intros z Hyz. eapply listed_before_trans; eassumption.
Qed.

Lemma sort_sorted l :
  StronglySorted Props.listed_before (FileOperations.sort l).
Proof.
  induction l as [|x l IH]; simpl; [constructor|].
  now apply insert_sorted_sorted.
Qed.

Lemma insert_sorted_perm x l :
  Permutation (x :: l) (FileOperations.insert_sorted x l).
Proof.
  induction l as [|y l IH]; simpl; [reflexivity|].
  destruct (FileOperations.key_lt _ _); [|reflexivity].
  rewrite perm_swap. now constructor.
Qed.

Lemma sort_perm l : Permutation l (FileOperations.sort l).
Proof.
  induction l as [|x l IH]; simpl; [constructor|].
  rewrite <- insert_sorted_perm. now constructor.
Qed.

End Listing.

Section ListFiles.
Context {W : Type} {HW : Host W} {RT : Runtime}.
Implicit Types st : state W FileOperations.t.

(** What the common prologue of the methods yields. *)
Lemma mounted_root_spec st r st1 :
  FileOperations.mounted_root st = (r, st1) →
  (∃ m mp, FileOperations.usb_manager (self st) = Some m
     ∧ USBManager.mount_point m = Some mp
     ∧ PyStr.truthy mp = true
     ∧ path_ismount mp (world st) = true
     ∧ r = Ok mp ∧ st1 = st)
  ∨ (∃ e, r = Raise e
       ∧ Forall (fun ev => Props.is_makedirs ev = true)
           (List.skipn (List.length (trace st)) (trace st1))).
Proof.
  unfold FileOperations.mounted_root, FileOperations._get_usb_manager,
    USBManager.init, USBManager.get_mount_point, USBManager.is_device_mounted.
  step_monad.
  destruct (FileOperations.usb_manager (self st)) as [m|] eqn:Hm; step_monad.
  - destruct (USBManager.mount_point m) as [mp|] eqn:Hmp; simpl.
    + destruct (path_ismount mp (world st)) eqn:Hmt; simpl.
      * destruct (PyStr.truthy mp) eqn:Ht; simpl;
          intros [= <- <-].
        -- left. exists m, mp. auto 10.
        -- right. eexists. split; [reflexivity|].
           rewrite skipn_all. constructor.
      * intros [= <- <-]. right. eexists. split; [reflexivity|].
        rewrite skipn_all. constructor.
    + intros [= <- <-]. right. eexists. split; [reflexivity|].
      rewrite skipn_all. constructor.
  - cbn [USBManager.mount_base].
    destruct (makedirs "/media/usb" (world st)) as [[[]|msg] w1]; simpl;
      intros [= <- <-]; right; eexists; (split; [reflexivity|]); simpl;
      rewrite skipn_app, skipn_all, Nat.sub_diag; simpl; repeat constructor.
Qed.

End ListFiles.

(** C9: a listing returned by [list_files] is ordered with directories
    before files and, within each kind, by lower-cased name ascending
    ([str.lower] is the runtime's, the order that of code points); it holds
    exactly the entries collected from the directory.  Since [str.lower]
    leaves [b.txt] and [a.txt] as they are and turns [A] into [a], the
    entries [b.txt] (file), [A] (directory), [a.txt] (file) come out as [A],
    [a.txt], [b.txt]. *)
Theorem list_files_order {W : Type} {HW : Host W} {RT : Runtime}
    (st : state W FileOperations.t) (path : string)
    (files : list FileOperations.file_info) (st' : state W FileOperations.t) :
  FileOperations.list_files path st = (Ok files, st') →
  StronglySorted Props.listed_before files
  ∧ (∃ mount_point items entries,
       listdir (PosixPath.join mount_point [path]) (world st) = Done items
       ∧ FileOperations.list_items (PosixPath.join mount_point [path]) path
           items (world st) []
         = Ok entries
       ∧ Permutation entries files)
  ∧ (lower "b.txt" = "b.txt" → lower "A" = "a" → lower "a.txt" = "a.txt" →
     ∀ b A a,
       FileOperations.name b = "b.txt" → FileOperations.is_directory b = false →
       FileOperations.name A = "A" → FileOperations.is_directory A = true →
       FileOperations.name a = "a.txt" → FileOperations.is_directory a = false →
       FileOperations.sort [b; A; a] = [A; a; b]).
Proof.
  intros Hl. split; [|split].
  - unfold FileOperations.list_files in Hl. unfold bind at 1 in Hl.
    destruct (FileOperations.mounted_root st) as [[mp|e] st1]; [|discriminate].
    revert Hl. step_monad.
    destruct (negb (path_exists _ (world st1))); simpl; [discriminate|].
    destruct (listdir _ (world st1)) as [items|msg]; simpl; [|discriminate].
    destruct (FileOperations.list_items _ path items (world st1) [])
      as [entries|e]; simpl; [|discriminate].
    intros [= <- <-]. apply sort_sorted.
  - unfold FileOperations.list_files in Hl. unfold bind at 1 in Hl.
    destruct (FileOperations.mounted_root st) as [r st1] eqn:Hroot.
    apply mounted_root_spec in Hroot
      as [(m & mp & _ & _ & _ & _ & -> & ->) | (e & -> & _)]; [|discriminate].
    revert Hl. step_monad.
    destruct (path_exists (PosixPath.join mp [path]) (world st)); simpl;
      [|discriminate].
    destruct (listdir (PosixPath.join mp [path]) (world st))
      as [items|msg] eqn:Hld; simpl; [|discriminate].
    destruct (FileOperations.list_items _ path items (world st) [])
      as [entries|e] eqn:Hitems; simpl; [|discriminate].
    intros [= <- <-]. exists mp, items, entries.
    split; [exact Hld|]. split; [exact Hitems | apply sort_perm].
  - intros Hb HA Ha b A a Hnb Hdb HnA HdA Hna Hda.
    assert (Hkb : FileOperations.sort_key b = (true, "b.txt"))
      by (unfold FileOperations.sort_key; now rewrite Hnb, Hdb, Hb).
    assert (HkA : FileOperations.sort_key A = (false, "a"))
      by (unfold FileOperations.sort_key; now rewrite HnA, HdA, HA).
    assert (Hka : FileOperations.sort_key a = (true, "a.txt"))
      by (unfold FileOperations.sort_key; now rewrite Hna, Hda, Ha).
    cbn [FileOperations.sort FileOperations.insert_sorted].
    rewrite Hka, HkA. cbn [FileOperations.key_lt fst snd].
    cbn [FileOperations.insert_sorted]. rewrite HkA, Hkb, Hka.
    reflexivity.
Qed.

Lemma list_files_order_witness :
  let files :=
    [ FileOperations.mkFileInfo "A" "A" true 0 "0" "0" "folder" "folder";
      FileOperations.mkFileInfo "a.txt" "a.txt" false 1 "0" "0" "unknown" "text";
      FileOperations.mkFileInfo "b.txt" "b.txt" false 2 "0" "0" "unknown" "text" ] in
  FileOperations.list_files (RT := Samples.rt) ""
    (Sim.start Samples.three_entries Samples.service)
  = (Ok files, Sim.start Samples.three_entries Samples.service)
  ∧ StronglySorted (Props.listed_before (RT := Samples.rt)) files
  ∧ FileOperations.sort (RT := Samples.rt)
      [ Samples.entry "b.txt" false; Samples.entry "A" true;
        Samples.entry "a.txt" false ]
    = [ Samples.entry "A" true; Samples.entry "a.txt" false;
        Samples.entry "b.txt" false ].
Proof.
  assert (Hrun :
    FileOperations.list_files (RT := Samples.rt) ""
      (Sim.start Samples.three_entries Samples.service)
    = (Ok [ FileOperations.mkFileInfo "A" "A" true 0 "0" "0" "folder" "folder";
            FileOperations.mkFileInfo "a.txt" "a.txt" false 1 "0" "0" "unknown" "text";
            FileOperations.mkFileInfo "b.txt" "b.txt" false 2 "0" "0" "unknown" "text" ],
       Sim.start Samples.three_entries Samples.service)).
  { vm_compute. reflexivity. }
  destruct (list_files_order (RT := Samples.rt) _ _ _ _ Hrun)
    as (Hsorted & _ & Hexample).
  split; [exact Hrun|]. split; [exact Hsorted|].
  apply Hexample; reflexivity.
Defined.

(** ** File service: where a relative path resolves *)

Section Paths.

Lemma split_nonempty c s : PyStr.split c s ≠ [].
Proof.
  destruct s as [|a s]; simpl; [discriminate|].
  destruct (Ascii.eqb a c); [discriminate|].
  destruct (PyStr.split c s); discriminate.
Qed.

(** Splitting distributes over a separator. *)
Lemma split_append_sep c a b :
  PyStr.split c (a +:+ String c b) = PyStr.split c a ++ PyStr.split c b.
Proof.
  induction a as [|x a IH].
  - rewrite append_nil. simpl. now rewrite Ascii.eqb_refl.
  - rewrite append_cons. simpl. rewrite IH.
    destruct (Ascii.eqb x c); [reflexivity|].
    pose proof (split_nonempty c a) as Hne.
    destruct (PyStr.split c a); [contradiction | reflexivity].
Qed.

Lemma endswith_append c s :
  PyStr.endswith c s = true → ∃ s', s = s' +:+ String c "".
Proof.
  induction s as [|a s IH]; [discriminate|].
  destruct s as [|b s].
  - simpl. intros ->%Ascii.eqb_eq. now exists "".
  - intros He. destruct (IH He) as [s' Hs']. exists (String a s').
    rewrite append_cons. now f_equal.
Qed.

(** Without a [..] component, resolution only adds to what it has. *)
Lemma resolve_extends comps : ∀ stack,
  forallb (fun c => negb (PyStr.eqb c "..")) comps = true →
  ∃ extra, fold_left PosixPath.resolve_step comps stack = stack ++ extra.
Proof.
  induction comps as [|c comps IH]; intros stack Hno.
  - exists []. now rewrite app_nil_r.
  - simpl in Hno. apply andb_true_iff in Hno as [Hc Hno]. simpl.
    unfold PosixPath.resolve_step at 2.
    destruct (PyStr.eqb c "" || PyStr.eqb c ".")%bool; [now apply IH|].
    destruct (PyStr.eqb c ".."); [discriminate|].
    destruct (IH (stack ++ [c]) Hno) as [extra ->].
    exists (c :: extra). now rewrite <- app_assoc.
Qed.

Lemma is_prefix_app xs extra : PosixPath.is_prefix xs (xs ++ extra) = true.
Proof.
  induction xs as [|x xs IH]; [reflexivity|]. simpl.
  unfold PyStr.eqb. now rewrite String.eqb_refl.
Qed.

(** The components of a joined relative path start from those of the
    root. *)
Lemma components_join root rel :
  PyStr.truthy root = true →
  PosixPath.is_relative rel = true →
  PosixPath.components (PosixPath.join root [rel])
  = fold_left PosixPath.resolve_step (PyStr.split "/" rel)
      (PosixPath.components root).
Proof.
  intros Hroot Hrel. unfold PosixPath.is_relative in Hrel.
  apply negb_true_iff in Hrel.
  unfold PosixPath.components, PosixPath.resolve, PosixPath.join,
    PosixPath.join2.
  cbn [fold_left]. rewrite Hrel, Hroot. cbn [negb orb].
  destruct (PyStr.endswith "/" root) eqn:He.
  - destruct (endswith_append _ _ He) as [root' ->].
    rewrite append_assoc, append_cons, append_nil.
    rewrite !split_append_sep, !fold_left_app. reflexivity.
  - rewrite append_cons, append_nil.
    rewrite split_append_sep, fold_left_app. reflexivity.
Qed.

Lemma join_relative_inside root rel :
  PyStr.truthy root = true →
  PosixPath.is_relative rel = true →
  PosixPath.no_parent_segment rel = true →
  PosixPath.inside root (PosixPath.join root [rel]) = true.
Proof.
  intros Hroot Hrel Hno. unfold PosixPath.inside.
  rewrite (components_join root rel Hroot Hrel).
  destruct (resolve_extends _ (PosixPath.components root) Hno) as [extra ->].
  apply is_prefix_app.
Qed.

Lemma join_absolute root rel :
  PosixPath.is_relative rel = false → PosixPath.join root [rel] = rel.
Proof.
  unfold PosixPath.is_relative, PosixPath.join, PosixPath.join2.
  intros Hrel%negb_false_iff. cbn [fold_left]. now rewrite Hrel.
Qed.

End Paths.

Section GetFilePath.
Context {W : Type} {HW : Host W}.
Implicit Types st : state W FileOperations.t.

(** The prologue in a mounted state. *)
Lemma mounted_root_mounted st m mp :
  FileOperations.usb_manager (self st) = Some m →
  USBManager.mount_point m = Some mp →
  PyStr.truthy mp = true →
  path_ismount mp (world st) = true →
  FileOperations.mounted_root st = (Ok mp, st).
Proof.
  intros Hm Hmp Ht Hmt.
  unfold FileOperations.mounted_root, FileOperations._get_usb_manager,
    USBManager.get_mount_point, USBManager.is_device_mounted.
  step_monad. rewrite Hm. step_monad. rewrite Hmp, Hmt. simpl.
  now rewrite Ht.
Qed.

End GetFilePath.

(** C1, as the claim states it, fails: a relative path that climbs out of
    the mount root is not rejected; the joined path is returned. *)
Lemma get_file_path_escapes :
  let st := Sim.start Samples.mounted_stick Samples.service in
  PosixPath.is_relative "../../../etc/passwd" = true
  ∧ FileOperations.get_file_path "../../../etc/passwd" st
    = (Ok "/media/usb/usb_7/../../../etc/passwd", st)
  ∧ PosixPath.components "/media/usb/usb_7/../../../etc/passwd" = ["etc"; "passwd"]
  ∧ PosixPath.inside "/media/usb/usb_7" "/media/usb/usb_7/../../../etc/passwd"
    = false.
Proof. vm_compute. repeat split. Qed.

(** C1 (amended): while a volume is mounted, [get_file_path] rejects
    nothing: it returns the mount root joined with the given path as it
    stands.  That path lies inside the mount root whenever the given path is
    relative and has no parent-directory segment. *)
Theorem get_file_path_joins {W : Type} {HW : Host W}
    (st : state W FileOperations.t) (m : USBManager.t) (mp filename : string) :
  FileOperations.usb_manager (self st) = Some m →
  USBManager.mount_point m = Some mp →
  PyStr.truthy mp = true →
  path_ismount mp (world st) = true →
  FileOperations.get_file_path filename st
  = (Ok (PosixPath.join mp [filename]), st)
  ∧ (PosixPath.is_relative filename = true →
     PosixPath.no_parent_segment filename = true →
     PosixPath.inside mp (PosixPath.join mp [filename]) = true).
Proof.
  intros Hm Hmp Ht Hmt. split.
  - unfold FileOperations.get_file_path, bind.
    now rewrite (mounted_root_mounted st m mp Hm Hmp Ht Hmt).
  - now apply join_relative_inside.
Qed.

Lemma get_file_path_joins_witness :
  FileOperations.get_file_path "docs/./a.txt"
    (Sim.start Samples.mounted_stick Samples.service)
  = (Ok "/media/usb/usb_7/docs/./a.txt",
     Sim.start Samples.mounted_stick Samples.service)
  ∧ PosixPath.inside "/media/usb/usb_7" "/media/usb/usb_7/docs/./a.txt" = true.
Proof.
  destruct (get_file_path_joins
              (Sim.start Samples.mounted_stick Samples.service)
              Samples.plugged "/media/usb/usb_7" "docs/./a.txt")
    as [Hret Hin]; [reflexivity ..|].
  split; [exact Hret|]. apply Hin; reflexivity.
Defined.

(** ** File service: the collision loop of an upload *)

Section Candidates.

Lemma length_append a b :
  String.length (a +:+ b) = (String.length a + String.length b)%nat.
Proof.
  induction a as [|x a IH]; [reflexivity|].
  rewrite append_cons. simpl. now rewrite IH.
Qed.

Lemma append_cancel_l a b c : a +:+ b = a +:+ c → b = c.
Proof.
  induction a as [|x a IH]; [now rewrite !append_nil|].
  rewrite !append_cons. intros [= H]. now apply IH.
Qed.

Lemma append_cancel_r c : ∀ a b, a +:+ c = b +:+ c → a = b.
Proof.
  induction a as [|x a IH]; intros [|y b] H.
  - reflexivity.
  - apply (f_equal String.length) in H.
    rewrite append_nil, append_cons in H. simpl in H.
    rewrite length_append in H. lia.
  - apply (f_equal String.length) in H.
    rewrite append_nil, append_cons in H. simpl in H.
    rewrite length_append in H. lia.
  - rewrite !append_cons in H. injection H as -> H. f_equal. now apply IH.
Qed.

Lemma of_nat_inj j k : PyStr.of_nat j = PyStr.of_nat k → j = k.
Proof.
  unfold PyStr.of_nat. intros H.
  apply DecimalNat.Unsigned.to_uint_inj.
  apply (f_equal NilEmpty.uint_of_string) in H.
  rewrite !NilEmpty.usu in H. now injection H.
Qed.

(** Different counters give different paths. *)
Lemma numbered_path_inj mount_point filename j k :
  PosixPath.join mount_point [FileOperations.numbered filename j]
  = PosixPath.join mount_point [FileOperations.numbered filename k] →
  j = k.
Proof.
  unfold FileOperations.numbered, PosixPath.join, PosixPath.join2.
  destruct (PosixPath.splitext filename) as [name ext]. cbn [fold_left].
  assert (Hsw : ∀ i, PyStr.startswith "/" (name +:+ "_" +:+ PyStr.of_nat i +:+ ext)
                     = PyStr.startswith "/" (name +:+ "_")).
  { intros i. destruct name; reflexivity. }
  rewrite !Hsw.
  destruct (PyStr.startswith "/" (name +:+ "_"));
    [|destruct (negb (PyStr.truthy mount_point) || PyStr.endswith "/" mount_point)%bool];
    intros H; repeat apply append_cancel_l in H;
    apply append_cancel_r in H; now apply of_nat_inj.
Qed.

End Candidates.

Section Upload.
Context {W : Type} {HW : Host W} {RT : Runtime}.
Implicit Types st : state W FileOperations.t.

(** The loop stops at the first candidate that does not exist. *)
Lemma free_name_first w mount_point filename fuel : ∀ k n p,
  FileOperations.free_name fuel w mount_point filename (S k)
    (Props.candidate filename k)
    (PosixPath.join mount_point [Props.candidate filename k]) = Some (n, p) →
  ∃ k', (k ≤ k')%nat
    ∧ n = Props.candidate filename k'
    ∧ p = PosixPath.join mount_point [n]
    ∧ path_exists p w = false
    ∧ ∀ j, (k ≤ j < k')%nat →
        path_exists (PosixPath.join mount_point [Props.candidate filename j]) w
        = true.
Proof.
  induction fuel as [|fuel IH]; intros k n p; [discriminate|].
  cbn [FileOperations.free_name].
  destruct (path_exists _ w) eqn:He.
  - intros Hf. apply (IH (S k)) in Hf as (k' & Hle & -> & -> & Hfree & Hall).
    exists k'. split; [lia|]. repeat split; [exact Hfree|].
    intros j Hj. destruct (Nat.eq_dec j k) as [->|Hne]; [exact He|].
    apply Hall. lia.
  - intros [= <- <-]. exists k. split; [lia|]. repeat split; [exact He|].
    intros j Hj. lia.
Qed.

(** With a free candidate within reach of the fuel, the loop returns. *)
Lemma free_name_finds w mount_point filename fuel : ∀ k k',
  (k ≤ k' < k + fuel)%nat →
  path_exists (PosixPath.join mount_point [Props.candidate filename k']) w
    = false →
  FileOperations.free_name fuel w mount_point filename (S k)
    (Props.candidate filename k)
    (PosixPath.join mount_point [Props.candidate filename k]) ≠ None.
Proof.
  induction fuel as [|fuel IH]; intros k k' Hk Hfree; [lia|].
  cbn [FileOperations.free_name].
  destruct (path_exists
              (PosixPath.join mount_point [Props.candidate filename k]) w)
    eqn:He; [|discriminate].
  apply (IH (S k) k'); [|exact Hfree].
  destruct (Nat.eq_dec k k') as [->|Hne]; [congruence | lia].
Qed.

(** When the numbered names that exist all come from a finite listing,
    one of the first of them is free. *)
Lemma numbered_candidate_free w mount_point filename (names : list string) :
  (∀ k, path_exists
          (PosixPath.join mount_point [FileOperations.numbered filename k]) w
        = true →
        FileOperations.numbered filename k ∈ names) →
  ∃ k, (1 ≤ k ≤ S (List.length names))%nat
    ∧ path_exists (PosixPath.join mount_point [Props.candidate filename k]) w
      = false.
Proof.
  intros Hfin.
  set (tried := FileOperations.numbered filename
                  <$> seq 1 (S (List.length names))).
  destruct (decide (Forall
                      (fun n => path_exists (PosixPath.join mount_point [n]) w
                                = true) tried))
    as [Hall | Hsome].
  - exfalso.
    assert (Hnodup : NoDup tried).
    { apply NoDup_fmap_2_strong; [|apply NoDup_seq].
      intros j k _ _ Hjk.
      apply (numbered_path_inj mount_point filename). now rewrite Hjk. }
    assert (Hsub : tried ⊆ names).
    { intros n Hn. rewrite Forall_forall in Hall.
      pose proof (Hall n Hn) as He.
      apply list_elem_of_fmap in Hn as (k & -> & _). now apply Hfin. }
    pose proof (submseteq_length _ _ (NoDup_submseteq _ _ Hnodup Hsub)) as Hlen.
    unfold tried in Hlen. rewrite length_fmap, length_seq in Hlen. lia.
  - apply not_Forall_Exists in Hsome; [|intros n; apply _].
    apply Exists_exists in Hsome as (n & Hn & Hfree).
    apply list_elem_of_fmap in Hn as (k & -> & Hk).
    apply elem_of_seq in Hk.
    exists k. split; [lia|].
    destruct k as [|k]; [lia|]. unfold compose in Hfree. simpl.
    destruct (path_exists _ w); [now contradict Hfree | reflexivity].
Qed.

End Upload.

Section UploadFile.
Context {W : Type} {HW : Host W} {RT : Runtime}.
Implicit Types st : state W FileOperations.t.

(** [upload_file] in a mounted state: either nothing is written, or the
    stream is written once, to the first candidate that does not exist. *)
Lemma upload_file_spec st m mp fuel file r st' :
  FileOperations.usb_manager (self st) = Some m →
  USBManager.mount_point m = Some mp →
  PyStr.truthy mp = true →
  path_ismount mp (world st) = true →
  FileOperations.upload_file fuel file st = (r, st') →
  (st' = st
   ∧ (r = Raise (Exception "Invalid filename")
      ∨ r = Raise (Exception "File too large (max 100MB)")
      ∨ (r = Ok None
         ∧ FileOperations.free_name fuel (world st) mp
             (secure_filename (FileOperations.filename file)) 1
             (secure_filename (FileOperations.filename file))
             (PosixPath.join mp [secure_filename (FileOperations.filename file)])
           = None)))
  ∨ ∃ k,
      let n := Props.candidate (secure_filename (FileOperations.filename file)) k in
      let p := PosixPath.join mp [n] in
      path_exists p (world st) = false
      ∧ (∀ j, (j < k)%nat →
           path_exists
             (PosixPath.join mp
                [Props.candidate (secure_filename (FileOperations.filename file)) j])
             (world st) = true)
      ∧ trace st' = trace st ++ [EWrite p (FileOperations.content file)]
      ∧ self st' = self st
      ∧ world st' = snd (write_file p (FileOperations.content file) (world st))
      ∧ PyStr.truthy (secure_filename (FileOperations.filename file)) = true
      ∧ (Z.of_nat (String.length (FileOperations.content file))
         <= FileOperations.max_file_size (self st))
      ∧ r ≠ Ok None
      ∧ (∀ info, r = Ok (Some info) →
           FileOperations.entry_name info = n
           ∧ FileOperations.entry_path info = n).
Proof.
  intros Hm Hmp Ht Hmt. unfold FileOperations.upload_file.
  unfold bind at 1. rewrite (mounted_root_mounted st m mp Hm Hmp Ht Hmt).
  set (f := secure_filename (FileOperations.filename file)).
  destruct (PyStr.truthy f) eqn:Hf; simpl.
  2: { intros [= <- <-]. left. auto. }
  step_monad.
  destruct (FileOperations.max_file_size (self st) <? _) eqn:Hsz; simpl.
  { intros [= <- <-]. left. auto. }
  destruct (FileOperations.free_name fuel (world st) mp f 1 f
              (PosixPath.join mp [f])) as [[n p]|] eqn:Hfree; simpl.
  2: { intros [= <- <-]. left. auto. }
  apply (free_name_first (world st) mp f fuel 0) in Hfree
    as (k & _ & -> & -> & Hnew & Hall).
  intros Hrun. right. exists k. simpl.
  split; [exact Hnew|]. split; [intros j Hj; apply Hall; lia|].
  destruct (write_file _ _ (world st)) as [[[]|msg] w1]; simpl in Hrun.
  - destruct (stat _ w1) as [s|msg]; simpl in Hrun;
      [destruct (isoformat (st_mtime s)) as [modified|e|e]; simpl in Hrun|];
      injection Hrun as <- <-;
      simpl; repeat split; try lia; try congruence.
    all: match goal with
         | H : Ok (Some _) = Ok (Some _) |- _ => now injection H as <-
         end.
  - injection Hrun as <- <-. simpl. repeat split; try lia; congruence.
Qed.

End UploadFile.

(** [upload_file] in a mounted state: where it writes, when its search ends,
    and what a second upload of the same file does. *)
Lemma upload_file_mounted {W : Type} {HW : Host W} {RT : Runtime}
    (st : state W FileOperations.t) (m : USBManager.t) (mp : string)
    (fuel : nat) (file : FileOperations.upload)
    (r : result (option FileOperations.entry_info))
    (st' : state W FileOperations.t) :
  FileOperations.usb_manager (self st) = Some m →
  USBManager.mount_point m = Some mp →
  PyStr.truthy mp = true →
  path_ismount mp (world st) = true →
  FileOperations.upload_file fuel file st = (r, st') →
  let f := secure_filename (FileOperations.filename file) in
  (trace st' = trace st ∧ (∀ info, r ≠ Ok (Some info))
   ∨ ∃ k, path_exists (PosixPath.join mp [Props.candidate f k]) (world st) = false
       ∧ (∀ j, (j < k)%nat →
            path_exists (PosixPath.join mp [Props.candidate f j]) (world st) = true)
       ∧ trace st' = trace st
                     ++ [EWrite (PosixPath.join mp [Props.candidate f k])
                           (FileOperations.content file)]
       ∧ (∀ info, r = Ok (Some info) →
            FileOperations.entry_name info = Props.candidate f k))
  ∧ (∀ k, (k < fuel)%nat →
       path_exists (PosixPath.join mp [Props.candidate f k]) (world st) = false →
       r ≠ Ok None)
  ∧ (∀ names : list string,
       (∀ k, path_exists (PosixPath.join mp [FileOperations.numbered f k])
               (world st) = true →
             FileOperations.numbered f k ∈ names) →
       ∃ k, (k ≤ S (List.length names))%nat
         ∧ path_exists (PosixPath.join mp [Props.candidate f k]) (world st)
           = false)
  ∧ (∀ info1 r2 st2,
       r = Ok (Some info1) →
       FileOperations.entry_name info1 = f →
       path_ismount mp (world st') = true →
       path_exists (PosixPath.join mp [f]) (world st') = true →
       path_exists (PosixPath.join mp [FileOperations.numbered f 1]) (world st')
         = false →
       (2 ≤ fuel)%nat →
       FileOperations.upload_file fuel file st' = (r2, st2) →
       trace st2 = trace st'
                   ++ [EWrite (PosixPath.join mp [FileOperations.numbered f 1])
                         (FileOperations.content file)]
       ∧ (∀ info2, r2 = Ok (Some info2) →
            FileOperations.entry_name info2 = FileOperations.numbered f 1
            ∧ FileOperations.entry_name info2 ≠ FileOperations.entry_name info1))
  ∧ FileOperations.numbered f 1
    = fst (PosixPath.splitext f) +:+ "_1" +:+ snd (PosixPath.splitext f).
Proof.
  intros Hm Hmp Ht Hmt Hup f.
  pose proof (upload_file_spec st m mp fuel file r st' Hm Hmp Ht Hmt Hup) as Hspec.
  fold f in Hspec.
  split; [|split; [|split; [|split]]].
  - destruct Hspec as [(-> & Hr) | (k & Hnew & Hall & Htr & _ & _ & _ & _ & _ & Hinfo)].
    + left. split; [reflexivity|]. intros info ->.
      destruct Hr as [[=] | [[=] | [[=] _]]].
    + right. exists k. repeat split; try assumption.
      intros info Hr. now apply Hinfo.
  - intros k Hk Hfree ->.
    destruct Hspec as [(_ & [[=] | [[=] | [_ Hnone]]])
                      | (k' & _ & _ & _ & _ & _ & _ & _ & Hsome & _)];
      [|now apply Hsome].
    apply (free_name_finds (world st) mp f fuel 0 k); [lia | exact Hfree | exact Hnone].
  - intros names Hfin.
    destruct (numbered_candidate_free (world st) mp f names Hfin)
      as (k & Hk & Hfree).
    exists k. split; [lia | exact Hfree].
  - intros info1 r2 st2 -> Hname Hmt' Hold Hnext Hfuel Hup2.
    destruct Hspec as [(_ & [[=] | [[=] | [[=] _]]])
                      | (k & _ & _ & _ & Hself & _ & Hf & Hsz & _)].
    assert (Hm' : FileOperations.usb_manager (self st') = Some m) by congruence.
    pose proof (upload_file_spec st' m mp fuel file r2 st2 Hm' Hmp Ht Hmt' Hup2)
      as Hspec2.
    fold f in Hspec2.
    destruct Hspec2
      as [(-> & Hr2) | (k2 & Hnew2 & Hall2 & Htr2 & _ & _ & _ & _ & _ & Hinfo2)].
    + exfalso. revert Hup2. unfold FileOperations.upload_file. unfold bind at 1.
      rewrite (mounted_root_mounted st' m mp Hm' Hmp Ht Hmt'). fold f.
      rewrite Hf. simpl. step_monad. rewrite Hself.
      destruct (FileOperations.max_file_size (self st) <? _) eqn:Hlt; [lia|].
      simpl.
      destruct (FileOperations.free_name fuel (world st') mp f 1 f
                  (PosixPath.join mp [f])) as [[n p]|] eqn:Hfree; simpl.
      * destruct (write_file p _ (world st')) as [[[]|msg] w1]; simpl;
          [destruct (stat p w1) as [s|msg]; simpl;
             [destruct (isoformat (st_mtime s)); simpl|]|];
          intros [= _ Hst];
          apply (f_equal trace) in Hst; simpl in Hst;
          apply (f_equal (@List.length event)) in Hst;
          rewrite length_app in Hst; simpl in Hst; lia.
      * intros _.
        now apply (free_name_finds (world st') mp f fuel 0 1) in Hfree; [|lia|].
    + assert (k2 = 1%nat) as ->.
      { destruct k2 as [|[|k2]]; [|reflexivity|].
        - simpl in Hnew2. congruence.
        - specialize (Hall2 1%nat ltac:(lia)). simpl in Hall2. congruence. }
      split; [exact Htr2|]. intros info2 Hr2.
      destruct (Hinfo2 info2 Hr2) as [Hn2 _]. split; [exact Hn2|].
      rewrite Hn2, Hname. simpl. intros Heq. rewrite Heq in Hnext. congruence.
  - unfold FileOperations.numbered.
    now destruct (PosixPath.splitext f).
Qed.


(** C3: whatever [upload_file] writes goes to a path that did not exist
    when the call was made.  In a mounted state it writes at most once: under
    the sanitized name if that is free, otherwise under the first of
    [name_1.ext], [name_2.ext], ... that is.  The search ends as soon as a
    candidate is free, and one is whenever the numbered names in use come
    from a finite listing.  Uploading the same file again, once the first
    upload is stored under its own name, stores the second under
    [name_1.ext]. *)
Theorem upload_never_overwrites {W : Type} {HW : Host W} {RT : Runtime}
    (st : state W FileOperations.t) (fuel : nat) (file : FileOperations.upload)
    (r : result (option FileOperations.entry_info))
    (st' : state W FileOperations.t) :
  FileOperations.upload_file fuel file st = (r, st') →
  (∀ p data,
     In (EWrite p data) (List.skipn (List.length (trace st)) (trace st')) →
     path_exists p (world st) = false)
  ∧ ∀ m mp,
      FileOperations.usb_manager (self st) = Some m →
      USBManager.mount_point m = Some mp →
      PyStr.truthy mp = true →
      path_ismount mp (world st) = true →
      let f := secure_filename (FileOperations.filename file) in
      (trace st' = trace st ∧ (∀ info, r ≠ Ok (Some info))
       ∨ ∃ k, path_exists (PosixPath.join mp [Props.candidate f k]) (world st) = false
           ∧ (∀ j, (j < k)%nat →
                path_exists (PosixPath.join mp [Props.candidate f j]) (world st) = true)
           ∧ trace st' = trace st
                         ++ [EWrite (PosixPath.join mp [Props.candidate f k])
                               (FileOperations.content file)]
           ∧ (∀ info, r = Ok (Some info) →
                FileOperations.entry_name info = Props.candidate f k))
      ∧ (∀ k, (k < fuel)%nat →
           path_exists (PosixPath.join mp [Props.candidate f k]) (world st) = false →
           r ≠ Ok None)
      ∧ (∀ names : list string,
           (∀ k, path_exists (PosixPath.join mp [FileOperations.numbered f k])
                   (world st) = true →
                 FileOperations.numbered f k ∈ names) →
           ∃ k, (k ≤ S (List.length names))%nat
             ∧ path_exists (PosixPath.join mp [Props.candidate f k]) (world st)
               = false)
      ∧ (∀ info1 r2 st2,
           r = Ok (Some info1) →
           FileOperations.entry_name info1 = f →
           path_ismount mp (world st') = true →
           path_exists (PosixPath.join mp [f]) (world st') = true →
           path_exists (PosixPath.join mp [FileOperations.numbered f 1]) (world st')
             = false →
           (2 ≤ fuel)%nat →
           FileOperations.upload_file fuel file st' = (r2, st2) →
           trace st2 = trace st'
                       ++ [EWrite (PosixPath.join mp [FileOperations.numbered f 1])
                             (FileOperations.content file)]
           ∧ (∀ info2, r2 = Ok (Some info2) →
                FileOperations.entry_name info2 = FileOperations.numbered f 1
                ∧ FileOperations.entry_name info2 ≠ FileOperations.entry_name info1))
      ∧ FileOperations.numbered f 1
        = fst (PosixPath.splitext f) +:+ "_1" +:+ snd (PosixPath.splitext f).
Proof.
  intros Hup. split.
  - intros p data Hin.
    pose proof Hup as Hup'. unfold FileOperations.upload_file in Hup'.
    unfold bind at 1 in Hup'.
    destruct (FileOperations.mounted_root st) as [r0 st0] eqn:Hroot.
    apply mounted_root_spec in Hroot
      as [(m & mp & Hm & Hmp & Ht & Hmt & -> & ->) | (e & -> & Hmk)].
    + apply (upload_file_spec st m mp) in Hup
        as [(-> & _) | (k & Hnew & _ & Htr & _)]; try assumption.
      * rewrite skipn_all in Hin. destruct Hin.
      * rewrite Htr, skipn_app, skipn_all, Nat.sub_diag in Hin. simpl in Hin.
        destruct Hin as [[= <- _] | []]. exact Hnew.
    + injection Hup' as _ <-.
      rewrite List.Forall_forall in Hmk. apply Hmk in Hin. discriminate.
  - intros m mp Hm Hmp Ht Hmt.
    exact (upload_file_mounted st m mp fuel file r st' Hm Hmp Ht Hmt Hup).
Qed.

Lemma upload_never_overwrites_witness :
  let st0 := Sim.start Samples.three_entries Samples.service in
  let st1 := snd (FileOperations.upload_file (RT := Samples.rt) 8 Samples.report st0) in
  let st2 := snd (FileOperations.upload_file (RT := Samples.rt) 8 Samples.report st1) in
  trace st1 = [EWrite "/media/usb/usb_7/report.txt" "hi"]
  ∧ trace st2 = [ EWrite "/media/usb/usb_7/report.txt" "hi";
                  EWrite "/media/usb/usb_7/report_1.txt" "hi" ]
  ∧ path_exists "/media/usb/usb_7/report_1.txt" (world st1) = false.
Proof.
  intros st0 st1 st2.
  destruct (upload_never_overwrites (RT := Samples.rt) st0 8 Samples.report
              (fst (FileOperations.upload_file (RT := Samples.rt) 8
                      Samples.report st0))
              st1)
    as (_ & Hmounted); [reflexivity|].
  destruct (Hmounted Samples.plugged "/media/usb/usb_7")
    as (_ & _ & _ & Htwice & _); [reflexivity ..|].
  split; [reflexivity|].
  destruct (Htwice
              (FileOperations.mkEntryInfo "report.txt" "report.txt" 2 "0"
                 "unknown" "text")
              (fst (FileOperations.upload_file (RT := Samples.rt) 8
                      Samples.report st1))
              st2) as [Htr _]; [reflexivity .. | | reflexivity |].
  { lia. }
  split; [exact Htr|].
  destruct (upload_never_overwrites (RT := Samples.rt) st1 8 Samples.report
              (fst (FileOperations.upload_file (RT := Samples.rt) 8
                      Samples.report st1))
              st2)
    as (Hfresh & _); [reflexivity|].
  apply (Hfresh _ "hi"). rewrite Htr, skipn_app, skipn_all, Nat.sub_diag.
  now left.
Defined.

(** ** File service: rename and create-folder destinations *)

Section Destinations.
Context {W : Type} {HW : Host W} {RT : Runtime}.
Implicit Types st : state W FileOperations.t.

Lemma rename_file_spec st m mp old_name new_name r st' :
  FileOperations.usb_manager (self st) = Some m →
  USBManager.mount_point m = Some mp →
  PyStr.truthy mp = true →
  path_ismount mp (world st) = true →
  FileOperations.rename_file old_name new_name st = (r, st') →
  let old_path := PosixPath.join mp [old_name] in
  let new_path := PosixPath.join mp [new_name] in
  (st' = st
   ∧ ((path_exists old_path (world st) = false
       ∧ r = Raise (Exception ("File not found: " +:+ old_name)))
      ∨ (path_exists new_path (world st) = true
         ∧ r = Raise (Exception ("File already exists: " +:+ new_name)))))
  ∨ (path_exists old_path (world st) = true
     ∧ path_exists new_path (world st) = false
     ∧ trace st' = trace st ++ [ERename old_path new_path]
     ∧ world st' = snd (rename old_path new_path (world st))
     ∧ self st' = self st).
Proof.
  intros Hm Hmp Ht Hmt. unfold FileOperations.rename_file.
  unfold bind at 1. rewrite (mounted_root_mounted st m mp Hm Hmp Ht Hmt).
  step_monad.
  destruct (path_exists (PosixPath.join mp [old_name]) (world st)) eqn:Hold;
    cbn [negb].
  2: { intros [= <- <-]. left. auto. }
  destruct (path_exists (PosixPath.join mp [new_name]) (world st)) eqn:Hnew.
  { intros [= <- <-]. left. auto. }
  intros Hrun. right. split; [reflexivity|]. split; [reflexivity|].
  destruct (rename _ _ (world st)) as [[[]|msg] w1]; simpl in Hrun.
  - destruct (stat _ w1) as [s|msg]; simpl in Hrun;
      [destruct (isoformat (st_mtime s)); simpl in Hrun|];
      injection Hrun as <- <-; auto.
  - injection Hrun as <- <-. auto.
Qed.

Lemma create_folder_spec st m mp folder_name parent_path r st' :
  FileOperations.usb_manager (self st) = Some m →
  USBManager.mount_point m = Some mp →
  PyStr.truthy mp = true →
  path_ismount mp (world st) = true →
  FileOperations.create_folder folder_name parent_path st = (r, st') →
  let full_path :=
    if PyStr.truthy parent_path
    then PosixPath.join mp [parent_path; secure_filename folder_name]
    else PosixPath.join mp [secure_filename folder_name] in
  (st' = st ∧ ∃ e, r = Raise e)
  ∨ (PyStr.truthy (secure_filename folder_name) = true
     ∧ path_exists full_path (world st) = false
     ∧ trace st' = trace st ++ [EMakedirs full_path]).
Proof.
  intros Hm Hmp Ht Hmt. unfold FileOperations.create_folder.
  unfold bind at 1. rewrite (mounted_root_mounted st m mp Hm Hmp Ht Hmt).
  destruct (PyStr.truthy (secure_filename folder_name)) eqn:Hf; cbn [negb].
  2: { intros [= <- <-]. left. eauto. }
  step_monad.
  set (full_path := if PyStr.truthy parent_path then _ else _).
  destruct (path_exists full_path (world st)) eqn:He.
  { intros [= <- <-]. left. eauto. }
  intros Hrun. right. split; [reflexivity|]. split; [reflexivity|].
  destruct (makedirs full_path (world st)) as [[[]|msg] w1]; simpl in Hrun.
  - destruct (stat full_path w1) as [s|msg]; simpl in Hrun;
      [destruct (isoformat (st_mtime s)); simpl in Hrun|];
      injection Hrun as <- <-; auto.
  - injection Hrun as <- <-. auto.
Qed.

End Destinations.

(** C10: in a mounted state [rename_file] passes the mount root joined with
    [new_name], as given, to the rename: nothing sanitizes it.  An absolute
    [new_name] is therefore the destination itself, and parent-directory
    segments are kept, as in [../../../etc/x], which leaves the mount root.
    [create_folder] and [upload_file] only ever create
    [secure_filename(name)] (numbered, for an upload) below the root. *)
Theorem rename_file_destination {W : Type} {HW : Host W} {RT : Runtime}
    (st : state W FileOperations.t) (m : USBManager.t)
    (mp old_name new_name : string)
    (r : result FileOperations.entry_info) (st' : state W FileOperations.t) :
  FileOperations.usb_manager (self st) = Some m →
  USBManager.mount_point m = Some mp →
  PyStr.truthy mp = true →
  path_ismount mp (world st) = true →
  FileOperations.rename_file old_name new_name st = (r, st') →
  (trace st' = trace st
   ∨ trace st' = trace st
                 ++ [ERename (PosixPath.join mp [old_name])
                       (PosixPath.join mp [new_name])])
  ∧ (path_exists (PosixPath.join mp [old_name]) (world st) = true →
     path_exists (PosixPath.join mp [new_name]) (world st) = false →
     trace st' = trace st
                 ++ [ERename (PosixPath.join mp [old_name])
                       (PosixPath.join mp [new_name])])
  ∧ (PosixPath.is_relative new_name = false →
     PosixPath.join mp [new_name] = new_name)
  ∧ PosixPath.inside "/media/usb/usb_7"
      (PosixPath.join "/media/usb/usb_7" ["../../../etc/x"]) = false
  ∧ (∀ folder_name parent_path r1 st1,
       FileOperations.create_folder folder_name parent_path st = (r1, st1) →
       trace st1 = trace st
       ∨ trace st1 = trace st
           ++ [EMakedirs
                 (if PyStr.truthy parent_path
                  then PosixPath.join mp [parent_path; secure_filename folder_name]
                  else PosixPath.join mp [secure_filename folder_name])])
  ∧ (∀ fuel file r1 st1,
       FileOperations.upload_file fuel file st = (r1, st1) →
       trace st1 = trace st
       ∨ ∃ k, trace st1 = trace st
                ++ [EWrite
                      (PosixPath.join mp
                         [Props.candidate
                            (secure_filename (FileOperations.filename file)) k])
                      (FileOperations.content file)]).
Proof.
  intros Hm Hmp Ht Hmt Hrn.
  pose proof (rename_file_spec st m mp old_name new_name r st' Hm Hmp Ht Hmt Hrn)
    as Hspec. simpl in Hspec.
  split; [|split; [|split; [|split; [|split]]]].
  - destruct Hspec as [(-> & _) | (_ & _ & Htr & _)]; [now left | now right].
  - intros Hold Hnew.
    destruct Hspec as [(_ & [(Ho & _) | (Hn & _)]) | (_ & _ & Htr & _)];
      [congruence | congruence | exact Htr].
  - apply join_absolute.
  - reflexivity.
  - intros folder_name parent_path r1 st1 Hcf.
    apply (create_folder_spec st m mp) in Hcf
      as [(-> & _) | (_ & _ & Htr)]; auto.
  - intros fuel file r1 st1 Hup.
    apply (upload_file_spec st m mp) in Hup
      as [(-> & _) | (k & _ & _ & Htr & _)]; eauto.
Qed.

Lemma rename_file_destination_witness :
  let st := Sim.start Samples.three_entries Samples.service in
  let st' := snd (FileOperations.rename_file (RT := Samples.rt) "a.txt"
                    "../../../tmp/x" st) in
  trace st' = [ERename "/media/usb/usb_7/a.txt" "/media/usb/usb_7/../../../tmp/x"]
  ∧ path_exists "/tmp/x" (world st') = true
  ∧ PosixPath.inside "/media/usb/usb_7" "/media/usb/usb_7/../../../tmp/x" = false.
Proof.
  intros st st'.
  destruct (rename_file_destination (RT := Samples.rt) st Samples.plugged
              "/media/usb/usb_7" "a.txt" "../../../tmp/x"
              (fst (FileOperations.rename_file (RT := Samples.rt) "a.txt"
                      "../../../tmp/x" st))
              st')
    as (_ & Htr & _); [reflexivity ..|].
  split; [apply Htr; reflexivity|]. split; reflexivity.
Defined.

(** * Further properties of the device manager *)

Section Queries.
Context {W : Type} {HW : Host W} {RT : Runtime}.
Implicit Types st : state W USBManager.t.

Lemma get_status_unverified st :
  (USBManager.truthy (USBManager.mount_point (self st)) = false
   ∨ path_ismount (default "" (USBManager.mount_point (self st))) (world st)
     = false) →
  USBManager.get_status st = (Ok USBManager.unmounted_status, st).
Proof.
  intros Hu. unfold USBManager.get_status. step_monad.
  destruct Hu as [-> | ->]; [reflexivity|].
  now rewrite orb_true_r.
Qed.

End Queries.

(** X1: a cached session whose mount point the host no longer reports as
    mounted is not trusted: [get_status] returns the all-zero unmounted
    status and the three accessors answer as if nothing were mounted. *)
Theorem stale_session_reports_unmounted {W : Type} {HW : Host W}
    {RT : Runtime} (st : state W USBManager.t) (mp : string) :
  USBManager.mount_point (self st) = Some mp →
  path_ismount mp (world st) = false →
  USBManager.get_status st = (Ok USBManager.unmounted_status, st)
  ∧ USBManager.is_device_mounted (self st) (world st) = false
  ∧ USBManager.get_mount_point (self st) (world st) = None
  ∧ USBManager.get_mounted_device (self st) (world st) = None.
Proof.
  intros Hmp Hmt. split.
  - apply get_status_unverified. right. now rewrite Hmp.
  - unfold USBManager.get_mount_point, USBManager.get_mounted_device,
      USBManager.is_device_mounted.
    now rewrite Hmp, Hmt.
Qed.

Lemma stale_session_reports_unmounted_witness :
  USBManager.get_status (RT := Samples.rt)
    (Sim.start Samples.stick Samples.plugged)
  = (Ok USBManager.unmounted_status, Sim.start Samples.stick Samples.plugged)
  ∧ USBManager.get_mount_point Samples.plugged Samples.stick = None.
Proof.
  destruct (stale_session_reports_unmounted (RT := Samples.rt)
              (Sim.start Samples.stick Samples.plugged) "/media/usb/usb_7")
    as (Hs & _ & Hp & _); [reflexivity ..|].
  split; [exact Hs | exact Hp].
Defined.

(** X2: when the usage query itself fails on a verified mount, the error is
    swallowed and the status is the all-zero unmounted one, although the
    volume is mounted. *)
Theorem get_status_usage_failed {W : Type} {HW : Host W} {RT : Runtime}
    (st : state W USBManager.t) (mp msg : string) :
  USBManager.mount_point (self st) = Some mp →
  PyStr.truthy mp = true →
  path_ismount mp (world st) = true →
  disk_usage mp (world st) = Failed msg →
  USBManager.get_status st = (Ok USBManager.unmounted_status, st)
  ∧ USBManager.get_mount_point (self st) (world st) = Some mp.
Proof.
  intros Hmp Ht Hmt Hdu. split.
  - unfold USBManager.get_status. step_monad.
    unfold USBManager.truthy. rewrite Hmp. simpl. now rewrite Ht, Hmt, Hdu.
  - unfold USBManager.get_mount_point, USBManager.is_device_mounted.
    now rewrite Hmp, Hmt.
Qed.

Lemma get_status_usage_failed_witness :
  USBManager.get_status (HW := Samples.unreadable) (RT := Samples.rt)
    (mkState tt [] Samples.plugged)
  = (Ok USBManager.unmounted_status, mkState tt [] Samples.plugged)
  ∧ USBManager.get_mount_point (HW := Samples.unreadable) Samples.plugged tt
    = Some "/media/usb/usb_7".
Proof.
  apply (get_status_usage_failed (HW := Samples.unreadable) (RT := Samples.rt)
           (mkState tt [] Samples.plugged) "/media/usb/usb_7"
           "Input/output error"); reflexivity.
Defined.

Section MountSuccess.
Context {W : Type} {HW : Host W}.
Implicit Types st : state W USBManager.t.

Lemma contains_append c a b :
  PyStr.contains c (a +:+ b) = (PyStr.contains c a || PyStr.contains c b)%bool.
Proof.
  induction a as [|x a IH]; [reflexivity|].
  rewrite append_cons. simpl. rewrite IH. now rewrite orb_assoc.
Qed.

Lemma split_free c s : PyStr.contains c s = false → PyStr.split c s = [s].
Proof.
  induction s as [|a s IH]; [reflexivity|]. simpl.
  intros [Ha Hs]%orb_false_iff. now rewrite Ha, (IH Hs).
Qed.

Lemma startswith_free c s :
  PyStr.contains c s = false → PyStr.startswith c s = false.
Proof. destruct s as [|a s]; [reflexivity|]. simpl. now intros [-> _]%orb_false_iff. Qed.

Lemma uint_no_slash d : PyStr.contains "/" (NilEmpty.string_of_uint d) = false.
Proof. induction d; simpl; auto. Qed.

Lemma of_nat_no_slash n : PyStr.contains "/" (PyStr.of_nat n) = false.
Proof. apply uint_no_slash. Qed.

(** The manager's own mount point is a direct child of its base. *)
Lemma own_point_inside st :
  PyStr.truthy (USBManager.mount_base (self st)) = true →
  PosixPath.inside (USBManager.mount_base (self st)) (Props.own_point st) = true.
Proof.
  intros Hb. unfold Props.own_point.
  assert (Hfree : PyStr.contains "/"
                    ("usb_" +:+ PyStr.of_nat (getpid (world st))) = false).
  { rewrite contains_append, of_nat_no_slash. reflexivity. }
  apply join_relative_inside; [exact Hb| |].
  - unfold PosixPath.is_relative. now rewrite (startswith_free _ _ Hfree).
  - unfold PosixPath.no_parent_segment. rewrite (split_free _ _ Hfree).
    reflexivity.
Qed.

Lemma supersede_keeps_base st r st1 :
  USBManager.supersede st = (r, st1) →
  USBManager.mount_base (self st1) = USBManager.mount_base (self st).
Proof.
  intros Hs. apply supersede_spec in Hs
    as [(_ & _ & ->) | (mpA & _ & [(_ & _ & ->) | (e & _ & _ & ->)])];
    reflexivity.
Qed.

End MountSuccess.

(** X3: when [mount_device] returns, the device node existed, the host has
    confirmed the returned path as a mount point, the session holds exactly
    that path and that device, and the accessors report them.  The path is
    the manager's base joined with [usb_<pid>]: it lies inside the base and
    does not depend on the device name. *)
Theorem mount_device_success {W : Type} {HW : Host W}
    (st : state W USBManager.t) (dev mp : string) (st' : state W USBManager.t) :
  USBManager.mount_device dev st = (Ok mp, st') →
  path_exists dev (world st) = true
  ∧ self st' = USBManager.mk (Some mp) (Some dev) (USBManager.mount_base (self st))
  ∧ path_ismount mp (world st') = true
  ∧ USBManager.get_mount_point (self st') (world st') = Some mp
  ∧ USBManager.get_mounted_device (self st') (world st') = Some dev
  ∧ (∃ w, mp = PosixPath.join (USBManager.mount_base (self st))
                 ["usb_" +:+ PyStr.of_nat (getpid w)])
  ∧ (PyStr.truthy (USBManager.mount_base (self st)) = true →
     PosixPath.inside (USBManager.mount_base (self st)) mp = true).
Proof.
  intros Hm.
  apply mount_device_spec in Hm
    as [(_ & [=] & _) | (He & r1 & st1 & Hs & Hrest)].
  split; [exact He|].
  pose proof (supersede_keeps_base st r1 st1 Hs) as Hbase.
  destruct r1 as [[]|e]; [|now destruct Hrest].
  apply mount_at_own_point_spec in Hrest
    as (runs & _ & _ & [([= ->] & Hself & Hmt) | (e & [=] & _)]).
  assert (Hnew : self st' = USBManager.mk (Some (Props.own_point st1)) (Some dev)
                             (USBManager.mount_base (self st))).
  { rewrite Hself. unfold USBManager.set_session. now rewrite Hbase. }
  split; [exact Hnew|]. split; [exact Hmt|].
  unfold USBManager.get_mount_point, USBManager.get_mounted_device,
    USBManager.is_device_mounted.
  rewrite Hnew. cbn [USBManager.mount_point USBManager.mounted_device].
  rewrite Hmt. repeat split.
  - exists (world st1). unfold Props.own_point. now rewrite Hbase.
  - intros Hb. rewrite <- Hbase. apply own_point_inside. now rewrite Hbase.
Qed.

Lemma mount_device_success_witness :
  let st' := snd (USBManager.mount_device "/dev/sda1"
                    (Sim.start Samples.stick Samples.fresh)) in
  self st' = Samples.plugged
  ∧ USBManager.get_mount_point (self st') (world st') = Some "/media/usb/usb_7"
  ∧ PosixPath.inside "/media/usb" "/media/usb/usb_7" = true.
Proof.
  intros st'.
  destruct (mount_device_success (Sim.start Samples.stick Samples.fresh)
              "/dev/sda1" "/media/usb/usb_7" st')
    as (_ & Hself & _ & Hmp & _ & _ & Hin); [reflexivity|].
  split; [exact Hself|]. split; [exact Hmp|]. apply Hin. reflexivity.
Defined.

(** X4: once [unmount_device] has returned, the manager holds no session and
    reports itself unmounted, whatever the unmount tool answered. *)
Theorem unmount_device_then_unmounted {W : Type} {HW : Host W} {RT : Runtime}
    (st : state W USBManager.t) (b : bool) (st' : state W USBManager.t) :
  Props.session_wf (self st) = true →
  USBManager.unmount_device st = (Ok b, st') →
  b = true
  ∧ USBManager.mount_point (self st') = None
  ∧ USBManager.mounted_device (self st') = None
  ∧ USBManager.get_mount_point (self st') (world st') = None
  ∧ USBManager.get_status st' = (Ok USBManager.unmounted_status, st').
Proof.
  intros Hwf Hu.
  assert (Hnone : USBManager.mount_point (self st') = None
                  ∧ USBManager.mounted_device (self st') = None).
  { destruct (USBManager.truthy (USBManager.mount_point (self st))) eqn:Ht.
    - destruct (USBManager.mount_point (self st)) as [mp|] eqn:Hmp;
        [|discriminate].
      rewrite (unmount_device_mounted st mp Hmp Ht) in Hu.
      destruct (run _ 30 (world st)) as [[c|e] w1]; [|discriminate].
      injection Hu as _ <-. now split.
    - rewrite (unmount_device_nothing_mounted st Ht) in Hu.
      injection Hu as _ <-. unfold Props.session_wf in Hwf.
      destruct (USBManager.mount_point (self st)) as [mp|],
               (USBManager.mounted_device (self st)); try discriminate.
      + simpl in Ht. congruence.
      + now split. }
  destruct Hnone as [Hmp Hdev].
  split; [now apply (unmount_device_returns_cleared st b st')|].
  split; [exact Hmp|]. split; [exact Hdev|]. split.
  - unfold USBManager.get_mount_point, USBManager.is_device_mounted.
    now rewrite Hmp.
  - apply get_status_unverified. left. now rewrite Hmp.
Qed.

Lemma unmount_device_then_unmounted_witness :
  USBManager.get_status (RT := Samples.rt)
    (snd (USBManager.unmount_device
            (Sim.start Samples.mounted_stick Samples.plugged)))
  = (Ok USBManager.unmounted_status,
     snd (USBManager.unmount_device
            (Sim.start Samples.mounted_stick Samples.plugged))).
Proof.
  destruct (unmount_device_then_unmounted (RT := Samples.rt)
              (Sim.start Samples.mounted_stick Samples.plugged) true
              (snd (USBManager.unmount_device
                      (Sim.start Samples.mounted_stick Samples.plugged))))
    as (_ & _ & _ & _ & Hs); [reflexivity ..|].
  exact Hs.
Defined.

(** ** Enumeration: the fallback and the edges of the primary path *)

Section Fallback.
Context {W : Type} {HW : Host W} {RT : Runtime}.
Implicit Types st : state W USBManager.t.

Lemma fallback_size_returns st p :
  ∃ size st', USBManager.fallback_size p st = (Ok size, st').
Proof.
  unfold USBManager.fallback_size. step_monad.
  destruct (run _ 5 (world st)) as [[c|e] w1]; simpl; eauto.
Qed.

Lemma fallback_entry_new p size :
  Props.fallback_entry
    (list_to_map
       [ ("name", PStr p); ("size", PStr size); ("label", PStr "USB Device");
         ("mountpoint", PStr ""); ("type", PStr "disk") ]).
Proof. unfold Props.fallback_entry. repeat split; eauto. Qed.

Lemma fallback_paths_returns paths : ∀ devices st,
  Forall Props.fallback_entry devices →
  ∃ ds st', USBManager.fallback_paths paths devices st = (Ok ds, st')
    ∧ Forall Props.fallback_entry ds.
Proof.
  induction paths as [|p paths IH]; intros devices st Hd.
  - exists devices, st. now split.
  - cbn [USBManager.fallback_paths]. step_monad.
    destruct (is_block_device p (world st)); [|now apply IH].
    destruct (fallback_size_returns st p) as (size & st1 & ->).
    apply IH. apply Forall_app. split; [exact Hd|].
    constructor; [apply fallback_entry_new | constructor].
Qed.

Lemma fallback_patterns_returns patterns : ∀ devices st,
  Forall Props.fallback_entry devices →
  ∃ ds st', USBManager.fallback_patterns patterns devices st = (Ok ds, st')
    ∧ Forall Props.fallback_entry ds.
Proof.
  induction patterns as [|pat patterns IH]; intros devices st Hd.
  - exists devices, st. now split.
  - cbn [USBManager.fallback_patterns]. step_monad.
    destruct (glob_dev _ (world st)) as [paths|msg]; [|now eauto].
    step_monad.
    destruct (fallback_paths_returns paths devices st Hd)
      as (ds & st1 & -> & Hds).
    now apply IH.
Qed.

Lemma get_devices_fallback_returns st :
  ∃ ds st', USBManager._get_devices_fallback st = (Ok ds, st')
    ∧ Forall Props.fallback_entry ds.
Proof. apply fallback_patterns_returns. constructor. Qed.

(** [get_available_devices] by the answer of the first [lsblk] call. *)
Lemma get_available_devices_cases st :
  USBManager.get_available_devices st =
    match run Props.lsblk_json 10 (world st) with
    | (Ok c, w1) =>
        let st1 := mkState w1 (trace st ++ [ERun Props.lsblk_json]) (self st) in
        if returncode c =? 0 then
          match lsblk_blockdevices (stdout c) with
          | Ok blockdevices =>
              (Ok (USBManager.usb_partitions blockdevices
                     (USBManager.find_usb_disks blockdevices w1)), st1)
          | Raise _ => USBManager._get_devices_fallback st1
          end
        else (Ok [], st1)
    | (Raise _, w1) =>
        USBManager._get_devices_fallback
          (mkState w1 (trace st ++ [ERun Props.lsblk_json]) (self st))
    end.
Proof.
  unfold USBManager.get_available_devices, USBManager.enumerate_primary,
    Props.lsblk_json.
  step_monad.
  destruct (run _ 10 (world st)) as [[c|e] w1]; simpl; [|reflexivity].
  destruct (returncode c =? 0); [|reflexivity]. step_monad.
  now destruct (lsblk_blockdevices (stdout c)).
Qed.


End Fallback.

(** X5: [get_available_devices] never raises: when the first [lsblk] call
    or the parsing of its output raises, the fallback answers, and the
    fallback returns what it has.  The manager's session is not touched. *)
Theorem get_available_devices_never_raises {W : Type} {HW : Host W}
    {RT : Runtime} (st : state W USBManager.t) :
  ∃ devices st',
    USBManager.get_available_devices st = (Ok devices, st')
    ∧ self st' = self st.
Proof.
  pose proof (get_available_devices_keeps_self st) as Hself.
  rewrite get_available_devices_cases in *.
  destruct (run Props.lsblk_json 10 (world st)) as [[c|e] w1].
  - cbv zeta in *. destruct (returncode c =? 0); [|eauto].
    destruct (lsblk_blockdevices (stdout c)) as [bd|e]; [eauto|].
    destruct (get_devices_fallback_returns
                (mkState w1 (trace st ++ [ERun Props.lsblk_json]) (self st)))
      as (ds & st' & Hf & _).
    rewrite Hf in *. eauto.
  - destruct (get_devices_fallback_returns
                (mkState w1 (trace st ++ [ERun Props.lsblk_json]) (self st)))
      as (ds & st' & Hf & _).
    rewrite Hf in *. eauto.
Qed.

(** X6: when [lsblk] runs but exits with a non-zero status, the result is
    the empty list: the fallback is not consulted, and that one call is all
    the method does. *)
Theorem get_available_devices_lsblk_failed {W : Type} {HW : Host W}
    {RT : Runtime} (st : state W USBManager.t) (c : completed) (w1 : W) :
  run Props.lsblk_json 10 (world st) = (Ok c, w1) →
  returncode c ≠ 0 →
  USBManager.get_available_devices st
  = (Ok [], mkState w1 (trace st ++ [ERun Props.lsblk_json]) (self st)).
Proof.
  intros Hrun Hrc. rewrite get_available_devices_cases, Hrun. cbv zeta.
  destruct (returncode c =? 0) eqn:Hz; [lia | reflexivity].
Qed.

Lemma get_available_devices_lsblk_failed_witness :
  USBManager.get_available_devices (HW := Samples.bare) (RT := Samples.rt)
    (mkState tt [] Samples.fresh)
  = (Ok [], mkState tt [ERun Props.lsblk_json] Samples.fresh).
Proof.
  apply (get_available_devices_lsblk_failed (HW := Samples.bare)
           (RT := Samples.rt) (mkState tt [] Samples.fresh)
           {| returncode := 1; stdout := "";
              stderr := "lsblk: failed to initialize" |} tt).
  - reflexivity.
  - discriminate.
Defined.

(** X7: when the first [lsblk] call raises, or exits with 0 but prints what
    cannot be parsed, the result is that of the fallback, run after that
    call; each of its entries has type [disk], label [USB Device], an empty
    mount point, a name and a size, and no [fstype]. *)
Theorem get_available_devices_falls_back {W : Type} {HW : Host W}
    {RT : Runtime} (st : state W USBManager.t) (e : exn) (w1 : W) :
  (run Props.lsblk_json 10 (world st) = (Raise e, w1)
   ∨ ∃ c, run Props.lsblk_json 10 (world st) = (Ok c, w1)
       ∧ returncode c = 0
       ∧ lsblk_blockdevices (stdout c) = Raise e) →
  USBManager.get_available_devices st
  = USBManager._get_devices_fallback
      (mkState w1 (trace st ++ [ERun Props.lsblk_json]) (self st))
  ∧ ∃ devices st',
      USBManager.get_available_devices st = (Ok devices, st')
      ∧ Forall Props.fallback_entry devices.
Proof.
  intros Hcase.
  assert (Heq : USBManager.get_available_devices st
                = USBManager._get_devices_fallback
                    (mkState w1 (trace st ++ [ERun Props.lsblk_json]) (self st))).
  { rewrite get_available_devices_cases.
    destruct Hcase as [-> | (c & -> & Hrc & Hparse)]; [reflexivity|].
    cbv zeta. rewrite Hrc, Hparse. reflexivity. }
  split; [exact Heq|]. rewrite Heq. apply get_devices_fallback_returns.
Qed.

Lemma get_available_devices_falls_back_witness :
  ∃ devices st',
    USBManager.get_available_devices (RT := Samples.rt)
      (Sim.start Samples.stick Samples.fresh) = (Ok devices, st')
    ∧ Forall Props.fallback_entry devices.
Proof.
  refine (proj2 (get_available_devices_falls_back (RT := Samples.rt)
                   (Sim.start Samples.stick Samples.fresh)
                   (OtherError "Expecting value: line 1 column 1 (char 0)")
                   Samples.stick _)).
  right. exists {| returncode := 0; stdout := ""; stderr := "" |}.
  repeat split; reflexivity.
Defined.

(** X8: the primary path compares [/dev/<disk>] with the disk names as
    [lsblk] printed them.  When no [disk]-type entry carries the [/dev/]
    prefix -- as in the output of [lsblk] without [-p] -- nothing is
    reported, whatever is plugged in. *)
Theorem bare_names_report_nothing {W : Type} {HW : Host W} {RT : Runtime}
    (st : state W USBManager.t) (c : completed) (w1 : W)
    (blockdevices : list device) :
  run Props.lsblk_json 10 (world st) = (Ok c, w1) →
  returncode c = 0 →
  lsblk_blockdevices (stdout c) = Ok blockdevices →
  Props.disks_without_dev_prefix blockdevices = true →
  USBManager.get_available_devices st
  = (Ok [], mkState w1 (trace st ++ [ERun Props.lsblk_json]) (self st)).
Proof.
  intros Hrun Hrc Hparse Hbare.
  rewrite get_available_devices_cases, Hrun. cbv zeta. rewrite Hrc, Hparse.
  simpl. f_equal. f_equal.
  destruct (USBManager.usb_partitions blockdevices
              (USBManager.find_usb_disks blockdevices w1)) as [|info rest] eqn:Hres;
    [reflexivity|].
  exfalso.
  assert (Hin : info ∈ USBManager.usb_partitions blockdevices
                         (USBManager.find_usb_disks blockdevices w1)).
  { rewrite Hres. apply list_elem_of_here. }
  apply usb_partitions_elem in Hin as (d & name & _ & _ & _ & _ & Hmem).
  apply find_usb_disks_elem in Hmem as (disk & Hdisk & Hty & Hname & _).
  unfold Props.disks_without_dev_prefix in Hbare.
  rewrite forallb_forall in Hbare.
  apply list_elem_of_In in Hdisk. specialize (Hbare disk Hdisk).
  unfold USBManager.field_is, USBManager.name_of in Hbare.
  rewrite Hty, Hname in Hbare.
  rewrite bool_decide_eq_true_2 in Hbare by reflexivity.
  rewrite !append_cons, append_nil in Hbare. simpl in Hbare.
  destruct (USBManager.disk_name_of name); discriminate.
Qed.

Lemma bare_names_report_nothing_witness :
  USBManager.get_available_devices (RT := Samples.bare_rt)
    (Sim.start (Samples.with_lsblk "bare") Samples.fresh)
  = (Ok [], mkState (Samples.with_lsblk "bare") [ERun Props.lsblk_json]
              Samples.fresh)
  ∧ USBManager.find_usb_disks Samples.bare_names (Samples.with_lsblk "bare")
    = {[ "sda" ]}.
Proof.
  split.
  - apply (bare_names_report_nothing (RT := Samples.bare_rt)
             (Sim.start (Samples.with_lsblk "bare") Samples.fresh)
             {| returncode := 0; stdout := "bare"; stderr := "" |}
             (Samples.with_lsblk "bare") Samples.bare_names);
      reflexivity.
  - now vm_compute.
Defined.



(** * Further properties of the file service *)

Section MountCheck.
Context {W : Type} {HW : Host W} {RT : Runtime}.
Implicit Types st : state W FileOperations.t.

Lemma bind_raised {S A B} (m : M W S A) (k : A → M W S B)
    (s0 s1 : state W S) (e : exn) :
  m s0 = (Raise e, s1) → bind m k s0 = (Raise e, s1).
Proof. intros H. unfold bind. now rewrite H. Qed.

Lemma bind_returned {S A B} (m : M W S A) (k : A → M W S B)
    (s0 s1 : state W S) (a : A) :
  m s0 = (Ok a, s1) → bind m k s0 = k a s1.
Proof. intros H. unfold bind. now rewrite H. Qed.

Lemma mounted_root_unmounted st m :
  FileOperations.usb_manager (self st) = Some m →
  USBManager.truthy (USBManager.get_mount_point m (world st)) = false →
  FileOperations.mounted_root st
  = (Raise (Exception "No USB device mounted"), st).
Proof.
  intros Hm Hu.
  unfold FileOperations.mounted_root, FileOperations._get_usb_manager.
  step_monad. rewrite Hm. step_monad. now rewrite Hu.
Qed.

Lemma mounted_root_detached st :
  Props.detached (self st) →
  Props.refused st (FileOperations.mounted_root (HW := HW) st).
Proof.
  unfold Props.refused, Props.detached. intros Hd.
  destruct (FileOperations.usb_manager (self st)) as [m|] eqn:Hm.
  - rewrite (mounted_root_unmounted st m Hm).
    + simpl. rewrite Hm. auto.
    + unfold USBManager.get_mount_point, USBManager.is_device_mounted.
      now rewrite Hd.
  - unfold FileOperations.mounted_root, FileOperations._get_usb_manager,
      USBManager.init, USBManager.get_mount_point,
      USBManager.is_device_mounted.
    step_monad. rewrite Hm. step_monad. cbn [USBManager.mount_base].
    destruct (makedirs "/media/usb" (world st)) as [[[]|msg] w1]; simpl.
    + auto.
    + rewrite Hm. eauto 6.
Qed.

(** A method that starts with the mount check is refused with it. *)
Lemma refused_bind {A} (k : string → M W FileOperations.t A) st :
  Props.refused st (FileOperations.mounted_root (HW := HW) st) →
  Props.refused st (bind FileOperations.mounted_root k st).
Proof.
  unfold Props.refused.
  destruct (FileOperations.mounted_root st) as [[mp|e] st1] eqn:Hr; simpl.
  - intros [[[=] | [msg [=]]] _].
  - rewrite (bind_raised _ k st st1 e Hr). simpl.
    intros ([[= ->] | [msg [= ->]]] & Hd & Htr); eauto.
Qed.

End MountCheck.

(** X10: with a manager that reports no verified mount, every method of the
    file service raises ["No USB device mounted"] and leaves the host and
    the service as they were. *)
Theorem file_operations_need_mount {W : Type} {HW : Host W} {RT : Runtime}
    (st : state W FileOperations.t) (m : USBManager.t) :
  FileOperations.usb_manager (self st) = Some m →
  USBManager.truthy (USBManager.get_mount_point m (world st)) = false →
  let refusal {A} : result A * state W FileOperations.t :=
    (Raise (Exception "No USB device mounted"), st) in
  (∀ path, FileOperations.list_files path st = refusal)
  ∧ (∀ fuel file, FileOperations.upload_file fuel file st = refusal)
  ∧ (∀ filename, FileOperations.delete_file filename st = refusal)
  ∧ (∀ old_name new_name,
       FileOperations.rename_file old_name new_name st = refusal)
  ∧ (∀ folder_name parent_path,
       FileOperations.create_folder folder_name parent_path st = refusal)
  ∧ (∀ filename, FileOperations.get_file_path filename st = refusal).
Proof.
  intros Hm Hu refusal.
  pose proof (mounted_root_unmounted st m Hm Hu) as Hroot.
  repeat split; intros; apply bind_raised; exact Hroot.
Qed.

Lemma file_operations_need_mount_witness :
  FileOperations.list_files (RT := Samples.rt) ""
    (Sim.start Samples.stick Samples.idle_service)
  = (Raise (Exception "No USB device mounted"),
     Sim.start Samples.stick Samples.idle_service).
Proof.
  destruct (file_operations_need_mount (RT := Samples.rt)
              (Sim.start Samples.stick Samples.idle_service) Samples.fresh)
    as (Hlist & _); [reflexivity ..|].
  apply Hlist.
Defined.

(** X11: a file service built without a manager creates one of its own on
    first use, and that manager never mounts anything: whatever the host has
    mounted, every method is refused at the mount check, the service stays
    detached, and at most the creation of [/media/usb] is issued. *)
Theorem detached_service_is_refused {W : Type} {HW : Host W} {RT : Runtime}
    (st : state W FileOperations.t) :
  Props.detached (self st) →
  (∀ path, Props.refused st (FileOperations.list_files path st))
  ∧ (∀ fuel file, Props.refused st (FileOperations.upload_file fuel file st))
  ∧ (∀ filename, Props.refused st (FileOperations.delete_file filename st))
  ∧ (∀ old_name new_name,
       Props.refused st (FileOperations.rename_file old_name new_name st))
  ∧ (∀ folder_name parent_path,
       Props.refused st
         (FileOperations.create_folder folder_name parent_path st))
  ∧ (∀ filename, Props.refused st (FileOperations.get_file_path filename st)).
Proof.
  intros Hd. pose proof (mounted_root_detached st Hd) as Hroot.
  repeat split; intros; apply refused_bind; exact Hroot.
Qed.

Lemma detached_service_is_refused_witness :
  let st := Sim.start Samples.three_entries Samples.lone_service in
  path_ismount "/media/usb/usb_7" (world st) = true
  ∧ Props.refused st (FileOperations.list_files (RT := Samples.rt) "" st)
  ∧ fst (FileOperations.list_files (RT := Samples.rt) "" st)
    = Raise (Exception "No USB device mounted").
Proof.
  intros st.
  destruct (detached_service_is_refused (RT := Samples.rt) st) as (Hlist & _);
    [exact I|].
  split; [reflexivity|]. split; [apply Hlist | reflexivity].
Defined.

(** ** Delete, rename and create-folder in a mounted state *)

(** X12: in a mounted state [delete_file] works on the mount root joined
    with the given name as it stands.  A path that does not exist raises
    ["File not found"] and nothing is touched; otherwise exactly one command
    is issued -- a recursive removal for a directory, a single removal for
    anything else -- and [True] is returned unless that command fails. *)
Theorem delete_file_outcomes {W : Type} {HW : Host W}
    (st : state W FileOperations.t) (m : USBManager.t) (mp filename : string) :
  FileOperations.usb_manager (self st) = Some m →
  USBManager.mount_point m = Some mp →
  PyStr.truthy mp = true →
  path_ismount mp (world st) = true →
  let p := PosixPath.join mp [filename] in
  (path_exists p (world st) = false →
   FileOperations.delete_file filename st
   = (Raise (Exception ("File not found: " +:+ filename)), st))
  ∧ (path_exists p (world st) = true →
     path_isdir p (world st) = true →
     FileOperations.delete_file filename st
     = (match fst (rmtree p (world st)) with
        | Done _ => Ok true
        | Failed msg => Raise (OSError msg)
        end,
        mkState (snd (rmtree p (world st))) (trace st ++ [ERmtree p]) (self st)))
  ∧ (path_exists p (world st) = true →
     path_isdir p (world st) = false →
     FileOperations.delete_file filename st
     = (match fst (remove p (world st)) with
        | Done _ => Ok true
        | Failed msg => Raise (OSError msg)
        end,
        mkState (snd (remove p (world st))) (trace st ++ [ERemove p]) (self st))).
Proof.
  intros Hm Hmp Ht Hmt p.
  assert (Hroot := mounted_root_mounted st m mp Hm Hmp Ht Hmt).
  unfold FileOperations.delete_file.
  rewrite (bind_returned _ _ st st mp Hroot). fold p.
  repeat split; intros He; [|intros Hd ..]; step_monad; rewrite He;
    cbn [negb]; [reflexivity | |]; rewrite Hd.
  - destruct (rmtree p (world st)) as [[[]|msg] w1]; reflexivity.
  - destruct (remove p (world st)) as [[[]|msg] w1]; reflexivity.
Qed.

Lemma delete_file_outcomes_witness :
  let st := Sim.start Samples.three_entries Samples.service in
  FileOperations.delete_file "nothing.txt" st
  = (Raise (Exception "File not found: nothing.txt"), st)
  ∧ trace (snd (FileOperations.delete_file "A" st))
    = [ERmtree "/media/usb/usb_7/A"]
  ∧ FileOperations.delete_file "../../../dev/sda1" st
    = (Raise (OSError "No such file or directory"),
       mkState Samples.three_entries
         [ERemove "/media/usb/usb_7/../../../dev/sda1"] Samples.service).
Proof.
  intros st.
  destruct (delete_file_outcomes st Samples.plugged "/media/usb/usb_7"
              "nothing.txt") as (Hmissing & _); [reflexivity ..|].
  destruct (delete_file_outcomes st Samples.plugged "/media/usb/usb_7" "A")
    as (_ & Hdir & _); [reflexivity ..|].
  destruct (delete_file_outcomes st Samples.plugged "/media/usb/usb_7"
              "../../../dev/sda1") as (_ & _ & Hfile); [reflexivity ..|].
  split; [apply Hmissing; reflexivity|].
  split; [rewrite Hdir; reflexivity|].
  rewrite Hfile; reflexivity.
Defined.

(** X13: [rename_file] checks the source first and the destination second:
    a missing source raises ["File not found"], an existing destination
    raises ["File already exists"] (also when it is the source itself); in
    both cases nothing is renamed and nothing changes. *)
Theorem rename_file_refuses {W : Type} {HW : Host W} {RT : Runtime}
    (st : state W FileOperations.t) (m : USBManager.t)
    (mp old_name new_name : string) :
  FileOperations.usb_manager (self st) = Some m →
  USBManager.mount_point m = Some mp →
  PyStr.truthy mp = true →
  path_ismount mp (world st) = true →
  (path_exists (PosixPath.join mp [old_name]) (world st) = false →
   FileOperations.rename_file old_name new_name st
   = (Raise (Exception ("File not found: " +:+ old_name)), st))
  ∧ (path_exists (PosixPath.join mp [old_name]) (world st) = true →
     path_exists (PosixPath.join mp [new_name]) (world st) = true →
     FileOperations.rename_file old_name new_name st
     = (Raise (Exception ("File already exists: " +:+ new_name)), st))
  ∧ (path_exists (PosixPath.join mp [old_name]) (world st) = true →
     FileOperations.rename_file old_name old_name st
     = (Raise (Exception ("File already exists: " +:+ old_name)), st)).
Proof.
  intros Hm Hmp Ht Hmt.
  assert (Hroot := mounted_root_mounted st m mp Hm Hmp Ht Hmt).
  unfold FileOperations.rename_file.
  rewrite !(bind_returned _ _ st st mp Hroot).
  repeat split; intros Hold; [|intros Hnew|]; step_monad; rewrite Hold;
    cbn [negb]; [reflexivity | now rewrite Hnew | reflexivity].
Qed.

Lemma rename_file_refuses_witness :
  let st := Sim.start Samples.three_entries Samples.service in
  FileOperations.rename_file (RT := Samples.rt) "a.txt" "b.txt" st
  = (Raise (Exception "File already exists: b.txt"), st)
  ∧ FileOperations.rename_file (RT := Samples.rt) "c.txt" "d.txt" st
    = (Raise (Exception "File not found: c.txt"), st).
Proof.
  intros st.
  destruct (rename_file_refuses (RT := Samples.rt) st Samples.plugged
              "/media/usb/usb_7" "a.txt" "b.txt") as (_ & Hexists & _);
    [reflexivity ..|].
  destruct (rename_file_refuses (RT := Samples.rt) st Samples.plugged
              "/media/usb/usb_7" "c.txt" "d.txt") as (Hmissing & _);
    [reflexivity ..|].
  split; [apply Hexists; reflexivity | apply Hmissing; reflexivity].
Defined.

(** X14: in a mounted state [create_folder] raises ["Invalid folder name"]
    when the name sanitizes to nothing and ["Folder already exists"] when
    the target exists, touching nothing; otherwise it issues one directory
    creation, and the entry it returns carries the sanitized name, the given
    parent joined with it as path, size 0 and the [folder] tags. *)
Theorem create_folder_outcomes {W : Type} {HW : Host W} {RT : Runtime}
    (st : state W FileOperations.t) (m : USBManager.t)
    (mp folder_name parent_path : string) :
  FileOperations.usb_manager (self st) = Some m →
  USBManager.mount_point m = Some mp →
  PyStr.truthy mp = true →
  path_ismount mp (world st) = true →
  let name := secure_filename folder_name in
  let full_path :=
    if PyStr.truthy parent_path
    then PosixPath.join mp [parent_path; name]
    else PosixPath.join mp [name] in
  (PyStr.truthy name = false →
   FileOperations.create_folder folder_name parent_path st
   = (Raise (Exception "Invalid folder name"), st))
  ∧ (PyStr.truthy name = true →
     path_exists full_path (world st) = true →
     FileOperations.create_folder folder_name parent_path st
     = (Raise (Exception ("Folder already exists: " +:+ name)), st))
  ∧ (∀ info st',
       FileOperations.create_folder folder_name parent_path st = (Ok info, st') →
       trace st' = trace st ++ [EMakedirs full_path]
       ∧ path_exists full_path (world st) = false
       ∧ info = FileOperations.mkEntryInfo name
                  (if PyStr.truthy parent_path
                   then PosixPath.join parent_path [name] else name)
                  0 (FileOperations.entry_modified info) "folder" "folder").
Proof.
  intros Hm Hmp Ht Hmt name full_path.
  assert (Hroot := mounted_root_mounted st m mp Hm Hmp Ht Hmt).
  unfold FileOperations.create_folder.
  rewrite (bind_returned _ _ st st mp Hroot). fold name.
  split; [|split].
  - intros ->. reflexivity.
  - intros -> He. cbn [negb]. step_monad. fold full_path. now rewrite He.
  - intros info st'. destruct (PyStr.truthy name); cbn [negb]; [|discriminate].
    step_monad. fold full_path.
    destruct (path_exists full_path (world st)); [discriminate|].
    destruct (makedirs full_path (world st)) as [[[]|msg] w1]; simpl;
      [|discriminate].
    destruct (stat full_path w1) as [s|msg]; simpl; [|discriminate].
    destruct (isoformat (st_mtime s)) as [modified|e|e]; simpl;
      [|discriminate ..].
    intros [= <- <-]. simpl. auto.
Qed.

Lemma create_folder_outcomes_witness :
  let st := Sim.start Samples.three_entries Samples.service in
  FileOperations.create_folder (RT := Samples.rt) "../.." "" st
  = (Raise (Exception "Invalid folder name"), st)
  ∧ FileOperations.create_folder (RT := Samples.rt) "A" "" st
    = (Raise (Exception "Folder already exists: A"), st)
  ∧ trace (snd (FileOperations.create_folder (RT := Samples.rt) "my docs" "A" st))
    = [EMakedirs "/media/usb/usb_7/A/my_docs"].
Proof.
  intros st.
  destruct (create_folder_outcomes (RT := Samples.rt) st Samples.plugged
              "/media/usb/usb_7" "../.." "") as (Hinvalid & _);
    [reflexivity ..|].
  destruct (create_folder_outcomes (RT := Samples.rt) st Samples.plugged
              "/media/usb/usb_7" "A" "") as (_ & Hexists & _);
    [reflexivity ..|].
  destruct (create_folder_outcomes (RT := Samples.rt) st Samples.plugged
              "/media/usb/usb_7" "my docs" "A") as (_ & _ & Hnew);
    [reflexivity ..|].
  split; [apply Hinvalid; reflexivity|].
  split; [apply Hexists; reflexivity|].
  refine (proj1 (Hnew
    (FileOperations.mkEntryInfo "my_docs" "A/my_docs" 0 "0" "folder" "folder")
    _ _)).
  reflexivity.
Defined.

(** X15: [create_folder] sanitizes the folder name but not the parent path:
    an absolute parent replaces the mount root, so the directory is created
    at the parent joined with the sanitized name. *)
Theorem create_folder_absolute_parent {W : Type} {HW : Host W} {RT : Runtime}
    (st : state W FileOperations.t) (m : USBManager.t)
    (mp folder_name parent_path : string)
    (r : result FileOperations.entry_info) (st' : state W FileOperations.t) :
  FileOperations.usb_manager (self st) = Some m →
  USBManager.mount_point m = Some mp →
  PyStr.truthy mp = true →
  path_ismount mp (world st) = true →
  PosixPath.is_relative parent_path = false →
  PyStr.truthy (secure_filename folder_name) = true →
  path_exists (PosixPath.join parent_path [secure_filename folder_name])
    (world st) = false →
  FileOperations.create_folder folder_name parent_path st = (r, st') →
  trace st' = trace st
              ++ [EMakedirs
                    (PosixPath.join parent_path [secure_filename folder_name])].
Proof.
  intros Hm Hmp Ht Hmt Habs Hname Hfree Hcf.
  assert (Htruthy : PyStr.truthy parent_path = true).
  { unfold PosixPath.is_relative in Habs. apply negb_false_iff in Habs.
    now destruct parent_path. }
  assert (Hjoin : PosixPath.join mp [parent_path; secure_filename folder_name]
                  = PosixPath.join parent_path [secure_filename folder_name]).
  { unfold PosixPath.join. cbn [fold_left]. f_equal.
    exact (join_absolute mp parent_path Habs). }
  unfold FileOperations.create_folder in Hcf.
  rewrite (bind_returned _ _ st st mp
             (mounted_root_mounted st m mp Hm Hmp Ht Hmt)) in Hcf.
  rewrite Hname in Hcf. cbn [negb] in Hcf. revert Hcf. step_monad.
  rewrite Htruthy, Hjoin, Hfree.
  destruct (makedirs _ (world st)) as [[[]|msg] w1]; simpl;
    [destruct (stat _ w1) as [s|msg]; simpl;
       [destruct (isoformat (st_mtime s)); simpl|]|];
    intros [= <- <-]; reflexivity.
Qed.

Lemma create_folder_absolute_parent_witness :
  let st := Sim.start Samples.three_entries Samples.service in
  trace (snd (FileOperations.create_folder (RT := Samples.rt) "x" "/srv" st))
  = [EMakedirs "/srv/x"]
  ∧ PosixPath.inside "/media/usb/usb_7" "/srv/x" = false.
Proof.
  intros st. split; [|reflexivity].
  apply (create_folder_absolute_parent (RT := Samples.rt) st Samples.plugged
           "/media/usb/usb_7" "x" "/srv"
           (fst (FileOperations.create_folder (RT := Samples.rt) "x" "/srv" st)));
    reflexivity.
Defined.


(** ** Uploads: what is refused, and where the rest goes *)

(** X16: in a mounted state [upload_file] raises ["Invalid filename"] when
    the client's name sanitizes to nothing, and ["File too large (max
    100MB)"] when the stream is longer than [max_file_size]; in both cases
    before anything is written.  A stream of exactly [max_file_size] bytes
    is not refused for its size. *)
Theorem upload_file_refuses {W : Type} {HW : Host W} {RT : Runtime}
    (st : state W FileOperations.t) (m : USBManager.t) (mp : string)
    (fuel : nat) (file : FileOperations.upload) :
  FileOperations.usb_manager (self st) = Some m →
  USBManager.mount_point m = Some mp →
  PyStr.truthy mp = true →
  path_ismount mp (world st) = true →
  let size := Z.of_nat (String.length (FileOperations.content file)) in
  (PyStr.truthy (secure_filename (FileOperations.filename file)) = false →
   FileOperations.upload_file fuel file st
   = (Raise (Exception "Invalid filename"), st))
  ∧ (PyStr.truthy (secure_filename (FileOperations.filename file)) = true →
     FileOperations.max_file_size (self st) < size →
     FileOperations.upload_file fuel file st
     = (Raise (Exception "File too large (max 100MB)"), st))
  ∧ (PyStr.truthy (secure_filename (FileOperations.filename file)) = true →
     size = FileOperations.max_file_size (self st) →
     fst (FileOperations.upload_file fuel file st)
     ≠ Raise (Exception "File too large (max 100MB)")).
Proof.
  intros Hm Hmp Ht Hmt size.
  assert (Hroot := mounted_root_mounted st m mp Hm Hmp Ht Hmt).
  unfold FileOperations.upload_file.
  rewrite (bind_returned _ _ st st mp Hroot). fold size.
  split; [|split].
  - intros ->. reflexivity.
  - intros -> Hbig. cbn [negb]. step_monad.
    destruct (Z.ltb_spec (FileOperations.max_file_size (self st)) size);
      [reflexivity | lia].
  - intros -> Heq. cbn [negb]. step_monad.
    destruct (Z.ltb_spec (FileOperations.max_file_size (self st)) size);
      [lia|].
    destruct (FileOperations.free_name _ _ _ _ _ _ _) as [[n p]|]; simpl;
      [|discriminate].
    destruct (write_file p _ (world st)) as [[[]|msg] w1]; simpl;
      [destruct (stat p w1) as [s|msg]; simpl;
         [destruct (isoformat (st_mtime s)); simpl|]|];
      discriminate.
Qed.

Lemma upload_file_refuses_witness :
  FileOperations.upload_file (RT := Samples.rt) 8 Samples.dots
    (Sim.start Samples.three_entries Samples.service)
  = (Raise (Exception "Invalid filename"),
     Sim.start Samples.three_entries Samples.service)
  ∧ FileOperations.upload_file (RT := Samples.rt) 8 Samples.three_bytes
      (Sim.start Samples.three_entries Samples.tiny_service)
    = (Raise (Exception "File too large (max 100MB)"),
       Sim.start Samples.three_entries Samples.tiny_service)
  ∧ fst (FileOperations.upload_file (RT := Samples.rt) 8 Samples.report
           (Sim.start Samples.three_entries Samples.tiny_service))
    ≠ Raise (Exception "File too large (max 100MB)").
Proof.
  destruct (upload_file_refuses (RT := Samples.rt)
              (Sim.start Samples.three_entries Samples.service)
              Samples.plugged "/media/usb/usb_7" 8 Samples.dots)
    as (Hinvalid & _); [reflexivity ..|].
  destruct (upload_file_refuses (RT := Samples.rt)
              (Sim.start Samples.three_entries Samples.tiny_service)
              Samples.plugged "/media/usb/usb_7" 8 Samples.three_bytes)
    as (_ & Hlarge & _); [reflexivity ..|].
  destruct (upload_file_refuses (RT := Samples.rt)
              (Sim.start Samples.three_entries Samples.tiny_service)
              Samples.plugged "/media/usb/usb_7" 8 Samples.report)
    as (_ & _ & Hedge); [reflexivity ..|].
  split; [apply Hinvalid; reflexivity|].
  split; [apply Hlarge; [reflexivity | simpl; lia]|].
  apply Hedge; reflexivity.
Defined.

Section Containment.

Lemma contains_take c n : ∀ s,
  PyStr.contains c s = false → PyStr.contains c (PyStr.take n s) = false.
Proof.
  induction n as [|n IH]; intros [|a s]; simpl; auto.
  intros [-> Hs]%orb_false_iff. simpl. now apply IH.
Qed.

Lemma contains_drop c n : ∀ s,
  PyStr.contains c s = false → PyStr.contains c (PyStr.drop n s) = false.
Proof.
  induction n as [|n IH]; intros [|a s]; simpl; auto.
  intros [_ Hs]%orb_false_iff. now apply IH.
Qed.

Lemma splitext_free c p :
  PyStr.contains c p = false →
  PyStr.contains c (fst (PosixPath.splitext p)) = false
  ∧ PyStr.contains c (snd (PosixPath.splitext p)) = false.
Proof.
  intros Hp. unfold PosixPath.splitext.
  destruct (_ && _)%bool; simpl.
  - split; [now apply contains_take | now apply contains_drop].
  - now split.
Qed.

(** A numbered name has no slash when the name it comes from has none, and
    is never [..]. *)
Lemma numbered_component filename k :
  PyStr.contains "/" filename = false →
  PyStr.contains "/" (FileOperations.numbered filename k) = false
  ∧ PyStr.eqb (FileOperations.numbered filename k) ".." = false.
Proof.
  intros Hf. destruct (splitext_free "/" filename Hf) as [Hname Hext].
  unfold FileOperations.numbered.
  destruct (PosixPath.splitext filename) as [name ext]. simpl in Hname, Hext.
  split.
  - rewrite !contains_append, Hname, Hext, of_nat_no_slash. reflexivity.
  - apply String.eqb_neq. intros Heq.
    apply (f_equal (PyStr.contains "_")) in Heq.
    rewrite !contains_append in Heq. simpl in Heq.
    rewrite orb_true_r in Heq. discriminate.
Qed.

Lemma component_inside root n :
  PyStr.truthy root = true →
  PyStr.contains "/" n = false →
  PyStr.eqb n ".." = false →
  PosixPath.inside root (PosixPath.join root [n]) = true.
Proof.
  intros Hroot Hfree Hdots. apply join_relative_inside; [exact Hroot| |].
  - unfold PosixPath.is_relative. now rewrite (startswith_free _ _ Hfree).
  - unfold PosixPath.no_parent_segment. rewrite (split_free _ _ Hfree).
    simpl. now rewrite Hdots.
Qed.

Lemma candidate_inside root filename k :
  PyStr.truthy root = true →
  PyStr.contains "/" filename = false →
  PyStr.eqb filename ".." = false →
  PosixPath.inside root (PosixPath.join root [Props.candidate filename k]) = true.
Proof.
  intros Hroot Hfree Hdots. destruct k as [|k]; simpl.
  - now apply component_inside.
  - destruct (numbered_component filename (S k) Hfree).
    now apply component_inside.
Qed.

End Containment.

(** X17: an upload stays inside the mount root: when the sanitized name has
    no slash and is not [..], whatever [upload_file] writes -- under that
    name or a numbered one -- goes to a path that resolves inside the mount
    root. *)
Theorem upload_stays_inside {W : Type} {HW : Host W} {RT : Runtime}
    (st : state W FileOperations.t) (m : USBManager.t) (mp : string)
    (fuel : nat) (file : FileOperations.upload)
    (r : result (option FileOperations.entry_info))
    (st' : state W FileOperations.t) :
  FileOperations.usb_manager (self st) = Some m →
  USBManager.mount_point m = Some mp →
  PyStr.truthy mp = true →
  path_ismount mp (world st) = true →
  PyStr.contains "/" (secure_filename (FileOperations.filename file)) = false →
  PyStr.eqb (secure_filename (FileOperations.filename file)) ".." = false →
  FileOperations.upload_file fuel file st = (r, st') →
  ∀ p data,
    In (EWrite p data) (List.skipn (List.length (trace st)) (trace st')) →
    PosixPath.inside mp p = true.
Proof.
  intros Hm Hmp Ht Hmt Hfree Hdots Hup p data Hin.
  apply (upload_file_spec st m mp) in Hup
    as [(-> & _) | (k & _ & _ & Htr & _)]; try assumption.
  - rewrite skipn_all in Hin. destruct Hin.
  - rewrite Htr, skipn_app, skipn_all, Nat.sub_diag in Hin. simpl in Hin.
    destruct Hin as [[= <- _] | []]. now apply candidate_inside.
Qed.

Lemma upload_stays_inside_witness :
  PosixPath.inside "/media/usb/usb_7" "/media/usb/usb_7/report.txt" = true.
Proof.
  apply (upload_stays_inside (RT := Samples.rt)
           (Sim.start Samples.three_entries Samples.service) Samples.plugged
           "/media/usb/usb_7" 8 Samples.report
           (fst (FileOperations.upload_file (RT := Samples.rt) 8 Samples.report
                   (Sim.start Samples.three_entries Samples.service)))
           (snd (FileOperations.upload_file (RT := Samples.rt) 8 Samples.report
                   (Sim.start Samples.three_entries Samples.service))))
    with (data := "hi"); try reflexivity.
  vm_compute. now left.
Defined.

(** ** Listings: what is in them, and how they fail *)

Section ListingEntries.
Context {W : Type} {HW : Host W} {RT : Runtime}.
Implicit Types st : state W FileOperations.t.

(** When the entry of an item is built. *)
Lemma item_info_built full_path path item (w : W) f :
  FileOperations.item_info full_path path item w = Ok f
  ↔ ∃ s modified created,
      stat (PosixPath.join full_path [item]) w = Done s
      ∧ isoformat (st_mtime s) = Formatted modified
      ∧ isoformat (st_ctime s) = Formatted created
      ∧ f = FileOperations.mkFileInfo item
              (if PyStr.truthy path then PosixPath.join path [item] else item)
              (path_isdir (PosixPath.join full_path [item]) w)
              (if negb (path_isdir (PosixPath.join full_path [item]) w)
               then st_size s else 0)
              modified created
              (FileOperations._get_file_type item
                 (path_isdir (PosixPath.join full_path [item]) w))
              (FileOperations._get_file_icon item
                 (path_isdir (PosixPath.join full_path [item]) w)).
Proof.
  unfold FileOperations.item_info.
  destruct (stat (PosixPath.join full_path [item]) w) as [s|msg].
  - destruct (isoformat (st_mtime s)) as [modified|msg|msg] eqn:Hm; simpl.
    + destruct (isoformat (st_ctime s)) as [created|msg|msg] eqn:Hc; simpl.
      * split.
        -- intros [= <-]. exists s, modified, created. auto.
        -- intros (s' & mo & cr & [= <-] & Hmo & Hcr & ->).
           rewrite Hm in Hmo. rewrite Hc in Hcr.
           injection Hmo as <-. injection Hcr as <-. reflexivity.
      * split; [discriminate|].
        intros (s' & mo & cr & [= <-] & _ & Hcr & _). congruence.
      * split; [discriminate|].
        intros (s' & mo & cr & [= <-] & _ & Hcr & _). congruence.
    + split; [discriminate|].
      intros (s' & mo & cr & [= <-] & Hmo & _). congruence.
    + split; [discriminate|].
      intros (s' & mo & cr & [= <-] & Hmo & _). congruence.
  - split; [discriminate|]. intros (s' & mo & cr & [=] & _).
Qed.

(** What an item raises: an [OSError], or the error of a timestamp that is
    out of range. *)
Lemma item_info_raised full_path path item (w : W) e :
  FileOperations.item_info full_path path item w = Raise e →
  (is_OSError e = true
   ∧ ∀ s, stat (PosixPath.join full_path [item]) w = Done s →
          (∃ msg, isoformat (st_mtime s) = Unsupported msg)
          ∨ (∃ msg, isoformat (st_ctime s) = Unsupported msg))
  ∨ (is_OSError e = false
     ∧ ∃ s msg,
         e = OtherError msg
         ∧ stat (PosixPath.join full_path [item]) w = Done s
         ∧ (isoformat (st_mtime s) = OutOfRange msg
            ∨ isoformat (st_ctime s) = OutOfRange msg)).
Proof.
  unfold FileOperations.item_info.
  destruct (stat (PosixPath.join full_path [item]) w) as [s|msg].
  - destruct (isoformat (st_mtime s)) as [modified|msg|msg] eqn:Hm; simpl.
    + destruct (isoformat (st_ctime s)) as [created|msg|msg] eqn:Hc; simpl;
        [discriminate| |]; intros [= <-].
      * left. split; [reflexivity|]. intros s' [= <-]. eauto.
      * right. split; [reflexivity|]. exists s, msg. auto.
    + intros [= <-]. left. split; [reflexivity|]. intros s' [= <-]. eauto.
    + intros [= <-]. right. split; [reflexivity|]. exists s, msg. auto.
  - intros [= <-]. left. split; [reflexivity|]. intros s' [=].
Qed.

(** The loop either collects the entries that could be built, or stops at
    the first item that raises something else than an [OSError]. *)
Lemma list_items_spec full_path path (w : W) items : ∀ files,
  match FileOperations.list_items full_path path items w files with
  | Ok all =>
      (∃ entries,
         all = files ++ entries
         ∧ (List.length entries ≤ List.length items)%nat
         ∧ (∀ f, In f entries ↔
                 ∃ item, In item items
                   ∧ FileOperations.item_info full_path path item w = Ok f))
      ∧ (∀ item e, In item items →
           FileOperations.item_info full_path path item w = Raise e →
           is_OSError e = true)
  | Raise e =>
      is_OSError e = false
      ∧ ∃ item, In item items
          ∧ FileOperations.item_info full_path path item w = Raise e
  end.
Proof.
  induction items as [|item rest IH]; intros files.
  - simpl. split.
    + exists []. rewrite app_nil_r. split; [reflexivity|].
      split; [simpl; lia|]. intros f. split; [intros [] | intros (? & [] & _)].
    + intros item e [].
  - cbn [FileOperations.list_items].
    destruct (FileOperations.item_info full_path path item w)
      as [info|e] eqn:Hitem.
    + specialize (IH (files ++ [info])).
      destruct (FileOperations.list_items full_path path rest w
                  (files ++ [info])) as [all|e'].
      * destruct IH as ((entries & -> & Hlen & Hin) & Hskip). split.
        -- exists (info :: entries). rewrite <- app_assoc. simpl.
           split; [reflexivity|]. split; [lia|].
           intros f. split.
           ++ intros [<- | Hf]; [eauto|].
              apply Hin in Hf as (i & Hi & Hf). eauto.
           ++ intros (i & [<- | Hi] & Hf).
              ** left. congruence.
              ** right. apply Hin. eauto.
        -- intros i e [<- | Hi] He; [congruence | eauto].
      * destruct IH as (He' & i & Hi & Hraise). split; [exact He'|].
        exists i. simpl. auto.
    + destruct (is_OSError e) eqn:He.
      * specialize (IH files).
        destruct (FileOperations.list_items full_path path rest w files)
          as [all|e'].
        -- destruct IH as ((entries & -> & Hlen & Hin) & Hskip). split.
           ++ exists entries. split; [reflexivity|]. split; [simpl; lia|].
              intros f. split.
              ** intros Hf. apply Hin in Hf as (i & Hi & Hf). simpl. eauto.
              ** intros (i & [<- | Hi] & Hf); [congruence|].
                 apply Hin. eauto.
           ++ intros i e0 [<- | Hi] He0; [congruence | eauto].
        -- destruct IH as (He' & i & Hi & Hraise). split; [exact He'|].
           exists i. simpl. auto.
      * split; [exact He|]. exists item. simpl. auto.
Qed.

(** A listing that is returned comes from a mounted state, which it leaves
    as it was. *)
Lemma list_files_returned st path files st' :
  FileOperations.list_files path st = (Ok files, st') →
  ∃ m mp items entries,
    FileOperations.usb_manager (self st) = Some m
    ∧ USBManager.mount_point m = Some mp
    ∧ st' = st
    ∧ listdir (PosixPath.join mp [path]) (world st) = Done items
    ∧ FileOperations.list_items (PosixPath.join mp [path]) path items
        (world st) [] = Ok entries
    ∧ files = FileOperations.sort entries.
Proof.
  intros Hl. unfold FileOperations.list_files in Hl. unfold bind at 1 in Hl.
  destruct (FileOperations.mounted_root st) as [r st1] eqn:Hroot.
  apply mounted_root_spec in Hroot
    as [(m & mp & Hm & Hmp & _ & _ & -> & ->) | (e & -> & _)]; [|discriminate].
  revert Hl. step_monad.
  destruct (path_exists (PosixPath.join mp [path]) (world st)); simpl;
    [|discriminate].
  destruct (listdir (PosixPath.join mp [path]) (world st)) as [items|msg] eqn:Hld;
    simpl; [|discriminate].
  destruct (FileOperations.list_items _ path items (world st) [])
    as [entries|e] eqn:Hitems; simpl; [|discriminate].
  intros [= <- <-]. exists m, mp, items, entries. auto 10.
Qed.

End ListingEntries.

(** X18: a listing returned by [list_files] changes nothing -- no command is
    issued and the service is as before -- and describes the directory
    [mount_point/path] item by item.  An item is listed exactly when its
    [os.stat] succeeds and both of its timestamps can be formatted; an item
    for which one of these raised was skipped without an error, and what it
    raised was an [OSError].  So the listing is never longer than the
    directory.  An entry's [path] is the item under the requested [path]; a
    directory is listed with size 0 and type and icon ["folder"], anything
    else with its [st_size] and the type ["unknown"], whatever its
    extension. *)
Theorem list_files_entries {W : Type} {HW : Host W} {RT : Runtime}
    (st : state W FileOperations.t) (path : string)
    (files : list FileOperations.file_info) (st' : state W FileOperations.t) :
  FileOperations.list_files path st = (Ok files, st') →
  st' = st
  ∧ ∃ m mount_point items,
      let full_path := PosixPath.join mount_point [path] in
      let item_path item := PosixPath.join full_path [item] in
      FileOperations.usb_manager (self st) = Some m
      ∧ USBManager.mount_point m = Some mount_point
      ∧ listdir full_path (world st) = Done items
      ∧ (List.length files ≤ List.length items)%nat
      ∧ (∀ item, In item items →
           (∃ f, In f files ∧ FileOperations.name f = item)
           ↔ (∃ s modified created,
                stat (item_path item) (world st) = Done s
                ∧ isoformat (st_mtime s) = Formatted modified
                ∧ isoformat (st_ctime s) = Formatted created))
      ∧ (∀ item s, In item items →
           stat (item_path item) (world st) = Done s →
           (∀ msg, isoformat (st_mtime s) ≠ OutOfRange msg)
           ∧ ((∃ modified, isoformat (st_mtime s) = Formatted modified) →
              ∀ msg, isoformat (st_ctime s) ≠ OutOfRange msg))
      ∧ (∀ f, In f files →
           In (FileOperations.name f) items
           ∧ FileOperations.path f
             = (if PyStr.truthy path
                then PosixPath.join path [FileOperations.name f]
                else FileOperations.name f)
           ∧ FileOperations.is_directory f
             = path_isdir (item_path (FileOperations.name f)) (world st)
           ∧ (∃ s, stat (item_path (FileOperations.name f)) (world st) = Done s
                ∧ isoformat (st_mtime s)
                  = Formatted (FileOperations.modified f)
                ∧ isoformat (st_ctime s)
                  = Formatted (FileOperations.created f)
                ∧ FileOperations.size f
                  = (if FileOperations.is_directory f then 0 else st_size s))
           ∧ FileOperations.type f
             = (if FileOperations.is_directory f then "folder" else "unknown")
           ∧ (FileOperations.is_directory f = true →
              FileOperations.icon f = "folder")).
Proof.
  intros Hl.
  apply list_files_returned in Hl
    as (m & mp & items & entries & Hm & Hmp & -> & Hld & Hitems & ->).
  split; [reflexivity|]. exists m, mp, items. cbv zeta.
  pose proof (sort_perm entries) as Hperm.
  pose proof (list_items_spec (PosixPath.join mp [path]) path (world st)
                items []) as Hspec.
  rewrite Hitems in Hspec.
  destruct Hspec as ((entries' & Heq & Hlen & Hin) & Hskip).
  simpl in Heq. subst entries'.
  split; [exact Hm|]. split; [exact Hmp|]. split; [exact Hld|].
  split; [|split; [|split]].
  - now rewrite <- (Permutation_length Hperm).
  - intros item Hitem. split.
    + intros (f & Hf & <-).
      apply (Permutation_in _ (Permutation_sym Hperm)) in Hf.
      apply Hin in Hf as (i & _ & Hf).
      apply item_info_built in Hf as (s & mo & cr & Hs & Hmo & Hcr & ->).
      simpl. eauto 10.
    + intros (s & mo & cr & Hs & Hmo & Hcr). eexists. split.
      * apply (Permutation_in _ Hperm). apply Hin. exists item.
        split; [exact Hitem|]. apply item_info_built.
        exists s, mo, cr. auto.
      * reflexivity.
  - intros item s Hitem Hs. split.
    + intros msg Hmo.
      specialize (Hskip item (OtherError msg) Hitem).
      unfold FileOperations.item_info in Hskip. rewrite Hs, Hmo in Hskip.
      discriminate (Hskip eq_refl).
    + intros (mo & Hmo) msg Hcr.
      specialize (Hskip item (OtherError msg) Hitem).
      unfold FileOperations.item_info in Hskip. rewrite Hs, Hmo, Hcr in Hskip.
      discriminate (Hskip eq_refl).
  - intros f Hf.
    apply (Permutation_in _ (Permutation_sym Hperm)) in Hf.
    apply Hin in Hf as (i & Hi & Hf).
    apply item_info_built in Hf as (s & mo & cr & Hs & Hmo & Hcr & ->). simpl.
    split; [exact Hi|]. split; [reflexivity|]. split; [reflexivity|].
    split; [|split].
    + exists s. split; [exact Hs|]. split; [exact Hmo|]. split; [exact Hcr|].
      now destruct (path_isdir (PosixPath.join (PosixPath.join mp [path]) [i])
                      (world st)).
    + unfold FileOperations._get_file_type.
      now destruct (path_isdir _ (world st)).
    + intros ->. reflexivity.
Qed.

Lemma list_files_entries_witness :
  let st := mkState tt [] Samples.service in
  let host := Samples.dated [("old", -1); ("new", 5)] in
  FileOperations.list_files (HW := host) (RT := Samples.rt) "" st
  = (Ok [FileOperations.mkFileInfo "new" "new" false 1 "5" "0" "unknown" "file"],
     st)
  ∧ stat (Host := host) "/media/usb/usb_7/old" tt
    = Done {| st_size := 1; st_mtime := -1; st_ctime := 0 |}
  ∧ isoformat (Runtime := Samples.rt) (-1)
    = Unsupported "Value too large for defined data type".
Proof.
  intros st host.
  assert (Hrun :
    FileOperations.list_files (HW := host) (RT := Samples.rt) "" st
    = (Ok [FileOperations.mkFileInfo "new" "new" false 1 "5" "0" "unknown"
             "file"], st)) by (vm_compute; reflexivity).
  destruct (list_files_entries (HW := host) (RT := Samples.rt) st "" _ st Hrun)
    as (_ & _).
  split; [exact Hrun|]. split; reflexivity.
Defined.

(** X19: in a mounted state [list_files] has four outcomes and leaves the
    state as it was in each: ["Path does not exist: <path>"] when the mount
    root joined with [path] does not exist; the [OSError] of [os.listdir]
    when that path cannot be listed (a file, say); the [ValueError] or
    [OverflowError] of a timestamp that is out of range, for an item whose
    [os.stat] succeeded; and otherwise a listing. *)
Theorem list_files_outcomes {W : Type} {HW : Host W} {RT : Runtime}
    (st : state W FileOperations.t) (m : USBManager.t) (mp path : string) :
  FileOperations.usb_manager (self st) = Some m →
  USBManager.mount_point m = Some mp →
  PyStr.truthy mp = true →
  path_ismount mp (world st) = true →
  let full_path := PosixPath.join mp [path] in
  (path_exists full_path (world st) = false
   ∧ FileOperations.list_files path st
     = (Raise (Exception ("Path does not exist: " +:+ path)), st))
  ∨ (path_exists full_path (world st) = true
     ∧ ∃ msg, listdir full_path (world st) = Failed msg
         ∧ FileOperations.list_files path st = (Raise (OSError msg), st))
  ∨ (path_exists full_path (world st) = true
     ∧ ∃ items item s msg,
         listdir full_path (world st) = Done items
         ∧ In item items
         ∧ stat (PosixPath.join full_path [item]) (world st) = Done s
         ∧ (isoformat (st_mtime s) = OutOfRange msg
            ∨ isoformat (st_ctime s) = OutOfRange msg)
         ∧ FileOperations.list_files path st = (Raise (OtherError msg), st))
  ∨ (path_exists full_path (world st) = true
     ∧ ∃ items files, listdir full_path (world st) = Done items
         ∧ FileOperations.list_files path st = (Ok files, st)).
Proof.
  intros Hm Hmp Ht Hmt full_path.
  assert (Hroot := mounted_root_mounted st m mp Hm Hmp Ht Hmt).
  unfold FileOperations.list_files.
  rewrite (bind_returned _ _ st st mp Hroot). step_monad. fold full_path.
  destruct (path_exists full_path (world st)); simpl; [|left; auto].
  right. destruct (listdir full_path (world st)) as [items|msg]; simpl;
    [|left; split; [reflexivity|]; eauto].
  right.
  pose proof (list_items_spec full_path path (world st) items []) as Hspec.
  destruct (FileOperations.list_items full_path path items (world st) [])
    as [entries|e]; simpl.
  - right. split; [reflexivity|]. eauto.
  - left. split; [reflexivity|].
    destruct Hspec as (Hnot & item & Hitem & Hraise).
    apply item_info_raised in Hraise
      as [(Hos & _) | (_ & s & msg & -> & Hs & Hrange)]; [congruence|].
    exists items, item, s, msg. auto 10.
Qed.

Lemma list_files_outcomes_witness :
  let st := Sim.start Samples.three_entries Samples.service in
  let st1 := mkState tt [] Samples.service in
  FileOperations.list_files (RT := Samples.rt) "missing" st
  = (Raise (Exception "Path does not exist: missing"), st)
  ∧ FileOperations.list_files (RT := Samples.rt) "a.txt" st
    = (Raise (OSError "Not a directory"), st)
  ∧ FileOperations.list_files
      (HW := Samples.dated [("new", 5); ("far", 1099511627776)])
      (RT := Samples.rt) "" st1
    = (Raise (OtherError "year 10000 is out of range"), st1).
Proof.
  intros st st1.
  destruct (list_files_outcomes (RT := Samples.rt) st Samples.plugged
              "/media/usb/usb_7" "missing")
    as [(_ & Hmissing) | [(Hex & _) | [(Hex & _) | (Hex & _)]]];
    [reflexivity .. | | discriminate Hex | discriminate Hex | discriminate Hex].
  split; [exact Hmissing|]. split; reflexivity.
Defined.

(** ** Validation of an upload *)

(** X20: [is_valid_file] decides by the extension alone: an upload is
    accepted exactly when the extension of its client name, lower-cased by
    [str.lower], is one of [allowed_extensions].  The content, and what
    [magic] makes of it, have no part in the verdict; a name without an
    extension is refused. *)
Theorem is_valid_file_by_extension {RT : Runtime}
    (from_buffer : string → result string) (file : FileOperations.upload) :
  (FileOperations.is_valid_file from_buffer file = true
   ↔ snd (PosixPath.splitext (lower (FileOperations.filename file)))
     ∈ FileOperations.allowed_extensions)
  ∧ (snd (PosixPath.splitext (lower (FileOperations.filename file))) = ""
     → FileOperations.is_valid_file from_buffer file = false).
Proof.
  assert (Hempty : "" ∉ FileOperations.allowed_extensions).
  { intros Hin. apply (bool_decide_eq_true_2 _) in Hin.
    vm_compute in Hin. discriminate. }
  split; [|intros Hnone; unfold FileOperations.is_valid_file; cbv zeta;
           rewrite Hnone, (bool_decide_eq_false_2 _ Hempty);
           now destruct (negb (PyStr.truthy _))].
  unfold FileOperations.is_valid_file.
  destruct (lower (FileOperations.filename file)) as [|c s] eqn:Hname.
  - split; [discriminate|]. intros Hin.
    now apply Hempty in Hin.
  - cbn [PyStr.truthy negb].
    destruct (bool_decide _) eqn:Hext; cbn [negb].
    + apply bool_decide_eq_true_1 in Hext. split; [intros _; exact Hext|].
      intros _. now destruct (from_buffer _).
    + apply bool_decide_eq_false_1 in Hext. split; [discriminate | tauto].
Qed.

(** * Properties of the request handlers *)

Section Calls.
Context {W : Type} {HW : Host W} {RT : Runtime}.
Implicit Types st : state W App.t.

Lemma or_500_raised (body : M W App.t App.response) st e st' :
  body st = (Raise e, st') →
  App.or_500 body st = (Ok (App.Error 500 (App.str e)), st').
Proof. intros H. unfold App.or_500, try_except. now rewrite H. Qed.

Lemma or_500_returned (body : M W App.t App.response) st r st' :
  body st = (Ok r, st') → App.or_500 body st = (Ok r, st').
Proof. intros H. unfold App.or_500, try_except. now rewrite H. Qed.

(** A handler answers: what its body raises becomes a 500. *)
Lemma or_500_answers (body : M W App.t App.response) st :
  ∃ r, App.or_500 body st = (Ok r, snd (body st))
    ∧ match fst (body st) with
      | Ok r' => r = r'
      | Raise e => r = App.Error 500 (App.str e)
      end.
Proof.
  unfold App.or_500, try_except.
  destruct (body st) as [[r|e] st']; simpl; eauto.
Qed.

Lemma mounted_root_detached_raises (s0 : state W FileOperations.t) :
  Props.detached (self s0) →
  ∃ e s1, FileOperations.mounted_root s0 = (Raise e, s1)
    ∧ Props.detached (self s1)
    ∧ (e = Exception "No USB device mounted"
       ∨ ∃ msg, e = OSError msg
           ∧ fst (makedirs "/media/usb" (world s0)) = Failed msg).
Proof.
  unfold Props.detached. intros Hd.
  destruct (FileOperations.usb_manager (self s0)) as [m|] eqn:Hm.
  - exists (Exception "No USB device mounted"), s0.
    rewrite (mounted_root_unmounted s0 m Hm).
    + rewrite Hm. auto.
    + unfold USBManager.get_mount_point, USBManager.is_device_mounted.
      now rewrite Hd.
  - unfold FileOperations.mounted_root, FileOperations._get_usb_manager,
      USBManager.init, USBManager.get_mount_point,
      USBManager.is_device_mounted.
    step_monad. rewrite Hm. step_monad. cbn [USBManager.mount_base].
    destruct (makedirs "/media/usb" (world s0)) as [[[]|msg] w1]; simpl.
    + eexists _, _. split; [reflexivity|]. simpl. auto.
    + eexists _, _. split; [reflexivity|]. simpl. rewrite Hm. eauto.
Qed.

(** A method of the file service that starts with the mount check, called
    on a detached service. *)
Lemma on_file_ops_detached {A} (m : M W FileOperations.t A) st :
  (∀ s0 e s1, FileOperations.mounted_root s0 = (Raise e, s1) →
              m s0 = (Raise e, s1)) →
  Props.detached (App.file_ops (self st)) →
  ∃ e st', App.on_file_ops m st = (Raise e, st')
    ∧ Props.detached (App.file_ops (self st'))
    ∧ (App.str e = "No USB device mounted"
       ∨ fst (makedirs "/media/usb" (world st)) = Failed (App.str e)).
Proof.
  intros Hm Hd.
  destruct (mounted_root_detached_raises
              (mkState (world st) (trace st) (App.file_ops (self st))) Hd)
    as (e & s1 & Hr & Hd1 & He).
  exists e. eexists. unfold App.on_file_ops. rewrite (Hm _ _ _ Hr).
  split; [reflexivity|]. split; [exact Hd1|].
  destruct He as [-> | (msg & -> & Hmk)]; [now left | now right].
Qed.

Lemma on_usb_manager_keeps_file_ops {A} (m : M W USBManager.t A) st :
  App.file_ops (self (snd (App.on_usb_manager m st))) = App.file_ops (self st).
Proof.
  unfold App.on_usb_manager. now destruct (m _) as [r s1].
Qed.

(** A handler that only calls the device manager leaves the file service
    alone. *)
Lemma usb_handler_keeps_file_ops {A} (m : M W USBManager.t A)
    (k : A → App.response) st :
  App.file_ops
    (self (snd (App.or_500 (let* a := App.on_usb_manager m in ret (k a)) st)))
  = App.file_ops (self st).
Proof.
  pose proof (on_usb_manager_keeps_file_ops m st) as Hk.
  unfold App.or_500, try_except, bind, ret.
  destruct (App.on_usb_manager m st) as [[a|e] st1]; exact Hk.
Qed.

(** A handler that goes to the file service, on a detached one. *)
Lemma file_handler_detached {A} (m : M W FileOperations.t A)
    (k : A → M W App.t App.response) st :
  (∀ s0 e s1, FileOperations.mounted_root s0 = (Raise e, s1) →
              m s0 = (Raise e, s1)) →
  Props.detached (App.file_ops (self st)) →
  ∃ error st', App.or_500 (bind (App.on_file_ops m) k) st
               = (Ok (App.Error 500 error), st')
    ∧ Props.detached (App.file_ops (self st'))
    ∧ (error = "No USB device mounted"
       ∨ fst (makedirs "/media/usb" (world st)) = Failed error).
Proof.
  intros Hm Hd.
  destruct (on_file_ops_detached m st Hm Hd) as (e & st' & Hcall & Hd' & He).
  exists (App.str e), st'.
  rewrite (or_500_raised _ st e st' (bind_raised _ k st st' e Hcall)). auto.
Qed.

Lemma bind_some (m : M W App.t App.response) st r st' :
  m st = (Ok r, st') →
  bind m (fun a => ret (Some a)) st = (Ok (Some r), st').
Proof. intros H. unfold bind, ret. now rewrite H. Qed.

Lemma starts_with_mount_check {A} (k : string → M W FileOperations.t A)
    (s0 : state W FileOperations.t) e s1 :
  FileOperations.mounted_root s0 = (Raise e, s1) →
  bind FileOperations.mounted_root k s0 = (Raise e, s1).
Proof. apply bind_raised. Qed.

End Calls.

Section Routes.
Context {W : Type} {HW : Host W} {RT : Runtime} {LB : App.Libraries W}.
Implicit Types st : state W App.t.

Lemma unserved_500 req st error st' :
  Props.detached (App.file_ops (self st')) →
  (error = "No USB device mounted"
   ∨ fst (makedirs "/media/usb" (world st)) = Failed error) →
  Props.unserved req st (Ok (Some (App.Error 500 error)), st').
Proof.
  intros Hd He. split; [exact Hd|]. exists 500, error. auto.
Qed.

Lemma unserved_early req st code error :
  Props.detached (App.file_ops (self st)) →
  code = 400 ∨ code = 413 →
  Props.unserved req st (Ok (Some (App.Error code error)), st).
Proof.
  intros Hd Hc. split; [exact Hd|]. exists code, error.
  split; [reflexivity|]. split; [tauto|]. intros ->.
  destruct Hc; discriminate.
Qed.

Lemma or_500_get_json (data : gmap string string)
    (k : gmap string string → M W App.t App.response) st :
  App.or_500 (bind (App.get_json (App.Object data)) k) st
  = App.or_500 (k data) st.
Proof. reflexivity. Qed.

Lemma bind_same {A B} (m m' : M W App.t A) (k : A → M W App.t B) st :
  m st = m' st → bind m k st = bind m' k st.
Proof. intros H. unfold bind. now rewrite H. Qed.

Lemma unserved_body req st e :
  Props.detached (App.file_ops (self st)) →
  Props.body_error req = Some e →
  Props.unserved req st (Ok (Some (App.Error 500 (App.str e))), st).
Proof.
  intros Hd He. split; [exact Hd|]. exists 500, (App.str e).
  split; [reflexivity|]. split; [tauto|]. intros _. left. eauto.
Qed.

(** One request on a detached file service: the service stays detached,
    and a request for the volume is not served. *)
Lemma handle_detached fuel req st :
  Props.detached (App.file_ops (self st)) →
  Props.detached (App.file_ops (self (snd (App.handle fuel req st))))
  ∧ (Props.file_request req = true →
     Props.unserved req st (App.handle fuel req st)).
Proof.
  intros Hd.
  assert (Husb : ∀ A (m : M W USBManager.t A) (k : A → App.response),
    Props.detached
      (App.file_ops
         (self (snd (bind
                       (App.or_500 (let* a := App.on_usb_manager m in ret (k a)))
                       (fun a => ret (Some a)) st))))).
  { intros A m k. pose proof (usb_handler_keeps_file_ops m k st) as Hk.
    destruct (or_500_answers (let* a := App.on_usb_manager m in ret (k a)) st)
      as (r & Hr & _).
    rewrite Hr in Hk. rewrite (bind_some _ st r _ Hr).
    cbn [snd] in *. now rewrite Hk. }
  assert (Hfile : ∀ A (m : M W FileOperations.t A)
                    (k : A → M W App.t App.response),
    (∀ s0 e s1, FileOperations.mounted_root s0 = (Raise e, s1) →
                m s0 = (Raise e, s1)) →
    Props.unserved req st
      (bind (App.or_500 (bind (App.on_file_ops m) k))
         (fun a => ret (Some a)) st)).
  { intros A m k Hm.
    destruct (file_handler_detached m k st Hm Hd) as (error & st' & Hr & Hd' & He).
    rewrite (bind_some _ st _ st' Hr). now apply unserved_500. }
  assert (Hearly : ∀ code error,
    code = 400 ∨ code = 413 →
    Props.unserved req st
      (bind (App.or_500 (ret (App.Error code error)))
         (fun a => ret (Some a)) st)).
  { intros code error Hc. now apply unserved_early. }
  assert (Hbody : ∀ e (k : gmap string string → M W App.t App.response),
    Props.body_error req = Some e →
    Props.unserved req st
      (bind (App.or_500 (bind (App.get_json (App.NoObject e)) k))
         (fun a => ret (Some a)) st)).
  { intros e k He. now apply unserved_body. }
  destruct req as [|device| |args|body|filename| |body|filename body|filename];
    cbn [App.handle Props.file_request].
  - split; [apply Husb | discriminate].
  - split; [apply Husb | discriminate].
  - split; [apply (Husb _ _ (fun _ => _)) | discriminate].
  - assert (Hu := Hfile _ (FileOperations.list_files (default "" (args !! "path")))
                    (fun files => ret (App.Json (App.Files files)))
                    (starts_with_mount_check _)).
    split; [apply Hu | intros _; exact Hu].
  - assert (Hu : Props.unserved (App.UploadToUsb body) st
                   (App.upload_to_usb fuel body st)).
    { unfold App.upload_to_usb. destruct body as [|e|files].
      - apply unserved_early; auto.
      - now apply unserved_body.
      - destruct (files !! "file") as [file|].
        + destruct (PyStr.eqb (FileOperations.filename file) "").
          * apply unserved_early; auto.
          * destruct (negb (FileOperations.is_valid_file App.from_buffer file)).
            -- apply unserved_early; auto.
            -- destruct (on_file_ops_detached
                           (FileOperations.upload_file fuel file) st
                           (starts_with_mount_check _) Hd)
                 as (e & st' & Hcall & Hd' & He).
               unfold try_except.
               rewrite (bind_raised _ _ st st' e Hcall). simpl.
               now apply unserved_500.
        + apply unserved_early; auto. }
    split; [apply Hu | intros _; exact Hu].
  - assert (Hu := Hfile _ (FileOperations.delete_file filename)
                    (fun _ => ret (App.Json (App.Message
                       ("File " +:+ filename +:+ " deleted successfully"))))
                    (starts_with_mount_check _)).
    split; [apply Hu | intros _; exact Hu].
  - split; [apply Husb | discriminate].
  - assert (Hu : Props.unserved (App.CreateFolder body) st
                   (bind (App.create_folder body) (fun a => ret (Some a)) st)).
    { unfold App.create_folder. destruct body as [e|data].
      - now apply Hbody.
      - rewrite (bind_same _ _ _ st (or_500_get_json data _ st)). cbv zeta.
        destruct (negb (PyStr.truthy (default "" (data !! "folder_name")))).
        + apply Hearly. auto.
        + apply (Hfile _ (FileOperations.create_folder _ _) (fun result => ret _)
                   (starts_with_mount_check _)). }
    split; [apply Hu | intros _; exact Hu].
  - assert (Hu : Props.unserved (App.RenameFile filename body) st
                   (bind (App.rename_file filename body)
                      (fun a => ret (Some a)) st)).
    { unfold App.rename_file. destruct body as [e|data].
      - now apply Hbody.
      - rewrite (bind_same _ _ _ st (or_500_get_json data _ st)). cbv zeta.
        destruct (negb (PyStr.truthy (default "" (data !! "new_name")))).
        + apply Hearly. auto.
        + apply (Hfile _ (FileOperations.rename_file _ _) (fun result => ret _)
                   (starts_with_mount_check _)). }
    split; [apply Hu | intros _; exact Hu].
  - assert (Hu := Hfile _ (FileOperations.get_file_path filename)
                    (fun file_path =>
                       let* w := get_world in
                       if negb (path_exists file_path w) then
                         raise (OtherError App.not_found_description)
                       else
                         run* of_result (App.send_file file_path w) in
                         ret (App.Attachment file_path))
                    (starts_with_mount_check _)).
    split; [apply Hu | intros _; exact Hu].
Qed.

Lemma serve_detached fuel requests : ∀ st,
  Props.detached (App.file_ops (self st)) →
  Props.detached (App.file_ops (self (App.serve fuel requests st))).
Proof.
  induction requests as [|req requests IH]; intros st Hd; [exact Hd|].
  change (Props.detached
            (App.file_ops
               (self (App.serve fuel requests (snd (App.handle fuel req st)))))).
  apply IH. exact (proj1 (handle_detached fuel req st Hd)).
Qed.

End Routes.

(** X21: the web application never reaches the volume.  Its file service
    is built without a manager and makes one of its own, which no route
    ever mounts; so after any sequence of requests -- successful mounts
    through the device routes included -- a request to list, upload,
    delete, rename, create a folder or download is answered with an error:
    400 or 413 from the handler's own checks; 500 with the text of the
    exception raised while the body was read, for a body that is not a JSON
    object or a form that cannot be read; and otherwise 500 with
    ["No USB device mounted"] (or the error of creating [/media/usb]). *)
Theorem file_routes_are_never_served {W : Type} {HW : Host W} {RT : Runtime}
    {LB : App.Libraries W} (fuel : nat) (requests : list App.request)
    (req : App.request) (st : state W App.t) :
  Props.detached (App.file_ops (self st)) →
  Props.file_request req = true →
  Props.unserved req (App.serve fuel requests st)
    (App.handle fuel req (App.serve fuel requests st)).
Proof.
  intros Hd Hreq.
  apply handle_detached; [|exact Hreq]. now apply serve_detached.
Qed.

Lemma file_routes_are_never_served_witness :
  let st := Sim.start Samples.stick Samples.loaded in
  let mount := App.MountUsbDevice "/dev/sda1" in
  let list := App.GetUsbFiles ∅ in
  let folder :=
    App.CreateFolder
      (App.NoObject (OtherError "415 Unsupported Media Type")) in
  let st1 := App.serve (RT := Samples.rt) (LB := Samples.libraries) 8 [mount] st in
  fst (App.load (Sim.start Samples.stick tt)) = Ok Samples.loaded
  ∧ fst (App.handle (RT := Samples.rt) (LB := Samples.libraries) 8 mount st)
    = Ok (Some (App.Json (App.Mounted "/media/usb/usb_7"
                            "Device /dev/sda1 mounted successfully")))
  ∧ path_ismount "/media/usb/usb_7" (world st1) = true
  ∧ Props.unserved list st1
      (App.handle (RT := Samples.rt) (LB := Samples.libraries) 8 list st1)
  ∧ fst (App.handle (RT := Samples.rt) (LB := Samples.libraries) 8 list st1)
    = Ok (Some (App.Error 500 "No USB device mounted"))
  ∧ fst (App.handle (RT := Samples.rt) (LB := Samples.libraries) 8 folder st1)
    = Ok (Some (App.Error 500 "415 Unsupported Media Type")).
Proof.
  intros st mount list folder st1.
  split; [reflexivity|]. split; [reflexivity|]. split; [reflexivity|].
  split; [|split; reflexivity].
  apply (file_routes_are_never_served (RT := Samples.rt)
           (LB := Samples.libraries) 8 [mount] list st);
    [exact I | reflexivity].
Defined.

Section DeviceRoutes.
Context {W : Type} {HW : Host W} {RT : Runtime}.
Implicit Types st : state W App.t.

Lemma get_available_devices_returns (s0 : state W USBManager.t) :
  ∃ devices s1, USBManager.get_available_devices s0 = (Ok devices, s1)
    ∧ self s1 = self s0.
Proof.
  pose proof (get_available_devices_keeps_self s0) as Hself.
  rewrite get_available_devices_cases in *.
  destruct (run Props.lsblk_json 10 (world s0)) as [[c|e] w1].
  - cbv zeta in *. destruct (returncode c =? 0); [|eauto].
    destruct (lsblk_blockdevices (stdout c)) as [bd|e]; [eauto|].
    destruct (get_devices_fallback_returns
                (mkState w1 (trace s0 ++ [ERun Props.lsblk_json]) (self s0)))
      as (ds & s1 & Hf & _).
    rewrite Hf in *. eauto.
  - destruct (get_devices_fallback_returns
                (mkState w1 (trace s0 ++ [ERun Props.lsblk_json]) (self s0)))
      as (ds & s1 & Hf & _).
    rewrite Hf in *. eauto.
Qed.

(** A call that changes nothing, seen from the application. *)
Lemma on_usb_manager_pure {A} (m : M W USBManager.t A) st a :
  m (mkState (world st) (trace st) (App.usb_manager (self st)))
  = (Ok a, mkState (world st) (trace st) (App.usb_manager (self st))) →
  App.on_usb_manager m st = (Ok a, st).
Proof.
  intros H. unfold App.on_usb_manager. rewrite H.
  now destruct st as [w tr [um fo]].
Qed.

Lemma on_file_ops_pure {A} (m : M W FileOperations.t A) st r :
  m (mkState (world st) (trace st) (App.file_ops (self st)))
  = (r, mkState (world st) (trace st) (App.file_ops (self st))) →
  App.on_file_ops m st = (r, st).
Proof.
  intros H. unfold App.on_file_ops. rewrite H.
  now destruct st as [w tr [um fo]].
Qed.

End DeviceRoutes.

(** X22: the routes [/api/usb/devices] and [/api/usb/status] always answer
    with success: the managers' methods behind them catch every error
    themselves, so the handlers' own [except] branches are never taken.  The
    enumeration leaves the two objects as they were, the status query the
    whole state. *)
Theorem usb_queries_always_answer {W : Type} {HW : Host W} {RT : Runtime}
    (st : state W App.t) :
  (∃ devices st',
     App.get_usb_devices st = (Ok (App.Json (App.Devices devices)), st')
     ∧ self st' = self st)
  ∧ (∃ status,
       App.get_usb_status st = (Ok (App.Json (App.Status status)), st)).
Proof.
  split.
  - destruct (get_available_devices_returns
                (mkState (world st) (trace st) (App.usb_manager (self st))))
      as (devices & s1 & Hd & Hself).
    exists devices. eexists. split.
    + unfold App.get_usb_devices. apply or_500_returned.
      unfold bind, App.on_usb_manager. rewrite Hd. reflexivity.
    + simpl in *. rewrite Hself. now destruct st as [w tr [um fo]].
  - destruct (get_status_total
                (mkState (world st) (trace st) (App.usb_manager (self st))))
      as (status & Hs).
    exists status. unfold App.get_usb_status. apply or_500_returned.
    rewrite (bind_returned _ _ st st status); [reflexivity|].
    now apply on_usb_manager_pure.
Qed.

(** X23: the unmount route answers ["USB device unmounted successfully"]
    whenever the unmount tool comes back, whatever its exit status: the
    session is dropped and the client is told of a success even when the
    volume is still mounted. *)
Theorem unmount_route_reports_success {W : Type} {HW : Host W} {RT : Runtime}
    (st : state W App.t) (mp : string) (c : completed) (w1 : W) :
  USBManager.mount_point (App.usb_manager (self st)) = Some mp →
  PyStr.truthy mp = true →
  run ["sudo"; "umount"; mp] 30 (world st) = (Ok c, w1) →
  ∃ st',
    App.unmount_usb_device st
    = (Ok (App.Json (App.Message "USB device unmounted successfully")), st')
    ∧ USBManager.mount_point (App.usb_manager (self st')) = None
    ∧ USBManager.mounted_device (App.usb_manager (self st')) = None
    ∧ App.file_ops (self st') = App.file_ops (self st)
    ∧ world st' = snd (rmdir mp w1).
Proof.
  intros Hmp Ht Hrun.
  pose proof (unmount_device_mounted
                (mkState (world st) (trace st) (App.usb_manager (self st)))
                mp Hmp Ht) as Hu.
  cbn [world] in Hu. rewrite Hrun in Hu.
  eexists. split.
  - unfold App.unmount_usb_device. apply or_500_returned.
    unfold bind, App.on_usb_manager. rewrite Hu. reflexivity.
  - simpl. auto.
Qed.

Lemma unmount_route_reports_success_witness :
  let st := mkState tt [] Samples.sharing in
  ∃ st',
    App.unmount_usb_device (HW := Samples.unreadable) (RT := Samples.rt) st
    = (Ok (App.Json (App.Message "USB device unmounted successfully")), st')
    ∧ USBManager.mount_point (App.usb_manager (self st')) = None
    ∧ path_ismount (Host := Samples.unreadable) "/media/usb/usb_7" (world st')
      = true.
Proof.
  intros st.
  destruct (unmount_route_reports_success (HW := Samples.unreadable)
              (RT := Samples.rt) st "/media/usb/usb_7"
              {| returncode := 32; stdout := "";
                 stderr := "mount: permission denied" |} tt)
    as (st' & Hr & Hmp & _); [reflexivity ..|].
  exists st'. split; [exact Hr|]. split; [exact Hmp | reflexivity].
Defined.

(** X24: the download route never answers 404.  [abort(404)] is called
    inside the handler's [try], so for a file that does not exist the
    [NotFound] it raises is caught by [except Exception] and the answer is a
    500 carrying that exception's text; the application's 404 handler is
    not involved.  Whatever the state, the answer is the attachment or a
    500. *)
Theorem download_of_missing_file_is_500 {W : Type} {HW : Host W}
    {RT : Runtime} {LB : App.Libraries W}
    (st : state W App.t) (m : USBManager.t) (mp filename : string) :
  FileOperations.usb_manager (App.file_ops (self st)) = Some m →
  USBManager.mount_point m = Some mp →
  PyStr.truthy mp = true →
  path_ismount mp (world st) = true →
  path_exists (PosixPath.join mp [filename]) (world st) = false →
  App.download_file filename st
  = (Ok (App.Error 500 App.not_found_description), st)
  ∧ ∀ st0 : state W App.t,
      ∃ r, fst (App.download_file filename st0) = Ok r
        ∧ ((∃ file_path, r = App.Attachment file_path)
           ∨ (∃ error, r = App.Error 500 error)).
Proof.
  intros Hm Hmp Ht Hmt Hex. split.
  - unfold App.download_file.
    apply (or_500_raised _ st (OtherError App.not_found_description) st).
    rewrite (bind_returned _ _ st st (PosixPath.join mp [filename])).
    + step_monad. now rewrite Hex.
    + apply on_file_ops_pure. unfold FileOperations.get_file_path.
      rewrite (bind_returned _ _ _ _ mp
                 (mounted_root_mounted
                    (mkState (world st) (trace st) (App.file_ops (self st)))
                    m mp Hm Hmp Ht Hmt)).
      reflexivity.
  - intros st0. unfold App.download_file.
    destruct (or_500_answers
      (let* file_path :=
         App.on_file_ops (FileOperations.get_file_path filename) in
       let* w := get_world in
       if negb (path_exists file_path w) then
         raise (OtherError App.not_found_description)
       else
         run* of_result (App.send_file file_path w) in
         ret (App.Attachment file_path)) st0) as (r & Hr & Hcase).
    rewrite Hr. exists r. split; [reflexivity|].
    revert Hcase. unfold bind at 1.
    destruct (App.on_file_ops _ st0) as [[file_path|e] st1]; simpl; [|eauto].
    step_monad.
    destruct (negb (path_exists file_path (world st1))); simpl; [eauto|].
    destruct (App.send_file file_path (world st1)); simpl; intros ->; eauto.
Qed.

Lemma download_of_missing_file_is_500_witness :
  let st := Sim.start Samples.three_entries Samples.sharing in
  App.download_file (RT := Samples.rt) (LB := Samples.libraries) "gone.txt" st
  = (Ok (App.Error 500 App.not_found_description), st)
  ∧ fst (App.download_file (RT := Samples.rt) (LB := Samples.libraries)
           "a.txt" st)
    = Ok (App.Attachment "/media/usb/usb_7/a.txt").
Proof.
  intros st.
  destruct (download_of_missing_file_is_500 (RT := Samples.rt)
              (LB := Samples.libraries) st Samples.plugged
              "/media/usb/usb_7" "gone.txt")
    as (Hgone & _); [reflexivity ..|].
  split; [exact Hgone | reflexivity].
Defined.
